(** * dashboard-pyg: P&L / balance-sheet KPI extraction

    A shallow embedding of the extraction core of the dashboard
    ([utils/data_loader.py], [utils/kpi_extractor.py],
    [utils/balance_loader.py], [config/kpi_mappings.py],
    [utils/formatters.py]) together with the
    properties its specification states about it.

    Modelling conventions.
    - Text is a [string] whose characters are read as Latin-1 code points
      (so the accented vowels of the patterns are single characters).
    - A spreadsheet cell is a [cell]: text, a number or pandas' NaN.
      Numbers are exact rationals ([Q]); IEEE rounding is outside the model.
    - What Python raises is a value of [exn]; fallible code lives in the
      error monad [res].
    - The two places where the code relies on the number syntax of Python
      and pandas ([str] of a number, [pd.to_numeric] of a text) are the
      fields of the class [Runtime]. *)

From Stdlib Require Import Ascii String QArith Qabs Lqa.
From stdpp Require Import gmap strings list sorting pretty.

Local Open Scope string_scope.
Local Open Scope list_scope.

(** ** Python values, exceptions and string primitives *)

Module Py.

Inductive exn : Type :=
| TypeError
| AttributeError
| ValueError
| ZeroDivisionError
| ValidationError
| DataLoadError.

(** [Ok v] is a normal return, [Raise e] an exception in flight. *)
Inductive res (A : Type) : Type :=
| Ok (v : A)
| Raise (e : exn).
Arguments Ok {A} v.
Arguments Raise {A} e.

Definition bind {A B} (m : res A) (k : A -> res B) : res B :=
  match m with
  | Ok v => k v
  | Raise e => Raise e
  end.

#[global] Instance res_ret : MRet res := @Ok.
#[global] Instance res_bind : MBind res := fun A B k m => bind m k.

Inductive cell : Type :=
| Text (s : string)
| Number (q : Q)
| NaN.

(** [pd.isna] *)
Definition isna (c : cell) : bool :=
  match c with NaN => true | _ => false end.

(** [isinstance(v, str)] *)
Definition is_str (c : cell) : bool :=
  match c with Text _ => true | _ => false end.

(** [abs(v)]: a text has no absolute value, NaN stays NaN. *)
Definition py_abs (c : cell) : res cell :=
  match c with
  | Number q => Ok (Number (Qabs q))
  | NaN => Ok NaN
  | Text _ => Raise TypeError
  end.

(** [x / y] on numbers. *)
Definition truediv (x y : Q) : res Q :=
  if Qeq_bool y 0 then Raise ZeroDivisionError else Ok (x / y)%Q.

(** [x > 0] *)
Definition gt0 (x : Q) : bool := negb (Qle_bool x 0).

Definition code (c : ascii) : N := N_of_ascii c.

Definition in_range (lo hi : N) (c : ascii) : bool :=
  ((lo <=? code c) && (code c <=? hi))%N.

(** [str.isspace] for one character, which is also what [\s] matches:
    TAB..CR, FS..US, space, NEL and the no-break space. *)
Definition isspace (c : ascii) : bool :=
  in_range 9 13 c || in_range 28 32 c
  || (code c =? 133)%N || (code c =? 160)%N.

(** [\d] *)
Definition isdigit (c : ascii) : bool := in_range 48 57 c.

(** [\w]: alphanumeric or underscore. *)
Definition isword (c : ascii) : bool :=
  in_range 48 57 c || in_range 65 90 c || in_range 97 122 c
  || (code c =? 95)%N
  || (code c =? 170)%N || (code c =? 181)%N || (code c =? 186)%N
  || (code c =? 178)%N || (code c =? 179)%N || (code c =? 185)%N
  || in_range 188 190 c
  || in_range 192 214 c || in_range 216 246 c || in_range 248 255 c.

(** [str.lower] for one character. *)
Definition lower_char (c : ascii) : ascii :=
  if in_range 65 90 c || in_range 192 214 c || in_range 216 222 c
  then ascii_of_N (code c + 32)
  else c.

Fixpoint lower (s : string) : string :=
  match s with
  | EmptyString => EmptyString
  | String c s' => String (lower_char c) (lower s')
  end.

Fixpoint lstrip (s : string) : string :=
  match s with
  | String c s' => if isspace c then lstrip s' else s
  | EmptyString => EmptyString
  end.

Fixpoint rstrip (s : string) : string :=
  match s with
  | EmptyString => EmptyString
  | String c s' =>
      match rstrip s' with
      | EmptyString => if isspace c then EmptyString else String c EmptyString
      | t => String c t
      end
  end.

(** [s.strip()] *)
Definition strip (s : string) : string := lstrip (rstrip s).

(** [' ' in s] *)
Fixpoint has_space (s : string) : bool :=
  match s with
  | EmptyString => false
  | String c s' => if Ascii.eqb c " " then true else has_space s'
  end.

(** [s.split(' ', 1)[-1]]: what follows the first space, or [s] itself
    when it has none. *)
Fixpoint after_first_space (s : string) : string :=
  match s with
  | EmptyString => EmptyString
  | String c s' =>
      if Ascii.eqb c " " then s'
      else if has_space s' then after_first_space s' else s
  end.

(** Truthiness of a string: [if s]. *)
Definition nonempty (s : string) : bool :=
  match s with EmptyString => false | _ => true end.

(** The number syntax of the interpreter and of pandas. *)
Class Runtime : Type := {
  str_num : Q -> string;              (* str(x) for a number *)
  parse_num : string -> option Q      (* what pd.to_numeric reads in a text *)
}.

(** [str(v)] *)
Definition str `{Runtime} (c : cell) : string :=
  match c with
  | Text s => s
  | Number q => str_num q
  | NaN => "nan"
  end.

(** A dict as the list of its items in insertion order; [dict_set] is
    [d[k] = v]: an existing key keeps its place. *)
Fixpoint dict_set {V} (k : string) (v : V) (d : list (string * V))
  : list (string * V) :=
  match d with
  | [] => [(k, v)]
  | (k', v') :: d' =>
      if String.eqb k k' then (k, v) :: d' else (k', v') :: dict_set k v d'
  end.

Fixpoint dict_get {V} (k : string) (d : list (string * V)) : option V :=
  match d with
  | [] => None
  | (k', v) :: d' => if String.eqb k k' then Some v else dict_get k d'
  end.

End Py.

Export Py.

(** ** The fragment of [re] the patterns are written in

  Every pattern of [kpi_mappings.py] is a sequence of single-character
  atoms, each with an optional quantifier, and of the zero-width
  assertions [^] and [\b].  Matching is by backtracking in the order of
  [re]: a quantifier first takes as much as it can. *)

Module Re.

Inductive atom : Type :=
| Chr (c : ascii)            (* a literal character, escaped or not *)
| Space                      (* \s *)
| Digit                      (* \d *)
| OneOf (cs : list ascii).   (* [...] *)

Inductive quant : Type := One | Opt | Star | Plus.

Inductive item : Type :=
| At (a : atom) (q : quant)
| Bol                        (* ^ *)
| WordB.                     (* \b *)

Definition regex : Type := list item.

(** Does the atom accept the character; [ic] is [re.IGNORECASE]. *)
Definition accepts (ic : bool) (a : atom) (c : ascii) : bool :=
  let same x := if ic then Ascii.eqb (lower_char x) (lower_char c)
                else Ascii.eqb x c in
  match a with
  | Chr x => same x
  | Space => isspace c
  | Digit => isdigit c
  | OneOf cs => existsb same cs
  end.

Definition head_word (s : string) : bool :=
  match s with String c _ => isword c | EmptyString => false end.

Definition prev_word (prev : option ascii) : bool :=
  match prev with Some c => isword c | None => false end.

(** Greedy repetition of one atom followed by the continuation [k],
    which receives the character before the position and the rest of the
    text and answers with the number of characters it matched. *)
Fixpoint star (ic : bool) (a : atom)
    (k : option ascii -> string -> option nat)
    (prev : option ascii) (s : string) : option nat :=
  match s with
  | String c s' =>
      if accepts ic a c then
        match star ic a k (Some c) s' with
        | Some n => Some (S n)
        | None => k prev s
        end
      else k prev s
  | EmptyString => k prev s
  end.

(** Match [r] at the current position; [prev] is the character just
    before it ([None] at the start of the text).  The result is the length
    of the match. *)
Fixpoint match_here (ic : bool) (r : regex)
    (prev : option ascii) (s : string) : option nat :=
  match r with
  | [] => Some 0
  | Bol :: r' =>
      match prev with
      | None => match_here ic r' prev s
      | Some _ => None
      end
  | WordB :: r' =>
      if xorb (prev_word prev) (head_word s)
      then match_here ic r' prev s else None
  | At a One :: r' =>
      match s with
      | String c s' =>
          if accepts ic a c
          then S <$> match_here ic r' (Some c) s' else None
      | EmptyString => None
      end
  | At a Opt :: r' =>
      match s with
      | String c s' =>
          if accepts ic a c then
            match match_here ic r' (Some c) s' with
            | Some n => Some (S n)
            | None => match_here ic r' prev s
            end
          else match_here ic r' prev s
      | EmptyString => match_here ic r' prev s
      end
  | At a Star :: r' => star ic a (match_here ic r') prev s
  | At a Plus :: r' =>
      match s with
      | String c s' =>
          if accepts ic a c
          then S <$> star ic a (match_here ic r') (Some c) s' else None
      | EmptyString => None
      end
  end.

Fixpoint search_from (ic : bool) (r : regex)
    (prev : option ascii) (s : string) : bool :=
  match match_here ic r prev s with
  | Some _ => true
  | None =>
      match s with
      | String c s' => search_from ic r (Some c) s'
      | EmptyString => false
      end
  end.

(** [re.search(r, s)] as a truth value. *)
Definition search (ic : bool) (r : regex) (s : string) : bool :=
  search_from ic r None s.

(** [re.match(r, s)] as a truth value. *)
Definition match_ (ic : bool) (r : regex) (s : string) : bool :=
  match match_here ic r None s with Some _ => true | None => false end.

(** [re.sub(r, '', s)]: [skip] characters of a match in progress are
    still to be dropped.  An empty match removes nothing. *)
Fixpoint sub_from (ic : bool) (r : regex)
    (prev : option ascii) (skip : nat) (s : string) : string :=
  match s with
  | EmptyString => EmptyString
  | String c s' =>
      match skip with
      | S n => sub_from ic r (Some c) n s'
      | O =>
          match match_here ic r prev s with
          | Some (S n) => sub_from ic r (Some c) n s'
          | _ => String c (sub_from ic r (Some c) O s')
          end
      end
  end.

Definition sub_empty (ic : bool) (r : regex) (s : string) : string :=
  sub_from ic r None O s.

(** Pattern syntax: a literal word, and the usual atoms. *)
Fixpoint lit (s : string) : regex :=
  match s with
  | EmptyString => []
  | String c s' => At (Chr c) One :: lit s'
  end.

Definition sp_plus : regex := [At Space Plus].     (* \s+ *)
Definition sp_star : regex := [At Space Star].     (* \s* *)
Definition dot_opt : regex := [At (Chr ".") Opt].  (* \.? *)
Definition par_opt : regex := [At (Chr ")") Opt].  (* \)? *)

(** [[oó]], [[ií]], [[eé]]: the vowel with or without its acute accent. *)
Definition o_acute : ascii := ascii_of_N 243.
Definition i_acute : ascii := ascii_of_N 237.
Definition e_acute : ascii := ascii_of_N 233.
Definition o_ : regex := [At (OneOf ["o"%char; o_acute]) One].
Definition i_ : regex := [At (OneOf ["i"%char; i_acute]) One].
Definition e_ : regex := [At (OneOf ["e"%char; e_acute]) One].

(** Words separated by [\s+]. *)
Fixpoint words (ws : list regex) : regex :=
  match ws with
  | [] => []
  | [w] => w
  | w :: ws' => w ++ sp_plus ++ words ws'
  end.

End Re.

(** ** [config/kpi_mappings.py] *)

Module Config.
Import Re.

(** A concept definition: one value of the [KPI_MAPPINGS] dict.
    ['default'] is only present on the optional concepts. *)
Record config : Type := {
  patterns : list regex;
  sign : Z;
  required : bool;
  default : option Q
}.

(** [a b c] with [\s+] between the words. *)
Definition phrase (ws : list string) : regex := words (lit <$> ws).

Definition explotacion : regex := lit "explotaci" ++ o_ ++ lit "n".
Definition amortizacion : regex := lit "amortizaci" ++ o_ ++ lit "n".

Definition KPI_MAPPINGS : list (string * config) := [
  ("ingresos", {|
     patterns := [
       lit "1" ++ dot_opt ++ sp_star
         ++ phrase ["importe"; "neto"; "de"; "la"; "cifra"; "de"; "negocios"];
       phrase ["importe"; "neto"; "cifra"; "negocios"];
       phrase ["cifra"; "de"; "negocios"];
       phrase ["ventas"; "netas"];
       phrase ["ingresos"; "netos"] ];
     sign := 1; required := true; default := None |});
  ("aprovisionamientos", {|
     patterns := [
       lit "4" ++ dot_opt ++ sp_star ++ lit "aprovisionamientos";
       lit "aprovisionamientos";
       words [lit "compras"; lit "de"; lit "mercader" ++ i_ ++ lit "as"] ];
     sign := -1; required := true; default := None |});
  ("gastos_personal", {|
     patterns := [
       lit "6" ++ dot_opt ++ sp_star ++ phrase ["gastos"; "de"; "personal"];
       phrase ["gastos"; "personal"];
       phrase ["gastos"; "de"; "personal"] ];
     sign := -1; required := true; default := None |});
  ("otros_gastos", {|
     patterns := [
       lit "7" ++ dot_opt ++ sp_star
         ++ words [lit "otros"; lit "gastos"; lit "de"; explotacion];
       words [lit "otros"; lit "gastos"; explotacion];
       words [lit "otros"; lit "gastos"; lit "de"; explotacion] ];
     sign := -1; required := true; default := None |});
  ("amortizacion", {|
     patterns := [
       lit "8" ++ dot_opt ++ sp_star
         ++ words [amortizacion; lit "del"; lit "inmovilizado"];
       words [amortizacion; lit "inmovilizado"];
       amortizacion ];
     sign := -1; required := true; default := None |});
  ("ebitda", {|
     patterns := [
       lit "a" ++ par_opt ++ sp_star
         ++ phrase ["resultado"; "de"; "explotacion"];
       lit "a" ++ par_opt ++ sp_star
         ++ words [lit "resultado"; lit "de"; explotacion];
       [At Digit Plus] ++ dot_opt ++ sp_star
         ++ words [lit "resultado"; lit "de"; explotacion];
       phrase ["resultado"; "de"; "explotacion"];
       words [lit "resultado"; lit "de"; explotacion];
       words [lit "resultado"; explotacion];
       lit "ebitda";
       lit "ebit" ++ [WordB];
       phrase ["beneficio"; "operativo"] ];
     sign := 1; required := true; default := None |});
  ("resultado_financiero", {|
     patterns := [
       lit "b" ++ par_opt ++ sp_star ++ phrase ["resultado"; "financiero"];
       phrase ["resultado"; "financiero"] ];
     sign := 1; required := false; default := Some 0%Q |});
  ("resultado_neto", {|
     patterns := [
       lit "d" ++ par_opt ++ sp_star
         ++ phrase ["resultado"; "del"; "ejercicio"];
       [At Digit Plus] ++ dot_opt ++ sp_star
         ++ phrase ["resultado"; "del"; "ejercicio"];
       phrase ["resultado"; "del"; "ejercicio"];
       phrase ["beneficio"; "neto"];
       phrase ["resultado"; "neto"];
       lit "beneficio" ++ sp_star ++ lit "/" ++ sp_star
         ++ words [lit "p" ++ e_ ++ lit "rdida"; lit "del"; lit "ejercicio"];
       words [lit "resultado"; lit "despu" ++ e_ ++ lit "s";
              lit "de"; lit "impuestos"] ];
     sign := 1; required := true; default := None |});
  ("otros_ingresos", {|
     patterns := [
       lit "5" ++ dot_opt ++ sp_star
         ++ words [lit "otros"; lit "ingresos"; lit "de"; explotacion];
       words [lit "otros"; lit "ingresos"; explotacion];
       phrase ["otros"; "ingresos"] ];
     sign := 1; required := false; default := Some 0%Q |});
  ("gastos_financieros", {|
     patterns := [
       lit "14" ++ dot_opt ++ sp_star ++ phrase ["gastos"; "financieros"];
       phrase ["gastos"; "financieros"] ];
     sign := -1; required := false; default := Some 0%Q |})
].

(** The values of [DETAILED_MAPPINGS]. *)
Record bounded_section : Type := {
  parent_pattern : regex;
  item_pattern : regex;
  stop_pattern : regex
}.

Definition servicios : bounded_section := {|
  parent_pattern := phrase ["705"; "PRESTACIONES"; "DE"; "SERVICIOS"];
  item_pattern := Bol :: lit "705.0.0.";
  stop_pattern := lit "2." ++ sp_star ++ lit "Variaci" ++ o_ ++ lit "n"
|}.

Definition aprovisionamientos_detalle : regex := Bol :: lit "602.0.0.".

Definition personal_detalle : list (regex * string) := [
  (phrase ["640"; "SUELDOS"], "Sueldos y Salarios");
  (phrase ["642"; "SEGURIDAD"; "SOCIAL"], "Seguridad Social");
  (phrase ["641"; "INDEMNIZACIONES"], "Indemnizaciones")
].

Definition otros_gastos_detalle : list (regex * string) := [
  (phrase ["622"; "REPARACIONES"], "Reparaciones y Mantenimiento");
  (phrase ["623"; "SERVICIOS"; "DE"; "PROFESIONALES"],
   "Servicios Profesionales");
  (phrase ["625"; "PRIMAS"; "DE"; "SEGUROS"], "Seguros");
  (phrase ["627"; "PUBLICIDAD"], "Publicidad y Marketing");
  (phrase ["628"; "SUMINISTROS"], "Suministros");
  (phrase ["629"; "OTROS"; "SERVICIOS"], "Otros Servicios");
  (phrase ["631"; "OTROS"; "TRIBUTOS"], "Tributos")
].

(** [match_pattern(text, patterns)] *)
Definition match_pattern (text : string) (patterns : list regex) : bool :=
  let text_lower := strip (lower text) in
  existsb (fun pattern => search true pattern text_lower) patterns.

End Config.

(** ** DataFrames *)

Module Frame.

(** A DataFrame: the column labels and the rows, each row holding one
    cell per column.  A raw sheet is labelled by cells (a header may be a
    number), a processed one by strings. *)
Record DataFrame (L : Type) : Type := mkDF {
  columns : list L;
  rows : list (list cell)
}.
Arguments mkDF {L} columns rows.
Arguments columns {L} d.
Arguments rows {L} d.

(** [row.iloc[i]]; pandas pads short rows with NaN when it reads. *)
Definition at_ (r : list cell) (i : nat) : cell := default NaN (r !! i).

(** [df.iloc[:, i]] *)
Definition iloc_col {L} (d : DataFrame L) (i : nat) : list cell :=
  (fun r => at_ r i) <$> rows d.

(** A row as [iterrows] yields it: a Series indexed by the column
    labels. *)
Definition Series : Type := list (string * cell).

Definition iterrows (d : DataFrame string) : list Series :=
  (fun r => zip (columns d) r) <$> rows d.

(** [row.index] *)
Definition index (row : Series) : list string := fst <$> row.

(** [row.get(col)]; labels are unique in every frame the loaders
    build, so the first hit is the hit. *)
Definition get (row : Series) (col : string) : option cell :=
  dict_get col row.

(** [df.columns = names]: pandas refuses a list of another length. *)
Definition set_columns {L} (d : DataFrame L) (names : list string)
  : res (DataFrame string) :=
  if Nat.eqb (length names) (length (columns d))
  then Ok (mkDF names (rows d))
  else Raise ValueError.

Fixpoint update_row (name : string) (f : cell -> cell)
    (cols : list string) (r : list cell) : list cell :=
  match cols, r with
  | c :: cols', v :: r' =>
      (if String.eqb c name then f v else v) :: update_row name f cols' r'
  | _, _ => r
  end.

(** [df[name] = f(df[name])], cell by cell. *)
Definition map_column (name : string) (f : cell -> cell)
    (d : DataFrame string) : DataFrame string :=
  mkDF (columns d) (update_row name f (columns d) <$> rows d).

(** [pd.to_numeric(v, errors='coerce')] followed by [fillna(0)],
    for one cell. *)
Definition to_numeric `{Runtime} (c : cell) : cell :=
  match c with
  | Number q => Number q
  | Text s => match parse_num s with Some q => Number q | None => NaN end
  | NaN => NaN
  end.

Definition fillna0 (c : cell) : cell :=
  match c with NaN => Number 0 | _ => c end.

(** [v != 0] *)
Definition ne0 (c : cell) : bool :=
  match c with
  | Number q => negb (Qeq_bool q 0)
  | _ => true
  end.

End Frame.

Export Frame.

(** ** [utils/data_loader.py] *)

Module DataLoader.
Section with_runtime.
Context `{Runtime}.

(** The attributes of a [DataLoader] object. *)
Record t : Type := mk {
  df : option (DataFrame string);
  years : list string;
  _raw_df : option (DataFrame cell)
}.

(** [DataLoader()] *)
Definition init : t := {| df := None; years := []; _raw_df := None |}.

Definition newline : ascii := ascii_of_N 10.

(** [year_pattern.match(s)] for [^(20\d{2}|19\d{2})$].  The [$] of [re]
    also accepts the position before a final line feed. *)
Definition year_pattern (s : string) : bool :=
  match s with
  | String a (String b (String c (String d rest))) =>
      ((Ascii.eqb a "2" && Ascii.eqb b "0")
       || (Ascii.eqb a "1" && Ascii.eqb b "9"))
      && isdigit c && isdigit d
      && match rest with
         | EmptyString => true
         | String n EmptyString => Ascii.eqb n newline
         | _ => false
         end
  | _ => false
  end.

(** One pass of [for i, v in enumerate(cells)] collecting [(i, text)] for
    the cells whose stripped text is a year; used on the header and on
    each of the first rows. *)
Fixpoint scan_years (i : nat) (cells : list cell) : list (nat * string) :=
  match cells with
  | [] => []
  | v :: cells' =>
      let v_str := strip (str v) in
      if year_pattern v_str
      then (i, v_str) :: scan_years (S i) cells'
      else scan_years (S i) cells'
  end.

(** [year_columns] once the header and, if it has none, the first five
    rows have been searched. *)
Definition detect_year_columns (d : DataFrame cell) : list (nat * string) :=
  match scan_years 0 (columns d) with
  | [] => mjoin (scan_years 0 <$> take 5 (rows d))
  | year_columns => year_columns
  end.

Definition default_columns : list string :=
  ["Col1"; "Concepto"; "Col3"; "Col4"; "Col5"; "Col6";
   "2025"; "2024"; "2023"; "2022"].

Definition default_years : list string := ["2025"; "2024"; "2023"; "2022"].

(** [sorted(set(ys), reverse=True)] *)
Definition sorted_set_reverse (ys : list string) : list string :=
  merge_sort (flip String.le) (elements (list_to_set ys : gset string)).

(** Is column [i] mostly text: of the non-empty cells among its first
    20, more than half are strings longer than 5 characters. *)
Definition mostly_text (d : DataFrame cell) (i : nat) : bool :=
  let sample_values :=
    List.filter (fun v => negb (isna v)) (take 20 (iloc_col d i)) in
  let text_count :=
    length (List.filter (fun v => match v with
                                  | Text s => Nat.ltb 5 (String.length s)
                                  | _ => false
                                  end) sample_values) in
  Nat.ltb 0 (length sample_values)
  && Nat.ltb (length sample_values) (2 * text_count).

(** The loop that looks for the concept column: the first column that is
    not a year column and is mostly text. *)
Fixpoint find_concepto (d : DataFrame cell) (year_idx : list nat)
    (i n : nat) : option nat :=
  match n with
  | O => None
  | S n' =>
      if bool_decide (i ∉ year_idx) && mostly_text d i
      then Some i
      else find_concepto d year_idx (S i) n'
  end.

Definition _detect_and_rename_columns (self : t) : res t :=
  match _raw_df self with
  | None => Raise AttributeError
  | Some raw =>
      let year_columns := detect_year_columns raw in
      self' ← match year_columns with
      | [] =>
          if Nat.leb 10 (length (columns raw)) then
            d ← set_columns raw default_columns;
            Ok (d, default_years)
          else Raise ValidationError
      | _ =>
          let years := sorted_set_reverse (snd <$> year_columns) in
          let concepto_col :=
            match find_concepto raw (fst <$> year_columns) 0
                    (length (columns raw)) with
            | Some i => i
            | None => if Nat.ltb 1 (length (columns raw)) then 1%nat else 0%nat
            end in
          let columns_to_keep :=
            foldl (fun keep '(idx, year) => dict_set year idx keep)
                  [("Concepto", concepto_col)] year_columns in
          let new_df :=
            mkDF (fst <$> columns_to_keep)
                 ((fun r => (fun '(_, idx) => at_ r idx) <$> columns_to_keep)
                    <$> rows raw) in
          Ok (new_df, years)
      end;
      let '(d, years) := self' in
      let years := match years with [] => default_years | _ => years end in
      Ok {| df := Some d; years := years; _raw_df := _raw_df self |}
  end.

Definition _clean_data (self : t) : t :=
  match df self with
  | None => self
  | Some d =>
      let d' :=
        foldl (fun d year =>
                 if bool_decide (year ∈ columns d)
                 then map_column year (fun v => fillna0 (to_numeric v)) d
                 else d)
              d (years self) in
      {| df := Some d'; years := years self; _raw_df := _raw_df self |}
  end.

(** [(df[year] != 0).sum()] *)
Definition count_nonzero (d : DataFrame string) (year : string) : nat :=
  length (List.filter (fun row => match get row year with
                                  | Some v => ne0 v
                                  | None => false
                                  end) (iterrows d)).

Definition _validate_structure (self : t) : res unit :=
  match df self with
  | None => Raise ValidationError
  | Some d =>
      if Nat.eqb (length (rows d)) 0 then Raise ValidationError
      else
        let year_cols :=
          List.filter (fun y => bool_decide (y ∈ columns d)) (years self) in
        match year_cols with
        | [] => Raise ValidationError
        | _ =>
            let total_values :=
              foldl (fun total year => (total + count_nonzero d year)%nat)
                    0%nat year_cols in
            if Nat.eqb total_values 0 then Raise ValidationError
            else Ok tt
        end
  end.

(** [loader.load(file)].  [read] is what [pd.read_excel] made of the
    file: the first sheet, or the exception it raised.  The loader is an
    object: the attributes set before an exception stay set. *)
Definition load (self : t) (read : res (DataFrame cell))
  : t * res (DataFrame string) :=
  match read with
  | Raise _ => (self, Raise DataLoadError)
  | Ok raw =>
      let self := {| df := df self; years := years self;
                     _raw_df := Some raw |} in
      match _detect_and_rename_columns self with
      | Raise e => (self, Raise e)
      | Ok self =>
          let self := _clean_data self in
          match _validate_structure self with
          | Raise e => (self, Raise e)
          | Ok _ =>
              match df self with
              | Some d => (self, Ok d)
              | None => (self, Raise AttributeError) (* validation refused it *)
              end
          end
      end
  end.

Definition get_years (self : t) : list string := years self.

(** [loader.get_dataframe()] *)
Definition get_dataframe (self : t) : res (DataFrame string) :=
  match df self with
  | None => Raise DataLoadError
  | Some d => Ok d
  end.

End with_runtime.
End DataLoader.

(** ** [utils/kpi_extractor.py] *)

Module KPIExtractor.
Section with_runtime.
Context `{Runtime}.

(** A [Dict[str, float]] keyed by year, and a dict of those. *)
Abbreviation year_values := (gmap string cell).
Abbreviation kpi_map := (gmap string (gmap string cell)).

(** The attributes of a [KPIExtractor] object. *)
Record t : Type := mk {
  df : DataFrame string;
  years : list string;
  kpis : kpi_map;
  _not_found : list string;
  _found : list string
}.

(** [KPIExtractor(df, years)] *)
Definition init (df : DataFrame string) (years : list string) : t :=
  {| df := df; years := years; kpis := ∅; _not_found := []; _found := [] |}.

(** The dict comprehension [{year: f(year) for year in years}], where
    evaluating [f] may raise. *)
Fixpoint comprehension (f : string -> res cell) (years : list string)
    (acc : year_values) : res year_values :=
  match years with
  | [] => Ok acc
  | year :: years' =>
      v ← f year;
      comprehension f years' (<[year := v]> acc)
  end.

(** The inner loop of [_find_kpi]: is there a column outside the years
    whose text matches one of the patterns. *)
Fixpoint found_in (years : list string) (patterns : list Re.regex)
    (row : Series) : bool :=
  match row with
  | [] => false
  | (col, v) :: row' =>
      if bool_decide (col ∈ years) then found_in years patterns row'
      else
        let cell_value := str v in
        if nonempty cell_value && Config.match_pattern cell_value patterns
        then true
        else found_in years patterns row'
  end.

(** The value [_find_kpi] stores for one year of the matched row. *)
Definition year_value (sign : Z) (row : Series) (year : string) : res cell :=
  match get row year with
  | Some value =>
      let value := if isna value then Number 0 else value in
      if Z.eqb sign (-1) then py_abs value else Ok value
  | None => Ok (Number 0)
  end.

(** The outer loop of [_find_kpi] over the rows that are left. *)
Fixpoint find_in_rows (years : list string) (patterns : list Re.regex)
    (sign : Z) (rows : list Series) : res (option year_values) :=
  match rows with
  | [] => Ok None
  | row :: rows' =>
      if found_in years patterns row
      then result ← comprehension (year_value sign row) years ∅; Ok (Some result)
      else find_in_rows years patterns sign rows'
  end.

Definition _find_kpi (self : t) (kpi_name : string) (config : Config.config)
  : res (option year_values) :=
  find_in_rows (years self) (Config.patterns config) (Config.sign config)
               (iterrows (df self)).

(** The body of the loop of [extract_all]. *)
Definition extract_one (self : t) (item : string * Config.config) : res t :=
  let '(kpi_name, config) := item in
  value ← _find_kpi self kpi_name config;
  match value with
  | Some value =>
      Ok {| df := df self; years := years self;
            kpis := <[kpi_name := value]> (kpis self);
            _not_found := _not_found self;
            _found := _found self ++ [kpi_name] |}
  | None =>
      if Config.required config then
        Ok {| df := df self; years := years self; kpis := kpis self;
              _not_found := _not_found self ++ [kpi_name];
              _found := _found self |}
      else
        let default := default 0%Q (Config.default config) in
        value ← comprehension (fun _ => Ok (Number default)) (years self) ∅;
        Ok {| df := df self; years := years self;
              kpis := <[kpi_name := value]> (kpis self);
              _not_found := _not_found self;
              _found := _found self |}
  end.

Fixpoint extract_loop (items : list (string * Config.config)) (self : t) : res t :=
  match items with
  | [] => Ok self
  | item :: items' => self' ← extract_one self item; extract_loop items' self'
  end.

(** [extractor.extract_all()]: the object after the call; what the call
    returns is its [kpis]. *)
Definition extract_all (self : t) : res t := extract_loop Config.KPI_MAPPINGS self.

Definition get_missing_kpis (self : t) : list string := _not_found self.
Definition get_found_kpis (self : t) : list string := _found self.

(** [str(row.get('Concepto', ''))] *)
Definition concepto_of (row : Series) : string :=
  str (default (Text "") (get row "Concepto")).

(** [row.get(year, 0)] *)
Definition get0 (row : Series) (year : string) : cell :=
  default (Number 0) (get row year).

(** The display name of an item row: the label without the item prefix,
    stripped, and then what follows its first space if it has one. *)
Definition item_name (item_pattern : Re.regex) (concepto : string) : string :=
  let nombre := strip (Re.sub_empty false item_pattern concepto) in
  if has_space nombre then after_first_space nombre else nombre.

(** One iteration of the loop of [_extract_servicios]; the state is the
    flag [in_servicios] and the dict built so far. *)
Definition servicios_step (years : list string)
    (st : bool * kpi_map) (row : Series) : bool * kpi_map :=
  let '(in_servicios, servicios) := st in
  let concepto := concepto_of row in
  if negb (nonempty concepto) then st
  else if Re.search true (Config.parent_pattern Config.servicios) concepto
  then (true, servicios)
  else if in_servicios then
    if Re.search true (Config.stop_pattern Config.servicios) concepto
    then (false, servicios)
    else if Re.match_ false (Config.item_pattern Config.servicios) concepto then
      let nombre := item_name (Config.item_pattern Config.servicios) concepto in
      (in_servicios,
       <[nombre := foldl (fun d year => <[year := get0 row year]> d) ∅ years]>
         servicios)
    else st
  else st.

Definition _extract_servicios (self : t) : kpi_map :=
  snd (foldl (servicios_step (years self)) (false, ∅) (iterrows (df self))).

(** [{year: abs(row.get(year, 0)) for year in self.years}] *)
Definition abs_values (years : list string) (row : Series) : res year_values :=
  comprehension (fun year => py_abs (get0 row year)) years ∅.

Fixpoint aprovisionamientos_loop (years : list string) (rows : list Series)
    (aprovisionamientos : kpi_map) : res kpi_map :=
  match rows with
  | [] => Ok aprovisionamientos
  | row :: rows' =>
      let concepto := concepto_of row in
      if negb (nonempty concepto)
      then aprovisionamientos_loop years rows' aprovisionamientos
      else if Re.match_ false Config.aprovisionamientos_detalle concepto then
        let nombre := item_name Config.aprovisionamientos_detalle concepto in
        values ← abs_values years row;
        aprovisionamientos_loop years rows'
          (<[nombre := values]> aprovisionamientos)
      else aprovisionamientos_loop years rows' aprovisionamientos
  end.

Definition _extract_aprovisionamientos (self : t) : res kpi_map :=
  aprovisionamientos_loop (years self) (iterrows (df self)) ∅.

(** [for pattern, nombre in categories: if re.search(...): ...; break]:
    the label of the first category whose pattern is found. *)
Fixpoint first_category (categories : list (Re.regex * string))
    (concepto : string) : option string :=
  match categories with
  | [] => None
  | (pattern, nombre) :: categories' =>
      if Re.search true pattern concepto then Some nombre
      else first_category categories' concepto
  end.

Fixpoint categories_loop (categories : list (Re.regex * string))
    (years : list string) (rows : list Series) (acc : kpi_map)
  : res kpi_map :=
  match rows with
  | [] => Ok acc
  | row :: rows' =>
      let concepto := concepto_of row in
      if negb (nonempty concepto)
      then categories_loop categories years rows' acc
      else
        match first_category categories concepto with
        | Some nombre =>
            values ← abs_values years row;
            categories_loop categories years rows' (<[nombre := values]> acc)
        | None => categories_loop categories years rows' acc
        end
  end.

Definition _extract_personal (self : t) : res kpi_map :=
  categories_loop Config.personal_detalle (years self) (iterrows (df self)) ∅.

Definition _extract_otros_gastos (self : t) : res kpi_map :=
  categories_loop Config.otros_gastos_detalle (years self) (iterrows (df self)) ∅.

End with_runtime.
End KPIExtractor.

(** ** [utils/balance_loader.py] *)

Module BalanceLoader.
Section with_runtime.
Context `{Runtime}.

(** [self.df] is first the sheet as it was read and then the same frame
    renamed and cleaned; its labels are cells, the ten names being
    texts. *)
Record t : Type := mk {
  df : option (DataFrame cell);
  years : list string
}.

Definition init : t := {| df := None; years := [] |}.

Definition balance_columns : list string :=
  ["Col1"; "Col2"; "Concepto"; "Col4"; "Col5"; "Col6";
   "2025"; "2024"; "2023"; "2022"].

(** [loader.load(uploaded_file)]; [read] is the outcome of
    [pd.read_excel], whose exception this loader lets through. *)
Definition load (self : t) (read : res (DataFrame cell))
  : t * res (DataFrame string) :=
  match read with
  | Raise e => (self, Raise e)
  | Ok raw =>
      let self := {| df := Some raw; years := years self |} in
      match set_columns raw balance_columns with
      | Raise e => (self, Raise e)
      | Ok d =>
          let years := ["2025"; "2024"; "2023"; "2022"] in
          let d := foldl (fun d year =>
                            map_column year (fun v => fillna0 (to_numeric v)) d)
                         d years in
          ({| df := Some (mkDF (Text <$> columns d) (rows d));
              years := years |}, Ok d)
      end
  end.

Definition get_years (self : t) : list string := years self.

End with_runtime.
End BalanceLoader.

Module Ratios.

Abbreviation kpi_values := (gmap string (gmap string Q)).

(** [kpis.get(name, {}).get(year, 0)] *)
Definition value_of (kpis : kpi_values) (name year : string) : Q :=
  default 0%Q (kpis !! name ≫= fun by_year => by_year !! year).

(** The body of the loop of [calculate_financial_ratios]: the dict
    [year_ratios] of one year. *)
Definition year_ratios (balance_kpis pyg_kpis : kpi_values) (year : string)
  : res (gmap string Q) :=
  let activo_total := value_of balance_kpis "total_activo" year in
  let activo_corriente := value_of balance_kpis "activo_corriente" year in
  let pasivo_corriente := value_of balance_kpis "pasivo_corriente" year in
  let pasivo_no_corriente := value_of balance_kpis "pasivo_no_corriente" year in
  let patrimonio_neto := value_of balance_kpis "patrimonio_neto" year in
  let existencias := value_of balance_kpis "existencias" year in
  let efectivo := value_of balance_kpis "efectivo" year in
  let resultado_neto := value_of pyg_kpis "resultado_neto" year in
  let ingresos := value_of pyg_kpis "ingresos" year in
  let pasivo_total := (pasivo_corriente + pasivo_no_corriente)%Q in
  let r : gmap string Q := ∅ in
  (* liquidity *)
  r ← (if gt0 pasivo_corriente then
         a ← truediv activo_corriente pasivo_corriente;
         b ← truediv (activo_corriente - existencias)%Q pasivo_corriente;
         c ← truediv efectivo pasivo_corriente;
         Ok (<["ratio_tesoreria" := c]>
               (<["ratio_acid_test" := b]> (<["ratio_liquidez" := a]> r)))
       else
         Ok (<["ratio_tesoreria" := 0%Q]>
               (<["ratio_acid_test" := 0%Q]> (<["ratio_liquidez" := 0%Q]> r))));
  (* indebtedness *)
  r ← (if gt0 activo_total then
         a ← truediv pasivo_total activo_total;
         b ← truediv patrimonio_neto activo_total;
         Ok (<["ratio_autonomia" := b]> (<["ratio_endeudamiento" := a]> r))
       else
         Ok (<["ratio_autonomia" := 0%Q]>
               (<["ratio_endeudamiento" := 0%Q]> r)));
  r ← (if gt0 patrimonio_neto then
         a ← truediv pasivo_total patrimonio_neto;
         Ok (<["ratio_apalancamiento" := a]> r)
       else Ok (<["ratio_apalancamiento" := 0%Q]> r));
  (* profitability *)
  r ← (if gt0 patrimonio_neto then
         a ← truediv resultado_neto patrimonio_neto;
         Ok (<["roe" := (a * 100)%Q]> r)
       else Ok (<["roe" := 0%Q]> r));
  r ← (if gt0 activo_total then
         a ← truediv resultado_neto activo_total;
         b ← truediv ingresos activo_total;
         Ok (<["rotacion_activos" := b]> (<["roa" := (a * 100)%Q]> r))
       else Ok (<["rotacion_activos" := 0%Q]> (<["roa" := 0%Q]> r)));
  r ← (if gt0 ingresos then
         a ← truediv resultado_neto ingresos;
         Ok (<["margen_neto" := (a * 100)%Q]> r)
       else Ok (<["margen_neto" := 0%Q]> r));
  (* solvency *)
  r ← (if gt0 pasivo_total then
         a ← truediv activo_total pasivo_total;
         Ok (<["ratio_solvencia" := a]> r)
       else Ok (<["ratio_solvencia" := 0%Q]> r));
  (* working capital *)
  let fondo_maniobra := (activo_corriente - pasivo_corriente)%Q in
  let r := <["fondo_maniobra" := fondo_maniobra]> r in
  if gt0 activo_total then
    a ← truediv fondo_maniobra activo_total;
    Ok (<["capital_circulante_ratio" := a]> r)
  else Ok (<["capital_circulante_ratio" := 0%Q]> r).

Fixpoint ratios_loop (balance_kpis pyg_kpis : kpi_values)
    (years : list string) (ratios : kpi_values) : res kpi_values :=
  match years with
  | [] => Ok ratios
  | year :: years' =>
      r ← year_ratios balance_kpis pyg_kpis year;
      ratios_loop balance_kpis pyg_kpis years' (<[year := r]> ratios)
  end.

Definition calculate_financial_ratios (balance_kpis pyg_kpis : kpi_values)
    (years : list string) : res kpi_values :=
  ratios_loop balance_kpis pyg_kpis years ∅.

End Ratios.

(** ** Sample data

    A runtime whose numbers are integers written in decimal, enough to
    run the loaders on sheets of whole amounts. *)

Module Sample.

Fixpoint digits_acc (acc : Z) (s : string) : option Z :=
  match s with
  | EmptyString => Some acc
  | String c s' =>
      if isdigit c
      then digits_acc (10 * acc + (Z.of_N (code c) - 48))%Z s'
      else None
  end.

Definition digits_to_Z (s : string) : option Z :=
  match s with
  | EmptyString => None
  | _ => digits_acc 0 s
  end.

#[global] Instance runtime : Runtime := {|
  str_num q := if Pos.eqb (Qden q) 1 then pretty (Qnum q)
               else (pretty (Qnum q) +:+ "/" +:+ pretty (Zpos (Qden q)))%string;
  parse_num s :=
    match s with
    | String "-" s' => (fun z => inject_Z (- z)) <$> digits_to_Z s'
    | _ => inject_Z <$> digits_to_Z s
    end
|}.

End Sample.


(** ** [BalanceKPIExtractor] of [utils/balance_loader.py] *)

Module BalanceKPIExtractor.
Section with_runtime.
Context `{Runtime}.

Abbreviation year_values := (gmap string cell).
Abbreviation kpi_map := (gmap string (gmap string cell)).

Record t : Type := mk {
  df : DataFrame string;
  years : list string
}.

(** [p in s] for two strings. *)
Fixpoint startswith (p s : string) : bool :=
  match p, s with
  | EmptyString, _ => true
  | String a p', String b s' => Ascii.eqb a b && startswith p' s'
  | String _ _, EmptyString => false
  end.

Fixpoint contains (p s : string) : bool :=
  startswith p s
  || match s with
     | String _ s' => contains p s'
     | EmptyString => false
     end.

(** The text the markers are looked for in: the cells of [Col1], [Col2]
    and [Concepto] that are not empty, each after a blank, in lower case
    and stripped. *)
Definition concepto_of (self : t) (row : Series) : string :=
  let concepto :=
    foldl (fun concepto col =>
             if bool_decide (col ∈ columns (df self))
                && match get row col with
                   | Some v => negb (isna v)
                   | None => false
                   end
             then (concepto +:+ " "
                     +:+ str (default (Text "") (get row col)))
             else concepto)
          "" ["Col1"; "Col2"; "Concepto"] in
  strip (lower concepto).

(** [{year: row[year] for year in self.years}]; [None] is the [KeyError]
    of [row[year]] for a year that is not a column. *)
Fixpoint year_dict (row : Series) (years : list string) (acc : year_values)
  : option year_values :=
  match years with
  | [] => Some acc
  | year :: years' =>
      v ← get row year;
      year_dict row years' (<[year := v]> acc)
  end.

Definition liquidos : string :=
  "l" +:+ String (ascii_of_N 237) "quidos".

(** The [if]/[elif] chain of [extract_all]: the key the row is written
    to, if any, the dict being [kpis] so far. *)
Definition target (kpis : kpi_map) (concepto : string) : option string :=
  let has marker := contains marker concepto in
  if has "a) activo no corriente" then Some "activo_no_corriente"
  else if has "b) activo corriente" then Some "activo_corriente"
  else if has "total activo (a+b)" then Some "total_activo"
  else if has "i. existencias" && negb (has "activo") then Some "existencias"
  else if has "ii. deudores comerciales y otras cuentas a cobrar"
  then Some "deudores"
  else if has ("vi. efectivo y otros activos " +:+ liquidos)
  then Some "efectivo"
  else if has "i. inmovilizado intangible" then Some "inmovilizado_intangible"
  else if has "ii. inmovilizado material" then Some "inmovilizado_material"
  else if has "a) patrimonio neto" && negb (has "total")
  then Some "patrimonio_neto"
  else if has "a-1) fondos propios" then Some "fondos_propios"
  else if has "i. capital" && negb (has "social") then
    (if bool_decide (is_Some (kpis !! "capital")) then None
     else Some "capital")
  else if has "iii. reservas"
          && negb (bool_decide (is_Some (kpis !! "reservas")))
  then Some "reservas"
  else if has "vii. resultado del ejercicio"
  then Some "resultado_ejercicio_balance"
  else if has "b) pasivo no corriente" then Some "pasivo_no_corriente"
  else if has "c) pasivo corriente" then Some "pasivo_corriente"
  else if has "total patrimonio neto y pasivo"
  then Some "total_pasivo_patrimonio"
  else if has "ii. deudas a largo plazo" then Some "deudas_largo_plazo"
  else if has "ii. deudas a corto plazo" then Some "deudas_corto_plazo"
  else if has "iv. acreedores comerciales y otras cuentas a pagar"
  then Some "acreedores"
  else None.

(** One turn of the loop of [extract_all]. *)
Definition step (self : t) (kpis : kpi_map) (row : Series)
  : option kpi_map :=
  match target kpis (concepto_of self row) with
  | Some name =>
      values ← year_dict row (years self) ∅;
      Some (<[name := values]> kpis)
  | None => Some kpis
  end.

Fixpoint loop (self : t) (rows : list Series) (kpis : kpi_map)
  : option kpi_map :=
  match rows with
  | [] => Some kpis
  | row :: rows' => kpis' ← step self kpis row; loop self rows' kpis'
  end.

(** [extractor.extract_all()] *)
Definition extract_all (self : t) : option kpi_map :=
  loop self (iterrows (df self)) ∅.

(** The categories of [extract_detailed_activo]. *)
Definition categorias : list (string * string) := [
  ("210 TERRENOS", "Terrenos");
  ("211 CONSTRUCCIONES", "Construcciones");
  ("212 INSTALACIONES", "Instalaciones T" +:+ String (ascii_of_N 233) "cnicas");
  ("213 MAQUINARIA", "Maquinaria");
  ("214 UTILLAJE", "Utillaje");
  ("215 OTRAS INSTALACIONES", "Otras Instalaciones");
  ("216 MOBILIARIO", "Mobiliario");
  ("217 EQUIPOS", "Equipos Inform" +:+ String (ascii_of_N 225) "ticos");
  ("218 ELEMENTOS DE TRANSPORTE", "Elementos de Transporte")
].

(** [for codigo, nombre in categorias: if codigo in concepto: ...; break] *)
Fixpoint first_codigo (cats : list (string * string)) (concepto : string)
  : option string :=
  match cats with
  | [] => None
  | (codigo, nombre) :: cats' =>
      if contains codigo concepto then Some nombre
      else first_codigo cats' concepto
  end.

Fixpoint activo_loop (years : list string) (rows : list Series)
    (activo : kpi_map) : option kpi_map :=
  match rows with
  | [] => Some activo
  | row :: rows' =>
      let concepto :=
        match get row "Concepto" with
        | Some v => if isna v then "" else str v
        | None => ""
        end in
      match first_codigo categorias concepto with
      | Some nombre =>
          values ← year_dict row years ∅;
          activo_loop years rows' (<[nombre := values]> activo)
      | None => activo_loop years rows' activo
      end
  end.

(** [extractor.extract_detailed_activo()] *)
Definition extract_detailed_activo (self : t) : option kpi_map :=
  activo_loop (years self) (iterrows (df self)) ∅.

End with_runtime.
End BalanceKPIExtractor.

(** ** [utils/formatters.py] *)

Module Formatters.

(** [calculate_variation(current, previous)]: the body of the [try] and
    then its [except (ValueError, TypeError, ZeroDivisionError)]. *)
Definition calculate_variation (current previous : Q) : res Q :=
  let body :=
    if Qeq_bool previous 0 then
      if Qeq_bool current 0 then Ok 0%Q
      else Ok (if gt0 current then 100 else -100)%Q
    else
      q ← truediv (current - previous)%Q (Qabs previous);
      Ok (q * 100)%Q in
  match body with
  | Raise ValueError | Raise TypeError | Raise ZeroDivisionError => Ok 0%Q
  | outcome => outcome
  end.

End Formatters.

(** ** Vocabulary of the statements about the ratios *)

Module RatiosSpec.

(** The three liquidity ratios of one year, as the guard [> 0] leaves
    them. *)
Definition liquidity (balance_kpis : Ratios.kpi_values) (year : string)
  : Q * Q * Q :=
  let ac := Ratios.value_of balance_kpis "activo_corriente" year in
  let pc := Ratios.value_of balance_kpis "pasivo_corriente" year in
  let ex := Ratios.value_of balance_kpis "existencias" year in
  let ef := Ratios.value_of balance_kpis "efectivo" year in
  if gt0 pc then (ac / pc, (ac - ex) / pc, ef / pc)%Q else (0, 0, 0)%Q.

Definition has_liquidity (l : Q * Q * Q) (r : gmap string Q) : Prop :=
  r !! "ratio_liquidez" = Some l.1.1 /\
  r !! "ratio_acid_test" = Some l.1.2 /\
  r !! "ratio_tesoreria" = Some l.2.

(** What the returned ratio map holds for a year and a ratio. *)
Definition ratio_value (r : res Ratios.kpi_values) (year name : string)
  : option Q :=
  match r with
  | Ok ratios => ratios !! year ≫= fun by_name => by_name !! name
  | Raise _ => None
  end.

(** Balance sheets of one year: current liabilities of 100, and of -100
    as exports that sign their liabilities write them. *)
Definition sample_balance : Ratios.kpi_values :=
  {[ "activo_corriente" := {[ "2024" := 200%Q ]};
     "pasivo_corriente" := {[ "2024" := 100%Q ]} ]}.

Definition negative_balance : Ratios.kpi_values :=
  {[ "activo_corriente" := {[ "2024" := 200%Q ]};
     "pasivo_corriente" := {[ "2024" := (-100)%Q ]} ]}.

End RatiosSpec.

(** ** Vocabulary of the statements about the loaders *)

Module LoaderSpec.
Section with_runtime.
Context `{Runtime}.

(** A cell among [cells] reads, once stripped, as a year 1900..2099. *)
Definition has_year_token (cells : list cell) : bool :=
  existsb (fun v => DataLoader.year_pattern (strip (str v))) cells.

(** No year in the header nor in the first five rows of the sheet. *)
Definition no_year_tokens (raw : DataFrame cell) : bool :=
  negb (has_year_token (columns raw))
  && forallb (fun r => negb (has_year_token r)) (take 5 (rows raw)).

(** Exactly four decimal digits. *)
Definition four_digits (s : string) : bool :=
  match s with
  | String a (String b (String c (String d EmptyString))) =>
      isdigit a && isdigit b && isdigit c && isdigit d
  | _ => false
  end.

(** The number a string of decimal digits writes. *)
Fixpoint decimal (acc : N) (s : string) : N :=
  match s with
  | EmptyString => acc
  | String c s' => decimal (10 * acc + (code c - 48))%N s'
  end.

Definition year_number (s : string) : N := decimal 0 s.

Fixpoint last_char (s : string) : option ascii :=
  match s with
  | EmptyString => None
  | String c EmptyString => Some c
  | String _ s' => last_char s'
  end.

(** What cleaning does to a row of the ten-column layout: the cells at
    positions 6..9 are coerced to numbers, the others are kept. *)
Fixpoint clean_from (i : nat) (r : list cell) : list cell :=
  match r with
  | [] => []
  | v :: r' =>
      (if Nat.leb 6 i && Nat.ltb i 10 then fillna0 (to_numeric v) else v)
        :: clean_from (S i) r'
  end.

(** Cleaning one row: every year of the list in turn. *)
Definition clean_row (cols : list string) (years : list string)
    (r : list cell) : list cell :=
  foldl (fun r year =>
           update_row year (fun v => fillna0 (to_numeric v)) cols r) r years.

End with_runtime.
End LoaderSpec.

(** ** Vocabulary of the statements about the extractor *)

Module ExtractorSpec.
Section with_runtime.
Context `{Runtime}.

Definition is_number (c : cell) : bool :=
  match c with Number _ => true | _ => false end.

(** Every year cell of the rows is a number, which is how [_clean_data]
    leaves the year columns. *)
Definition numeric_row (years : list string) (row : Series) : bool :=
  forallb (fun y => match get row y with
                    | Some v => is_number v
                    | None => true
                    end) years.

Definition numeric_years (years : list string) (rows : list Series) : bool :=
  forallb (numeric_row years) rows.

(** A non-negative number. *)
Definition nonneg (c : cell) : Prop :=
  match c with
  | Number q => (0 <= q)%Q
  | _ => False
  end.

(** Some cell of the row outside the year columns has a text that one of
    the patterns matches. *)
Definition cell_matches (years : list string) (patterns : list Re.regex)
    (row : Series) : bool :=
  existsb (fun '(col, v) =>
             negb (bool_decide (col ∈ years))
             && nonempty (str v)
             && Config.match_pattern (str v) patterns) row.

(** The other reading: the texts of the cells outside the year columns,
    joined by [sep] into one search string, match. *)
Definition search_string (sep : string) (years : list string)
    (row : Series) : string :=
  String.concat sep
    (List.map (fun '(_, v) => str v)
       (List.filter (fun '(col, _) => negb (bool_decide (col ∈ years))) row)).

Definition concat_matches (sep : string) (years : list string)
    (patterns : list Re.regex) (row : Series) : bool :=
  Config.match_pattern (search_string sep years row) patterns.

(** What the returned KPI map holds for a concept and a year. *)
Definition kpi_value (r : res KPIExtractor.t) (name year : string)
  : option cell :=
  match r with
  | Ok st => KPIExtractor.kpis st !! name ≫= fun ys => ys !! year
  | Raise _ => None
  end.

(** The same for a detail map. *)
Definition detail_value (m : gmap string (gmap string cell))
    (name year : string) : option cell :=
  m !! name ≫= fun ys => ys !! year.


(** [{year: f(year) for year in years}], pointwise. *)
Definition is_comprehension (f : string -> cell) (years : list string)
    (d : gmap string cell) : Prop :=
  forall y, d !! y = if bool_decide (y ∈ years) then Some (f y) else None.

(** The rows of the servicios section, by their label. *)
Definition is_parent (row : Series) : bool :=
  let c := KPIExtractor.concepto_of row in
  nonempty c && Re.search true (Config.parent_pattern Config.servicios) c.

Definition is_stop (row : Series) : bool :=
  let c := KPIExtractor.concepto_of row in
  nonempty c
  && negb (Re.search true (Config.parent_pattern Config.servicios) c)
  && Re.search true (Config.stop_pattern Config.servicios) c.

Definition is_item (row : Series) : bool :=
  let c := KPIExtractor.concepto_of row in
  nonempty c
  && negb (Re.search true (Config.parent_pattern Config.servicios) c)
  && negb (Re.search true (Config.stop_pattern Config.servicios) c)
  && Re.match_ false (Config.item_pattern Config.servicios) c.

(** The window is open after the rows [pre]: one of them is a parent row
    and no stop row comes after it. *)
Definition window_open (pre : list Series) : Prop :=
  exists p1 r p2,
    pre = p1 ++ r :: p2 /\ is_parent r = true /\
    forallb (fun x => negb (is_stop x)) p2 = true.

(** [row], coming after [pre], is captured under [name]. *)
Definition captured (pre : list Series) (row : Series) (name : string) : Prop :=
  window_open pre /\ is_item row = true /\
  KPIExtractor.item_name (Config.item_pattern Config.servicios)
    (KPIExtractor.concepto_of row) = name.

(** [row] is the last row of [rows] captured under [name]. *)
Definition recorded (l : list Series) (name : string) (row : Series)
  : Prop :=
  exists pre post : list Series,
    l = pre ++ row :: post /\ captured pre row name /\
    forall (post1 : list Series) (r : Series) (post2 : list Series),
      post = post1 ++ r :: post2 -> ~ captured (pre ++ row :: post1) r name.

(** Every value of the detail map is a number that is not negative. *)
Definition all_nonneg (m : gmap string (gmap string cell)) : Prop :=
  forall name ys y v, m !! name = Some ys -> ys !! y = Some v -> nonneg v.

End with_runtime.
End ExtractorSpec.

(** ** Sample sheets *)

Module Sheets.
Import Sample.

(** A P&L export with year headers: a text header, a numeric one and one
    with blanks around it. *)
Definition pyg_sheet : DataFrame cell :=
  mkDF [Text "Cuenta"; Text "Concepto"; Number 2024; Text " 2023 "]
       [[NaN; Text "1. Importe neto de la cifra de negocios";
         Number 1000000; Text "900000"];
        [NaN; Text "4. Aprovisionamientos"; Number (-200000); Text "n/a"]].

(** A sheet in the legacy layout: ten columns, no year anywhere. *)
Definition legacy_sheet : DataFrame cell :=
  mkDF (Text <$> ["A"; "B"; "C"; "D"; "E"; "F"; "G"; "H"; "I"; "J"])
       [[Text "ventas "; Text "netas"; Text "x"; Text "x"; Text "x"; Text "x";
         Number 100; Number 0; Number 0; Number 0];
        [Text "x"; Text "ventas netas"; Text "x"; Text "x"; Text "x"; Text "x";
         Number 200; Number 0; Number 0; Number 0]].

(** The same with an eleventh column. *)
Definition wide_sheet : DataFrame cell :=
  mkDF (columns legacy_sheet ++ [Text "K"])
       ((fun r => r ++ [NaN]) <$> rows legacy_sheet).

(** Three columns and no year. *)
Definition narrow_sheet : DataFrame cell :=
  mkDF [Text "A"; Text "B"; Text "C"]
       [[Text "4. Aprovisionamientos"; Number 5; Number 7]].

(** What [DataLoader.load] makes of [pyg_sheet] and of [legacy_sheet]. *)
Definition pyg_frame : DataFrame string :=
  mkDF ["Concepto"; "2024"; "2023"]
       [[Text "1. Importe neto de la cifra de negocios";
         Number 1000000; Number 900000];
        [Text "4. Aprovisionamientos"; Number (-200000); Number 0]].

Definition legacy_frame : DataFrame string :=
  mkDF ["Col1"; "Concepto"; "Col3"; "Col4"; "Col5"; "Col6";
        "2025"; "2024"; "2023"; "2022"]
       (rows legacy_sheet).

(** A processed P&L with a servicios section: the parent row, two item
    rows, the row that ends the section and one more item row. *)
Definition servicios_frame : DataFrame string :=
  mkDF ["Concepto"; "2024"]
       [[Text "705 PRESTACIONES DE SERVICIOS"; Number 1200];
        [Text "705.0.0.1 Consultoria"; Number 1500];
        [Text "705.0.0.2 Abonos a clientes"; Number (-300)];
        [Text "2. Variacion de existencias"; Number 0];
        [Text "705.0.0.3 Soporte"; Number 400]].


End Sheets.

(** ** Vocabulary of the statements about all thirteen ratios *)

Module RatioTable.

(** The keys every [year_ratios] dict is given. *)
Definition ratio_names : list string := [
  "ratio_liquidez"; "ratio_acid_test"; "ratio_tesoreria";
  "ratio_endeudamiento"; "ratio_autonomia"; "ratio_apalancamiento";
  "roe"; "roa"; "rotacion_activos"; "margen_neto";
  "ratio_solvencia"; "fondo_maniobra"; "capital_circulante_ratio"
].

(** [num / den] behind the guard [den > 0], and 0 otherwise. *)
Definition guarded (den num : Q) : Q :=
  if gt0 den then (num / den)%Q else 0%Q.

(** [(num / den) * 100] behind the guard [den > 0], and 0 otherwise. *)
Definition guarded_pct (den num : Q) : Q :=
  if gt0 den then (num / den * 100)%Q else 0%Q.

(** A P&L of one year with a profit of 30 on a revenue of 200. *)
Definition sample_pyg : Ratios.kpi_values :=
  {[ "resultado_neto" := {[ "2024" := 30%Q ]};
     "ingresos" := {[ "2024" := 200%Q ]} ]}.

(** A balance sheet of one year with every figure the ratios read. *)
Definition full_balance : Ratios.kpi_values :=
  {[ "total_activo" := {[ "2024" := 1000%Q ]};
     "activo_corriente" := {[ "2024" := 400%Q ]};
     "pasivo_corriente" := {[ "2024" := 500%Q ]};
     "pasivo_no_corriente" := {[ "2024" := 300%Q ]};
     "patrimonio_neto" := {[ "2024" := 200%Q ]} ]}.

End RatioTable.

(** ** Vocabulary of the statements about the detected layout *)

Module DetectSpec.
Section with_runtime.
Context `{Runtime}.

(** The raw column taken as the concept column: the first column outside
    the year columns that is mostly text, else the second column, or the
    only one. *)
Definition concepto_col (raw : DataFrame cell) : nat :=
  match DataLoader.find_concepto raw
          (fst <$> DataLoader.detect_year_columns raw) 0
          (length (columns raw)) with
  | Some i => i
  | None => if Nat.ltb 1 (length (columns raw)) then 1%nat else 0%nat
  end.

(** The dict [columns_to_keep] after the loop over the detections. *)
Definition keep_of (raw : DataFrame cell) : list (string * nat) :=
  foldl (fun keep '(idx, year) => dict_set year idx keep)
        [("Concepto", concepto_col raw)]
        (DataLoader.detect_year_columns raw).

(** The years of the detections, as [self.years] gets them. *)
Definition detected_years (raw : DataFrame cell) : list string :=
  DataLoader.sorted_set_reverse
    (snd <$> DataLoader.detect_year_columns raw).

(** The frame of the kept columns, its year columns cleaned. *)
Definition detected_frame (raw : DataFrame cell) : DataFrame string :=
  mkDF (keep_of raw).*1
       (LoaderSpec.clean_row (keep_of raw).*1 (detected_years raw)
          <$> ((fun r => (fun '(_, idx) => at_ r idx) <$> keep_of raw)
                 <$> rows raw)).

(** The raw column a year is read from: that of its last detection. *)
Definition source_index (raw : DataFrame cell) (year : string)
  : option nat :=
  fst <$> last (List.filter (fun p => String.eqb p.2 year)
                  (DataLoader.detect_year_columns raw)).

(** [pd.to_numeric(v, errors='coerce')] and [fillna(0)] on one cell. *)
Definition coerce (v : cell) : cell := fillna0 (to_numeric v).

End with_runtime.
End DetectSpec.

Module LoaderSheets.


(** A sheet whose years stand in its first row, the year 2024 twice. *)
Definition inline_sheet : DataFrame cell :=
  mkDF [Text "a"; Text "b"; Text "c"; Text "d"]
       [[Text "Cuenta de resultados"; Text "2024"; Text "2023"; Text "2024"];
        [Text "Ventas netas del ejercicio"; Number 10; Number 20; Number 30]].

(** What [DataLoader.load] makes of it: the row of the years stays a row
    of the frame, and 2024 is read from the last column that names it. *)
Definition inline_frame : DataFrame string :=
  mkDF ["Concepto"; "2024"; "2023"]
       [[Text "Cuenta de resultados"; Number 2024; Number 2023];
        [Text "Ventas netas del ejercicio"; Number 30; Number 20]].

End LoaderSheets.

(** ** Vocabulary of the statements about the balance extractor *)

Module BalanceSpec.
Section with_runtime.
Context `{Runtime}.

(** The keys [BalanceKPIExtractor.extract_all] can write. *)
Definition balance_names : list string := [
  "activo_no_corriente"; "activo_corriente"; "total_activo";
  "existencias"; "deudores"; "efectivo"; "inmovilizado_intangible";
  "inmovilizado_material"; "patrimonio_neto"; "fondos_propios";
  "capital"; "reservas"; "resultado_ejercicio_balance";
  "pasivo_no_corriente"; "pasivo_corriente"; "total_pasivo_patrimonio";
  "deudas_largo_plazo"; "deudas_corto_plazo"; "acreedores"
].

(** Every row has a cell for every year. *)
Definition has_years (years : list string) (rows : list Series) : bool :=
  forallb (fun row =>
             forallb (fun y => bool_decide (is_Some (get row y))) years)
          rows.


(** What a balance map holds for a key and a year. *)
Definition balance_value (r : option (gmap string (gmap string cell)))
    (name year : string) : option cell :=
  m ← r; ys ← m !! name; ys !! year.

(** The label [extract_detailed_activo] files a row under: that of the
    first code of the list found in its [Concepto], read as it is
    written. *)
Definition activo_label (row : Series) : option string :=
  BalanceKPIExtractor.first_codigo BalanceKPIExtractor.categorias
    match get row "Concepto" with
    | Some v => if isna v then "" else str v
    | None => ""
    end.

End with_runtime.
End BalanceSpec.

Module BalanceSheets.

(** A balance export: ten columns whose header names no year, the label
    in the third column, the years 2025..2022 in the last four. *)
Definition balance_sheet : DataFrame cell :=
  mkDF (Text <$> ["a"; "b"; "c"; "d"; "e"; "f"; "g"; "h"; "i"; "j"])
       [[NaN; NaN; Text "TOTAL ACTIVO (A+B)"; NaN; NaN; NaN;
         Number 1000; Number 900; Text "-"; NaN];
        [NaN; NaN; Text "I. Capital"; NaN; NaN; NaN;
         Number 60; Number 60; Number 60; Number 60];
        [NaN; NaN; Text "I. Capital"; NaN; NaN; NaN;
         Number 75; Number 75; Number 75; Number 75];
        [NaN; NaN; Text "C) PASIVO CORRIENTE"; NaN; NaN; NaN;
         Number (-300); Number 250; Number 0; Number 0]].

(** What [BalanceLoader.load] makes of it. *)
Definition balance_frame : DataFrame string :=
  mkDF BalanceLoader.balance_columns
       [[NaN; NaN; Text "TOTAL ACTIVO (A+B)"; NaN; NaN; NaN;
         Number 1000; Number 900; Number 0; Number 0];
        [NaN; NaN; Text "I. Capital"; NaN; NaN; NaN;
         Number 60; Number 60; Number 60; Number 60];
        [NaN; NaN; Text "I. Capital"; NaN; NaN; NaN;
         Number 75; Number 75; Number 75; Number 75];
        [NaN; NaN; Text "C) PASIVO CORRIENTE"; NaN; NaN; NaN;
         Number (-300); Number 250; Number 0; Number 0]].

(** A balance frame with detail rows of the fixed assets. *)
Definition activo_frame : DataFrame string :=
  mkDF ["Concepto"; "2025"]
       [[Text "213 MAQUINARIA"; Number 500];
        [Text "217 EQUIPOS PARA PROCESOS DE INFORMACION"; Number 80];
        [Text "213 MAQUINARIA (leasing)"; Number 120];
        [Text "213 maquinaria"; Number 999];
        [NaN; Number 7]].

End BalanceSheets.

(** ** Vocabulary of the statements about the registry and the detail
    maps *)

Module RegistrySpec.
Section with_runtime.
Context `{Runtime}.
Import ExtractorSpec.

(** Some row of the grid matches the concept. *)
Definition matched (years : list string) (rows : list Series)
    (cfg : Config.config) : bool :=
  existsb (cell_matches years (Config.patterns cfg)) rows.

(** The concepts of the registry that a row matches, and the required
    ones that no row matches, in the order of the registry. *)
Definition found_names (years : list string) (rows : list Series)
    (items : list (string * Config.config)) : list string :=
  (List.filter (fun item => matched years rows item.2) items).*1.

Definition missing_names (years : list string) (rows : list Series)
    (items : list (string * Config.config)) : list string :=
  (List.filter (fun item => negb (matched years rows item.2)
                            && Config.required item.2) items).*1.

(** The label a row is filed under by a list of categories: that of the
    first category whose pattern is found in its non-empty label. *)
Definition category_of (categories : list (Re.regex * string))
    (row : Series) : option string :=
  let concepto := KPIExtractor.concepto_of row in
  if nonempty concepto
  then KPIExtractor.first_category categories concepto
  else None.

(** The name a row of the purchases detail is filed under. *)
Definition item_of (row : Series) : option string :=
  let concepto := KPIExtractor.concepto_of row in
  if nonempty concepto
     && Re.match_ false Config.aprovisionamientos_detalle concepto
  then Some (KPIExtractor.item_name Config.aprovisionamientos_detalle concepto)
  else None.

(** The last row of the grid filed under [label]. *)
Definition last_labelled (key : Series -> option string) (label : string)
    (rows : list Series) : option Series :=
  last (List.filter (fun row => bool_decide (key row = Some label)) rows).

(** The absolute values of the year cells of a row, if [abs] takes them. *)
Definition recorded_abs (years : list string) (row : Series)
  : option (gmap string cell) :=
  match KPIExtractor.abs_values years row with
  | Ok values => Some values
  | Raise _ => None
  end.

End with_runtime.
End RegistrySpec.

Module DetailSheets.

(** A processed P&L where three rows fall under the first personnel
    category, one of them naming the second category before it. *)
Definition personal_frame : DataFrame string :=
  mkDF ["Concepto"; "2024"]
       [[Text "640 SUELDOS Y SALARIOS"; Number (-5000)];
        [Text "642 SEGURIDAD SOCIAL y 640 SUELDOS"; Number (-1500)];
        [Text "640 Sueldos (ajuste)"; Number 200];
        [Text "602.0.0.7 Compras varias"; Number (-40)];
        [Text "705.0.0.1 Consultoria"; Number 1500]].

(** A P&L with a loss: the result of the year is negative. *)
Definition loss_frame : DataFrame string :=
  mkDF ["Concepto"; "2024"]
       [[Text "1. Importe neto de la cifra de negocios"; Number 1000];
        [Text "D) RESULTADO DEL EJERCICIO"; Number (-250)]].

End DetailSheets.

(** ** The display name of an item row in the words of the specification *)

Module NameSpec.

(** Some character of the text is whitespace. *)
Fixpoint has_whitespace (s : string) : bool :=
  match s with
  | EmptyString => false
  | String c s' => isspace c || has_whitespace s'
  end.

(** What follows the first whitespace character of the text, or the
    text itself when it has none. *)
Fixpoint after_first_whitespace (s : string) : string :=
  match s with
  | EmptyString => EmptyString
  | String c s' =>
      if isspace c then s'
      else if has_whitespace s' then after_first_whitespace s' else s
  end.

(** The name as the specification words it: the label without the item
    prefix, and of what is left the part after the first whitespace. *)
Definition name_after_whitespace (item_pattern : Re.regex)
    (concepto : string) : string :=
  let nombre := strip (Re.sub_empty false item_pattern concepto) in
  if has_whitespace nombre then after_first_whitespace nombre else nombre.

(** A horizontal tab. *)
Definition tab : string := String (ascii_of_N 9) EmptyString.

(** A servicios section whose item row has a tab, not a space, between
    its code and its name. *)
Definition tab_frame : DataFrame string :=
  mkDF ["Concepto"; "2024"]
       [[Text "705 PRESTACIONES DE SERVICIOS"; Number 1200];
        [Text ("705.0.0.5" +:+ tab +:+ "Tab"); Number 70]].

End NameSpec.

(** * Properties *)

(** ** Financial ratios *)

Section ratio_facts.
Import RatiosSpec.

Lemma gt0_true (x : Q) : gt0 x = true <-> (0 < x)%Q.
Proof.
  unfold gt0. rewrite negb_true_iff, <- not_true_iff_false, Qle_bool_iff.
  split; [apply Qnot_le_lt | apply Qlt_not_le].
Qed.

Lemma gt0_false (x : Q) : gt0 x = false <-> (x <= 0)%Q.
Proof. unfold gt0. by rewrite negb_false_iff, Qle_bool_iff. Qed.

Lemma truediv_gt0 (x y : Q) : gt0 y = true -> truediv x y = Ok (x / y)%Q.
Proof.
  intros Hy. unfold truediv.
  destruct (Qeq_bool y 0) eqn:E; [|done].
  apply Qeq_bool_iff in E. apply gt0_true in Hy.
  rewrite E in Hy. by apply Qlt_irrefl in Hy.
Qed.

(** A guarded block of the function never raises, whatever the guard. *)
Ltac guarded_block :=
  repeat match goal with
         | |- context [gt0 ?x] =>
             let E := fresh "E" in
             destruct (gt0 x) eqn:E;
             rewrite ?(fun a => truediv_gt0 a _ E)
         end;
  cbn [mbind res_bind bind];
  (eexists; split; [reflexivity|]).

Ltac next_block l :=
  match goal with
  | Hl : has_liquidity l ?r0 |- exists r, (?m ≫= ?k) = Ok r /\ _ =>
      let r1 := fresh "r" in
      let H1 := fresh "Hr" in
      let H2 := fresh "Hl" in
      assert (exists r1, m = Ok r1 /\ has_liquidity l r1) as (r1 & H1 & H2);
      [ guarded_block;
        destruct Hl as (? & ? & ?);
        unfold has_liquidity; by rewrite !lookup_insert_ne by done
      | rewrite H1; cbn [mbind res_bind bind]; clear H1 Hl ]
  end.

Lemma year_ratios_liquidity (balance_kpis pyg_kpis : Ratios.kpi_values)
    (year : string) :
  exists r : gmap string Q,
    Ratios.year_ratios balance_kpis pyg_kpis year = Ok r /\
    has_liquidity (liquidity balance_kpis year) r.
Proof.
  unfold Ratios.year_ratios.
  set (l := liquidity balance_kpis year).
  match goal with
  | |- exists r, (?m ≫= ?k) = Ok r /\ _ =>
      assert (exists r1, m = Ok r1 /\ has_liquidity l r1) as (r1 & H1 & Hl)
  end.
  { subst l. unfold liquidity. guarded_block; unfold has_liquidity; cbn [fst snd];
      by simplify_map_eq. }
  rewrite H1; cbn [mbind res_bind bind]; clear H1.
  do 6 next_block l.
  guarded_block; destruct Hl as (? & ? & ?);
    unfold has_liquidity; by rewrite !lookup_insert_ne by done.
Qed.

Lemma ratios_loop_lookup (balance_kpis pyg_kpis : Ratios.kpi_values)
    (years : list string) (acc : Ratios.kpi_values) :
  exists ratios,
    Ratios.ratios_loop balance_kpis pyg_kpis years acc = Ok ratios /\
    forall year,
      ratios !! year =
        if bool_decide (year ∈ years)
        then match Ratios.year_ratios balance_kpis pyg_kpis year with
             | Ok r => Some r
             | Raise _ => None
             end
        else acc !! year.
Proof.
  revert acc. induction years as [|y years IH]; intros acc;
    cbn [Ratios.ratios_loop].
  - eexists; split; [done|]. intros year. case_bool_decide as Hin; [|done].
    by apply elem_of_nil in Hin.
  - destruct (year_ratios_liquidity balance_kpis pyg_kpis y) as (r & Hr & _).
    rewrite Hr. cbn [mbind res_bind bind].
    destruct (IH (<[y := r]> acc)) as (ratios & Hloop & Hlook).
    exists ratios. split; [done|]. intros year. rewrite Hlook.
    destruct (decide (year = y)) as [->|Hne].
    + rewrite (bool_decide_eq_true_2 (y ∈ y :: years))
        by apply list_elem_of_here.
      rewrite Hr. case_bool_decide; [done|]. by rewrite lookup_insert_eq.
    + rewrite lookup_insert_ne by done.
      destruct (decide (year ∈ years)) as [Hin|Hin].
      * rewrite !bool_decide_eq_true_2; [done|by right|done].
      * rewrite !bool_decide_eq_false_2; [done| |done].
        by intros [?|?]%elem_of_cons.
Qed.

(** C1, as the code has it: the liquidity ratios are the quotients when
    [pasivo_corriente] is positive and exactly 0 when it is zero or
    negative; the computation returns for every input, it never raises. *)
Theorem liquidity_ratios_guarded
    (balance_kpis pyg_kpis : Ratios.kpi_values)
    (years : list string) (year : string) :
  year ∈ years ->
  let ac := Ratios.value_of balance_kpis "activo_corriente" year in
  let pc := Ratios.value_of balance_kpis "pasivo_corriente" year in
  let ex := Ratios.value_of balance_kpis "existencias" year in
  let ef := Ratios.value_of balance_kpis "efectivo" year in
  exists ratios r,
    Ratios.calculate_financial_ratios balance_kpis pyg_kpis years = Ok ratios /\
    ratios !! year = Some r /\
    ((0 < pc)%Q ->
       r !! "ratio_liquidez" = Some (ac / pc)%Q /\
       r !! "ratio_acid_test" = Some ((ac - ex) / pc)%Q /\
       r !! "ratio_tesoreria" = Some (ef / pc)%Q) /\
    ((pc <= 0)%Q ->
       r !! "ratio_liquidez" = Some 0%Q /\
       r !! "ratio_acid_test" = Some 0%Q /\
       r !! "ratio_tesoreria" = Some 0%Q).
Proof.
  intros Hin ac pc ex ef.
  destruct (ratios_loop_lookup balance_kpis pyg_kpis years ∅)
    as (ratios & Hloop & Hlook).
  destruct (year_ratios_liquidity balance_kpis pyg_kpis year)
    as (r & Hr & Hl).
  exists ratios, r. split; [done|]. split.
  { rewrite Hlook, bool_decide_eq_true_2 by done. by rewrite Hr. }
  unfold has_liquidity, liquidity in Hl. fold ac pc ex ef in Hl.
  split; intros Hpc.
  - apply gt0_true in Hpc. by rewrite Hpc in Hl.
  - apply gt0_false in Hpc. by rewrite Hpc in Hl.
Qed.

End ratio_facts.

Lemma liquidity_ratios_guarded_witness :
  exists ratios r,
    Ratios.calculate_financial_ratios RatiosSpec.sample_balance ∅ ["2024"] = Ok ratios /\
    ratios !! "2024" = Some r /\
    r !! "ratio_liquidez" = Some (200 / 100)%Q.
Proof.
  destruct (liquidity_ratios_guarded RatiosSpec.sample_balance ∅ ["2024"] "2024")
    as (ratios & r & H1 & H2 & Hpos & _).
  { apply list_elem_of_here. }
  exists ratios, r. split; [exact H1|]. split; [exact H2|].
  apply Hpos. reflexivity.
Defined.

(** C1 as it was stated fails where [pasivo_corriente] is negative:
    the divisor is not zero, yet the ratio is 0 and not the quotient. *)
Lemma liquidity_negative_liabilities :
  let balance := RatiosSpec.negative_balance in
  let pc := Ratios.value_of balance "pasivo_corriente" "2024" in
  let ac := Ratios.value_of balance "activo_corriente" "2024" in
  ~ (pc == 0)%Q /\
  RatiosSpec.ratio_value
    (Ratios.calculate_financial_ratios balance ∅ ["2024"])
    "2024" "ratio_liquidez" = Some 0%Q /\
  ~ (0 == ac / pc)%Q.
Proof.
  split; [by vm_compute|]. split; [vm_compute; reflexivity|by vm_compute].
Qed.

(** ** The loaders *)

Section loader_facts.
Context `{Runtime}.
Import LoaderSpec.

Lemma rstrip_last (s : string) (c : ascii) :
  last_char (rstrip s) = Some c -> isspace c = false.
Proof.
  induction s as [|a s IH]; cbn [rstrip]; [done|].
  destruct (rstrip s) as [|b t] eqn:E.
  - destruct (isspace a) eqn:Ea; cbn; [done|]. by intros [= <-].
  - intros Hl. apply IH. exact Hl.
Qed.

Lemma lstrip_last (s : string) (c : ascii) :
  last_char (lstrip s) = Some c -> last_char s = Some c.
Proof.
  induction s as [|a s IH]; cbn [lstrip]; [done|].
  destruct (isspace a); [|done].
  intros Hl. specialize (IH Hl). destruct s; [done|exact IH].
Qed.

Lemma strip_last (s : string) (c : ascii) :
  last_char (strip s) = Some c -> isspace c = false.
Proof. intros Hl. by apply (rstrip_last s), lstrip_last. Qed.

(** After [strip] the [$] of the year pattern can only be the end of the
    text: a year is four digits and nothing else. *)
Lemma year_pattern_strip (s : string) :
  DataLoader.year_pattern (strip s) = true -> four_digits (strip s) = true.
Proof.
  intros Hy. pose proof (strip_last s) as Hlast.
  destruct (strip s) as [|a [|b [|c [|d rest]]]]; try done.
  cbn in Hy. apply andb_prop in Hy as [Hy Hrest].
  apply andb_prop in Hy as [Hy Hd]. apply andb_prop in Hy as [Hab Hc].
  assert (isdigit a = true /\ isdigit b = true) as [Ha Hb].
  { apply orb_prop in Hab as [Hab|Hab]; apply andb_prop in Hab as [Ea Eb];
      apply Ascii.eqb_eq in Ea, Eb; by subst. }
  destruct rest as [|n [|]]; [|exfalso|done].
  - cbn. by rewrite Ha, Hb, Hc, Hd.
  - apply Ascii.eqb_eq in Hrest. subst n.
    by specialize (Hlast DataLoader.newline eq_refl).
Qed.

Lemma scan_years_elem (i : nat) (cells : list cell) (p : nat * string) :
  p ∈ DataLoader.scan_years i cells -> four_digits p.2 = true.
Proof.
  revert i. induction cells as [|v cells IH]; intros i; cbn [DataLoader.scan_years].
  - by intros ?%elem_of_nil.
  - destruct (DataLoader.year_pattern (strip (str v))) eqn:E; [|apply IH].
    intros [->|Hin]%elem_of_cons; [|by eapply IH].
    by apply year_pattern_strip.
Qed.

Lemma scan_years_nil (i : nat) (cells : list cell) :
  DataLoader.scan_years i cells = [] <-> has_year_token cells = false.
Proof.
  revert i. induction cells as [|v cells IH]; intros i;
    cbn [DataLoader.scan_years has_year_token existsb]; [done|].
  destruct (DataLoader.year_pattern (strip (str v))); [done|].
  apply IH.
Qed.

Lemma detect_year_columns_elem (raw : DataFrame cell) (p : nat * string) :
  p ∈ DataLoader.detect_year_columns raw -> four_digits p.2 = true.
Proof.
  unfold DataLoader.detect_year_columns.
  destruct (DataLoader.scan_years 0 (columns raw)) as [|q l] eqn:E.
  - intros (l' & Hp & Hl')%list_elem_of_join.
    apply list_elem_of_fmap in Hl' as (r & -> & _).
    by eapply scan_years_elem.
  - rewrite <- E. apply scan_years_elem.
Qed.

Lemma detect_year_columns_nil (raw : DataFrame cell) :
  DataLoader.detect_year_columns raw = [] <-> no_year_tokens raw = true.
Proof.
  unfold DataLoader.detect_year_columns, no_year_tokens.
  destruct (DataLoader.scan_years 0 (columns raw)) as [|q l] eqn:E.
  - apply scan_years_nil in E. rewrite E. cbn [negb andb].
    rewrite join_nil, Forall_fmap, forallb_forall, Forall_forall.
    apply forall_proper; intros r. rewrite list_elem_of_In.
    apply forall_proper; intros _.
    by rewrite negb_true_iff, <- (scan_years_nil 0).
  - split; [done|]. intros [Hh _]%andb_prop.
    apply negb_true_iff, (scan_years_nil 0) in Hh. by rewrite Hh in E.
Qed.


Lemma sorted_set_reverse_perm (ys : list string) :
  DataLoader.sorted_set_reverse ys
  ≡ₚ elements (list_to_set ys : gset string).
Proof. apply merge_sort_Permutation. Qed.

Lemma sorted_set_reverse_elem (ys : list string) (y : string) :
  y ∈ DataLoader.sorted_set_reverse ys <-> y ∈ ys.
Proof.
  by rewrite sorted_set_reverse_perm, elem_of_elements, elem_of_list_to_set.
Qed.

Lemma sorted_set_reverse_NoDup (ys : list string) :
  NoDup (DataLoader.sorted_set_reverse ys).
Proof. rewrite sorted_set_reverse_perm. apply NoDup_elements. Qed.

#[local] Instance string_ge_total : Total (flip String.le).
Proof. intros x y. unfold flip. destruct (total String.le x y); auto. Qed.

Lemma sorted_set_reverse_sorted (ys : list string) :
  Sorted (flip String.le) (DataLoader.sorted_set_reverse ys).
Proof.
  apply (Sorted_merge_sort (flip String.le)).
Qed.

Lemma sorted_set_reverse_nonempty (ys : list string) :
  ys <> [] -> DataLoader.sorted_set_reverse ys <> [].
Proof.
  destruct ys as [|y ys]; [done|]. intros _ Hnil.
  assert (y ∈ DataLoader.sorted_set_reverse (y :: ys)) as Hy
    by (apply sorted_set_reverse_elem, list_elem_of_here).
  rewrite Hnil in Hy. by apply elem_of_nil in Hy.
Qed.

(** The two ways [_detect_and_rename_columns] returns. *)
Lemma detect_and_rename_ok (self self' : DataLoader.t) (raw : DataFrame cell) :
  DataLoader._raw_df self = Some raw ->
  DataLoader._detect_and_rename_columns self = Ok self' ->
  (no_year_tokens raw = true /\ length (columns raw) = 10%nat /\
   DataLoader.years self' = DataLoader.default_years /\
   DataLoader.df self' = Some (mkDF DataLoader.default_columns (rows raw)))
  \/
  (DataLoader.detect_year_columns raw <> [] /\
   DataLoader.years self'
   = DataLoader.sorted_set_reverse (snd <$> DataLoader.detect_year_columns raw)).
Proof.
  intros Hraw. unfold DataLoader._detect_and_rename_columns. rewrite Hraw.
  destruct (DataLoader.detect_year_columns raw) as [|p yc] eqn:E.
  - apply detect_year_columns_nil in E.
    destruct (Nat.leb 10 (length (columns raw))) eqn:Hlen; [|done].
    unfold set_columns. cbn [length DataLoader.default_columns].
    destruct (Nat.eqb _ _) eqn:Heq; [|done].
    apply Nat.eqb_eq in Heq. cbn. intros [= <-]. left. done.
  - cbn [mbind res_bind bind].
    pose proof (sorted_set_reverse_nonempty (snd <$> p :: yc)) as Hne.
    destruct (DataLoader.sorted_set_reverse (snd <$> p :: yc)) eqn:Es;
      [by destruct Hne|].
    intros [= <-]. right. done.
Qed.

Lemma clean_data_years (self : DataLoader.t) :
  DataLoader.years (DataLoader._clean_data self) = DataLoader.years self.
Proof. unfold DataLoader._clean_data. by destruct (DataLoader.df self). Qed.

(** Unfolding [load] along a normal return. *)
Lemma load_ok_inv (self self' : DataLoader.t) (read : res (DataFrame cell))
    (d : DataFrame string) :
  DataLoader.load self read = (self', Ok d) ->
  exists raw self1,
    read = Ok raw /\
    DataLoader._detect_and_rename_columns
      {| DataLoader.df := DataLoader.df self;
         DataLoader.years := DataLoader.years self;
         DataLoader._raw_df := Some raw |} = Ok self1 /\
    self' = DataLoader._clean_data self1 /\
    DataLoader._validate_structure self' = Ok tt /\
    DataLoader.df self' = Some d.
Proof.
  unfold DataLoader.load. destruct read as [raw|e]; [|done].
  destruct (DataLoader._detect_and_rename_columns _) as [self1|e] eqn:E1;
    [|done].
  destruct (DataLoader._validate_structure _) as [[]|e] eqn:E2; [|done].
  destruct (DataLoader.df (DataLoader._clean_data self1)) as [d'|] eqn:E3;
    [|done].
  intros [= <- <-]. by exists raw, self1.
Qed.

End loader_facts.

Section year_order.
Import LoaderSpec.

Lemma isdigit_code (c : ascii) :
  isdigit c = true -> (48 <= code c <= 57)%N.
Proof.
  unfold isdigit, in_range. intros [H1 H2]%andb_prop.
  apply N.leb_le in H1, H2. done.
Qed.

Lemma code_inj (a b : ascii) : code a = code b -> a = b.
Proof.
  unfold code. intros E.
  by rewrite <- (ascii_N_embedding a), <- (ascii_N_embedding b), E.
Qed.

(** On strings of four digits the order of strings is the order of the
    numbers they write. *)
Lemma four_digits_order (a b : string) :
  four_digits a = true -> four_digits b = true ->
  String.le b a -> a <> b ->
  (year_number b < year_number a)%N.
Proof.
  destruct a as [|a1 [|a2 [|a3 [|a4 [|]]]]]; try done.
  destruct b as [|b1 [|b2 [|b3 [|b4 [|]]]]]; try done.
  cbn [four_digits]. rewrite !andb_true_iff.
  intros [[[Ha1 Ha2] Ha3] Ha4] [[[Hb1 Hb2] Hb3] Hb4].
  apply isdigit_code in Ha1, Ha2, Ha3, Ha4, Hb1, Hb2, Hb3, Hb4.
  unfold String.le, String.leb. cbn [String.compare].
  unfold Ascii.compare. fold (code a1) (code a2) (code a3) (code a4).
  fold (code b1) (code b2) (code b3) (code b4).
  unfold year_number. cbn [decimal].
  intros Hle Hne.
  destruct (N.compare_spec (code b1) (code a1)) as [E1|L1|G1];
    [|lia|done].
  destruct (N.compare_spec (code b2) (code a2)) as [E2|L2|G2];
    [|lia|done].
  destruct (N.compare_spec (code b3) (code a3)) as [E3|L3|G3];
    [|lia|done].
  destruct (N.compare_spec (code b4) (code a4)) as [E4|L4|G4];
    [|lia|done].
  apply code_inj in E1, E2, E3, E4. by subst.
Qed.

Lemma descending_years (ys : list string) :
  NoDup ys -> Forall (fun y => four_digits y = true) ys ->
  Sorted (flip String.le) ys ->
  StronglySorted (fun a b => (year_number b < year_number a)%N) ys.
Proof.
  intros Hnd Hfd Hs.
  apply (Sorted_StronglySorted (flip String.le)) in Hs.
  induction Hs as [|a l Hl IH Ha]; [constructor|].
  apply NoDup_cons in Hnd as [Hna Hnd].
  apply Forall_cons in Hfd as [Hfa Hfd].
  constructor; [by apply IH|].
  rewrite Forall_forall in Ha, Hfd |- *.
  intros b Hb. apply four_digits_order; [done|by apply Hfd|by apply Ha|].
  intros ->. done.
Qed.

End year_order.

Section loader_claims.
Context `{Runtime}.
Import LoaderSpec.

Lemma validate_structure_outcome (self : DataLoader.t) :
  DataLoader._validate_structure self = Ok tt \/
  DataLoader._validate_structure self = Raise ValidationError.
Proof.
  unfold DataLoader._validate_structure.
  destruct (DataLoader.df self); [|by right].
  destruct (Nat.eqb _ 0); [by right|].
  destruct (List.filter _ _); [by right|].
  destruct (Nat.eqb _ 0); [by right|by left].
Qed.

Lemma clean_from_done (i : nat) (r : list cell) :
  (10 <= i)%nat -> clean_from i r = r.
Proof.
  revert i. induction r as [|v r IH]; intros i Hi; cbn [clean_from]; [done|].
  rewrite (IH (S i)) by lia.
  replace (Nat.ltb i 10) with false by (symmetry; apply Nat.ltb_ge; lia).
  by rewrite andb_false_r.
Qed.

Lemma clean_legacy_row (r : list cell) :
  let f := fun v => fillna0 (to_numeric v) in
  update_row "2022" f DataLoader.default_columns
    (update_row "2023" f DataLoader.default_columns
       (update_row "2024" f DataLoader.default_columns
          (update_row "2025" f DataLoader.default_columns r)))
  = clean_from 0 r.
Proof.
  intros f.
  do 10 (destruct r as [|? r]; [reflexivity|]).
  cbn. by rewrite clean_from_done by lia.
Qed.

Lemma clean_data_legacy (rs : list (list cell)) (ys : list string)
    (raw : option (DataFrame cell)) :
  DataLoader._clean_data
    {| DataLoader.df := Some (mkDF DataLoader.default_columns rs);
       DataLoader.years := DataLoader.default_years;
       DataLoader._raw_df := raw |}
  = {| DataLoader.df :=
         Some (mkDF DataLoader.default_columns (clean_from 0 <$> rs));
       DataLoader.years := DataLoader.default_years;
       DataLoader._raw_df := raw |}.
Proof.
  unfold DataLoader._clean_data. cbn [DataLoader.df DataLoader.years].
  f_equal. f_equal. cbn [foldl DataLoader.default_years].
  unfold map_column. cbn [columns rows].
  repeat (rewrite bool_decide_eq_true_2
            by (unfold DataLoader.default_columns; set_solver)).
  cbn [columns rows]. f_equal.
  rewrite <- !list_fmap_compose. apply list_fmap_ext.
  intros _ r _. apply clean_legacy_row.
Qed.

(** C3, as the code has it: on a sheet of exactly ten columns without any
    year, [load] names the columns by position, the columns at indices
    6, 7, 8, 9 becoming the years 2025, 2024, 2023, 2022, whose cells it
    coerces to numbers, and [get_years] answers that list; the call
    returns this frame or fails its validation. *)
Theorem positional_fallback (self : DataLoader.t) (raw : DataFrame cell) :
  length (columns raw) = 10%nat ->
  no_year_tokens raw = true ->
  exists self' d outcome,
    DataLoader.load self (Ok raw) = (self', outcome) /\
    DataLoader.get_years self' = ["2025"; "2024"; "2023"; "2022"] /\
    DataLoader.df self' = Some d /\
    columns d = ["Col1"; "Concepto"; "Col3"; "Col4"; "Col5"; "Col6";
                 "2025"; "2024"; "2023"; "2022"] /\
    (columns d !! 6%nat, columns d !! 7%nat, columns d !! 8%nat,
     columns d !! 9%nat)
    = (Some "2025", Some "2024", Some "2023", Some "2022") /\
    rows d = clean_from 0 <$> rows raw /\
    (outcome = Ok d \/ outcome = Raise ValidationError).
Proof.
  intros Hlen Hno.
  unfold DataLoader.load, DataLoader._detect_and_rename_columns.
  cbn [DataLoader._raw_df].
  apply detect_year_columns_nil in Hno. rewrite Hno, Hlen.
  cbn [Nat.leb]. unfold set_columns. rewrite Hlen.
  change (length DataLoader.default_columns) with 10%nat.
  cbn [Nat.eqb mbind res_bind bind rows].
  rewrite clean_data_legacy by exact [].
  set (self' := DataLoader.mk _ _ _).
  destruct (validate_structure_outcome self') as [Hv|Hv]; rewrite Hv.
  - eexists self', _, _. cbn [DataLoader.df self']. repeat split. by left.
  - eexists self', _, _. cbn [DataLoader.df self']. repeat split. by right.
Qed.

(** C8: when [load] returns, [get_years] is a non-empty list without
    duplicates of four-digit strings, in descending order: as strings,
    which is how they were sorted, and as the numbers they write. *)
Theorem loaded_years_descending (self self' : DataLoader.t)
    (read : res (DataFrame cell)) (d : DataFrame string) :
  DataLoader.load self read = (self', Ok d) ->
  let ys := DataLoader.get_years self' in
  ys <> [] /\ NoDup ys /\
  Forall (fun y => four_digits y = true) ys /\
  Sorted (flip String.le) ys /\
  StronglySorted (fun a b => (year_number b < year_number a)%N) ys.
Proof.
  intros (raw & self1 & -> & Hdet & -> & _ & _)%load_ok_inv.
  unfold DataLoader.get_years. rewrite clean_data_years.
  cut (let ys := DataLoader.years self1 in
       ys <> [] /\ NoDup ys /\
       Forall (fun y => four_digits y = true) ys /\
       Sorted (flip String.le) ys).
  { cbn zeta. intros (Hne & Hnd & Hfd & Hs).
    repeat (split; [done|]). by apply descending_years. }
  destruct (fun E => detect_and_rename_ok _ _ raw E Hdet)
    as [(_ & _ & -> & _)|[Hne ->]]; [done| |].
  - unfold DataLoader.default_years. split; [discriminate|].
    split; [by apply (bool_decide_unpack _); vm_compute|].
    split; [by repeat constructor|].
    by apply (bool_decide_unpack _); vm_compute.
  - split.
    { apply sorted_set_reverse_nonempty.
      by destruct (DataLoader.detect_year_columns raw). }
    split; [apply sorted_set_reverse_NoDup|].
    split; [|apply sorted_set_reverse_sorted].
    apply Forall_forall. intros y Hy.
    apply (proj1 (sorted_set_reverse_elem _ _)) in Hy.
    apply list_elem_of_fmap in Hy as (p & -> & Hp).
    by eapply detect_year_columns_elem.
Qed.

(** C9: a sheet of fewer than ten columns with no year in its header nor
    in its first five rows is refused with a [ValidationError], which is
    not the exception of a failed read. *)
Theorem narrow_sheet_refused (self : DataLoader.t) (raw : DataFrame cell) :
  (length (columns raw) < 10)%nat ->
  no_year_tokens raw = true ->
  (DataLoader.load self (Ok raw)).2 = Raise ValidationError /\
  ValidationError <> DataLoadError.
Proof.
  intros Hlen Hno. split; [|done].
  unfold DataLoader.load, DataLoader._detect_and_rename_columns.
  cbn [DataLoader._raw_df].
  apply detect_year_columns_nil in Hno. rewrite Hno.
  by replace (Nat.leb 10 (length (columns raw))) with false
    by (symmetry; apply Nat.leb_gt; lia).
Qed.

(** C10: assigning the ten names fails with pandas' [ValueError] outside
    the ten-column shape: in [BalanceLoader.load] for every sheet, and in
    [DataLoader.load] for the sheets without years that the guard [>= 10]
    lets through, those of more than ten columns (narrower ones get the
    [ValidationError]). *)
Theorem ten_names_need_ten_columns (self : DataLoader.t)
    (bself : BalanceLoader.t) (raw : DataFrame cell) :
  length (columns raw) <> 10%nat ->
  (BalanceLoader.load bself (Ok raw)).2 = Raise ValueError /\
  (no_year_tokens raw = true ->
   (DataLoader.load self (Ok raw)).2
   = Raise (if Nat.ltb 10 (length (columns raw))
            then ValueError else ValidationError)).
Proof.
  intros Hlen. split.
  - unfold BalanceLoader.load, set_columns.
    cbn [length BalanceLoader.balance_columns].
    by replace (Nat.eqb 10 (length (columns raw))) with false
      by (symmetry; apply Nat.eqb_neq; lia).
  - intros Hno.
    unfold DataLoader.load, DataLoader._detect_and_rename_columns.
    cbn [DataLoader._raw_df].
    apply detect_year_columns_nil in Hno. rewrite Hno.
    destruct (Nat.ltb 10 (length (columns raw))) eqn:Hlt.
    + apply Nat.ltb_lt in Hlt.
      replace (Nat.leb 10 (length (columns raw))) with true
        by (symmetry; apply Nat.leb_le; lia).
      unfold set_columns. cbn [length DataLoader.default_columns].
      by replace (Nat.eqb 10 (length (columns raw))) with false
        by (symmetry; apply Nat.eqb_neq; lia).
    + apply Nat.ltb_ge in Hlt.
      by replace (Nat.leb 10 (length (columns raw))) with false
        by (symmetry; apply Nat.leb_gt; lia).
Qed.

End loader_claims.

Lemma positional_fallback_witness :
  length (columns Sheets.legacy_sheet) = 10%nat /\
  exists self' d outcome,
    DataLoader.load DataLoader.init (Ok Sheets.legacy_sheet)
    = (self', outcome) /\
    DataLoader.get_years self' = ["2025"; "2024"; "2023"; "2022"] /\
    DataLoader.df self' = Some d /\
    columns d = ["Col1"; "Concepto"; "Col3"; "Col4"; "Col5"; "Col6";
                 "2025"; "2024"; "2023"; "2022"] /\
    (columns d !! 6%nat, columns d !! 7%nat, columns d !! 8%nat,
     columns d !! 9%nat)
    = (Some "2025", Some "2024", Some "2023", Some "2022") /\
    rows d = LoaderSpec.clean_from 0 <$> rows Sheets.legacy_sheet /\
    (outcome = Ok d \/ outcome = Raise ValidationError).
Proof.
  split; [reflexivity|].
  apply (positional_fallback DataLoader.init Sheets.legacy_sheet);
    reflexivity.
Defined.

(** C3 as it was stated fails on the ten-column sheet itself: the column
    at index 7 is the year 2024, not 2025, and there is no index 10.  With
    an eleventh column the names cannot be assigned at all. *)
Lemma positional_fallback_not_7_to_10 :
  (10 <= length (columns Sheets.legacy_sheet))%nat /\
  LoaderSpec.no_year_tokens Sheets.legacy_sheet = true /\
  (exists self' d,
     DataLoader.load DataLoader.init (Ok Sheets.legacy_sheet)
     = (self', Ok d) /\
     columns d !! 7%nat = Some "2024" /\
     columns d !! 7%nat <> Some "2025" /\
     columns d !! 10%nat = None /\
     columns d !! 10%nat <> Some "2022") /\
  (10 <= length (columns Sheets.wide_sheet))%nat /\
  LoaderSpec.no_year_tokens Sheets.wide_sheet = true /\
  (let '(self', outcome) :=
     DataLoader.load DataLoader.init (Ok Sheets.wide_sheet) in
   outcome = Raise ValueError /\ DataLoader.get_years self' = []).
Proof.
  split; [by vm_compute|]. split; [reflexivity|]. split.
  { eexists _, _. split; [vm_compute; reflexivity|]. cbn. done. }
  split; [vm_compute; lia|]. split; [reflexivity|].
  vm_compute. done.
Qed.

Lemma loaded_years_descending_witness :
  let self' := (DataLoader.load DataLoader.init (Ok Sheets.pyg_sheet)).1 in
  let ys := DataLoader.get_years self' in
  ys = ["2024"; "2023"] /\
  ys <> [] /\ NoDup ys /\
  Forall (fun y => LoaderSpec.four_digits y = true) ys /\
  Sorted (flip String.le) ys /\
  StronglySorted
    (fun a b => (LoaderSpec.year_number b < LoaderSpec.year_number a)%N) ys.
Proof.
  split; [vm_compute; reflexivity|].
  eapply (loaded_years_descending DataLoader.init _ (Ok Sheets.pyg_sheet)).
  vm_compute. reflexivity.
Defined.

Lemma narrow_sheet_refused_witness :
  (length (columns Sheets.narrow_sheet) < 10)%nat /\
  (DataLoader.load DataLoader.init (Ok Sheets.narrow_sheet)).2
  = Raise ValidationError /\
  ValidationError <> DataLoadError.
Proof.
  split; [vm_compute; lia|].
  apply (narrow_sheet_refused DataLoader.init Sheets.narrow_sheet);
    [vm_compute; lia|reflexivity].
Defined.

Lemma ten_names_need_ten_columns_witness :
  length (columns Sheets.wide_sheet) = 11%nat /\
  (BalanceLoader.load BalanceLoader.init (Ok Sheets.wide_sheet)).2
  = Raise ValueError /\
  (DataLoader.load DataLoader.init (Ok Sheets.wide_sheet)).2
  = Raise ValueError.
Proof.
  split; [reflexivity|].
  destruct (ten_names_need_ten_columns DataLoader.init BalanceLoader.init
              Sheets.wide_sheet) as [Hb Hd].
  { vm_compute. discriminate. }
  split; [exact Hb|]. apply Hd. reflexivity.
Defined.

(** ** The line-item extractor *)

Section extractor_facts.
Context `{Runtime}.
Import ExtractorSpec.

Lemma comprehension_ok (f : string -> res cell) (years : list string)
    (acc d : gmap string cell) :
  KPIExtractor.comprehension f years acc = Ok d ->
  forall y,
    (y ∈ years -> exists v, f y = Ok v /\ d !! y = Some v) /\
    (y ∉ years -> d !! y = acc !! y).
Proof.
  revert acc. induction years as [|y0 years IH]; intros acc;
    cbn [KPIExtractor.comprehension].
  - intros [= <-] y. split; [by intros ?%elem_of_nil|done].
  - destruct (f y0) as [v0|e] eqn:Ef; [|done]. cbn [mbind res_bind bind].
    intros Hd y. destruct (IH _ Hd y) as [Hin Hout]. split.
    + intros Hy. destruct (decide (y ∈ years)) as [Hy'|Hy']; [by apply Hin|].
      apply elem_of_cons in Hy as [->|Hy]; [|done].
      exists v0. split; [done|]. rewrite (Hout Hy'). apply lookup_insert_eq.
    + intros Hy. apply not_elem_of_cons in Hy as [Hne Hy].
      rewrite (Hout Hy). by apply lookup_insert_ne.
Qed.

Lemma comprehension_total (f : string -> res cell) (years : list string)
    (acc : gmap string cell) :
  (forall y, y ∈ years -> exists v, f y = Ok v) ->
  exists d, KPIExtractor.comprehension f years acc = Ok d.
Proof.
  revert acc. induction years as [|y0 years IH]; intros acc Hf;
    cbn [KPIExtractor.comprehension]; [by eexists|].
  destruct (Hf y0) as [v ->]; [apply list_elem_of_here|].
  cbn [mbind res_bind bind]. apply IH. intros y Hy. apply Hf. by right.
Qed.

(** A comprehension that cannot raise is the pointwise dict. *)
Lemma comprehension_pure (f : string -> cell) (years : list string)
    (d : gmap string cell) :
  KPIExtractor.comprehension (fun y => Ok (f y)) years ∅ = Ok d ->
  is_comprehension f years d.
Proof.
  intros Hd y. destruct (comprehension_ok _ _ _ _ Hd y) as [Hin Hout].
  case_bool_decide as Hy.
  - by destruct (Hin Hy) as (v & [= <-] & ->).
  - by rewrite (Hout Hy).
Qed.

Lemma year_value_flipped (row : Series) (year : string) (v : cell) :
  KPIExtractor.year_value (-1) row year = Ok v -> nonneg v.
Proof.
  unfold KPIExtractor.year_value.
  destruct (get row year) as [[s|q|]|]; cbn; try done.
  - intros [= <-]. apply Qabs_nonneg.
  - by intros [= <-].
  - by intros [= <-].
Qed.

Lemma year_value_numeric (sign : Z) (years : list string) (row : Series)
    (year : string) :
  numeric_row years row = true -> year ∈ years ->
  exists v, KPIExtractor.year_value sign row year = Ok v.
Proof.
  intros Hnum Hy. unfold numeric_row in Hnum.
  rewrite forallb_forall in Hnum.
  specialize (Hnum year (proj1 (list_elem_of_In _ _) Hy)).
  unfold KPIExtractor.year_value.
  destruct (get row year) as [[s|q|]|]; try done; cbn;
    destruct (Z.eqb sign (-1)); by eexists.
Qed.

Lemma found_in_cell_matches (years : list string)
    (patterns : list Re.regex) (row : Series) :
  KPIExtractor.found_in years patterns row = cell_matches years patterns row.
Proof.
  induction row as [|[col v] row IH];
    cbn [KPIExtractor.found_in cell_matches existsb]; [done|].
  fold (cell_matches years patterns row). rewrite IH.
  case_bool_decide; cbn [negb andb orb]; [done|].
  by destruct (nonempty (str v) && Config.match_pattern (str v) patterns).
Qed.

(** No row matches: [_find_kpi] returns [None]. *)
Lemma find_in_rows_none (years : list string) (patterns : list Re.regex)
    (sign : Z) (rows : list Series) :
  existsb (cell_matches years patterns) rows = false ->
  KPIExtractor.find_in_rows years patterns sign rows = Ok None.
Proof.
  induction rows as [|row rows IH];
    cbn [existsb KPIExtractor.find_in_rows]; [done|].
  rewrite found_in_cell_matches.
  intros [-> Hrows]%orb_false_elim. by apply IH.
Qed.

(** The first matching row decides, whatever comes after it. *)
Lemma find_in_rows_first (years : list string) (patterns : list Re.regex)
    (sign : Z) (pre post : list Series) (row : Series) :
  existsb (cell_matches years patterns) pre = false ->
  cell_matches years patterns row = true ->
  KPIExtractor.find_in_rows years patterns sign (pre ++ row :: post)
  = (result ← KPIExtractor.comprehension
                (KPIExtractor.year_value sign row) years ∅;
     Ok (Some result)).
Proof.
  intros Hpre Hrow. induction pre as [|r pre IH];
    cbn [app KPIExtractor.find_in_rows].
  - by rewrite found_in_cell_matches, Hrow.
  - cbn [existsb] in Hpre. apply orb_false_elim in Hpre as [Hr Hpre].
    rewrite found_in_cell_matches, Hr. by apply IH.
Qed.

(** A value [_find_kpi] returns was read from the first matching row. *)
Lemma find_in_rows_some (years : list string) (patterns : list Re.regex)
    (sign : Z) (rows : list Series) (ys : gmap string cell) :
  KPIExtractor.find_in_rows years patterns sign rows = Ok (Some ys) ->
  exists pre row post,
    rows = pre ++ row :: post /\
    existsb (cell_matches years patterns) pre = false /\
    cell_matches years patterns row = true /\
    KPIExtractor.comprehension (KPIExtractor.year_value sign row) years ∅
    = Ok ys.
Proof.
  induction rows as [|r rows IH]; cbn [KPIExtractor.find_in_rows]; [done|].
  rewrite found_in_cell_matches.
  destruct (cell_matches years patterns r) eqn:Hr.
  - destruct (KPIExtractor.comprehension _ _ _) as [d|e] eqn:Hd; [|done].
    cbn [mbind res_bind bind]. intros [= <-]. by exists [], r, rows.
  - intros (pre & row & post & -> & Hpre & Hrow & Hd)%IH.
    exists (r :: pre), row, post. cbn [existsb]. by rewrite Hr.
Qed.

Lemma find_in_rows_total (years : list string) (patterns : list Re.regex)
    (sign : Z) (rows : list Series) :
  numeric_years years rows = true ->
  exists r, KPIExtractor.find_in_rows years patterns sign rows = Ok r.
Proof.
  induction rows as [|row rows IH];
    cbn [numeric_years forallb KPIExtractor.find_in_rows]; [by eexists|].
  intros [Hrow Hrows]%andb_prop.
  destruct (KPIExtractor.found_in years patterns row); [|by apply IH].
  destruct (comprehension_total (KPIExtractor.year_value sign row) years ∅)
    as [d ->]; [|by eexists].
  intros y Hy. by eapply year_value_numeric.
Qed.


(** What one turn of the loop of [extract_all] does to the object. *)
Lemma extract_one_inv (self self' : KPIExtractor.t) (name : string)
    (cfg : Config.config) :
  KPIExtractor.extract_one self (name, cfg) = Ok self' ->
  KPIExtractor.df self' = KPIExtractor.df self /\
  KPIExtractor.years self' = KPIExtractor.years self /\
  (forall n, n ∈ KPIExtractor._not_found self ->
             n ∈ KPIExtractor._not_found self') /\
  (forall n, n <> name ->
             KPIExtractor.kpis self' !! n = KPIExtractor.kpis self !! n) /\
  match KPIExtractor._find_kpi self name cfg with
  | Ok (Some ys) => KPIExtractor.kpis self' !! name = Some ys
  | Ok None =>
      if Config.required cfg
      then KPIExtractor.kpis self' !! name = KPIExtractor.kpis self !! name /\
           name ∈ KPIExtractor._not_found self'
      else exists ys,
          KPIExtractor.kpis self' !! name = Some ys /\
          is_comprehension
            (fun _ => Number (default 0%Q (Config.default cfg)))
            (KPIExtractor.years self) ys
  | Raise _ => False
  end.
Proof.
  unfold KPIExtractor.extract_one.
  destruct (KPIExtractor._find_kpi self name cfg) as [[ys|]|e]; [| |done];
    cbn [mbind res_bind bind].
  - intros [= <-]. cbn. split; [done|]. split; [done|]. split; [done|].
    split; [|apply lookup_insert_eq].
    intros n Hn. by apply lookup_insert_ne.
  - destruct (Config.required cfg).
    + intros [= <-]. cbn. split; [done|]. split; [done|].
      split; [intros n Hn; set_solver|]. split; [done|].
      split; [done|set_solver].
    + destruct (KPIExtractor.comprehension _ _ _) as [ys|e] eqn:Hys; [|done].
      cbn [mbind res_bind bind]. intros [= <-]. cbn.
      split; [done|]. split; [done|]. split; [done|]. split.
      * intros n Hn. by apply lookup_insert_ne.
      * exists ys. split; [apply lookup_insert_eq|].
        by apply comprehension_pure.
Qed.

Lemma find_kpi_frame (self self' : KPIExtractor.t) (name : string)
    (cfg : Config.config) :
  KPIExtractor.df self' = KPIExtractor.df self ->
  KPIExtractor.years self' = KPIExtractor.years self ->
  KPIExtractor._find_kpi self' name cfg = KPIExtractor._find_kpi self name cfg.
Proof. unfold KPIExtractor._find_kpi. by intros -> ->. Qed.

(** The loop over a registry whose keys are distinct, as those of a
    dict are: the entry of each concept is the one its own turn wrote. *)
Lemma extract_loop_inv (items : list (string * Config.config))
    (self st : KPIExtractor.t) :
  NoDup items.*1 ->
  KPIExtractor.extract_loop items self = Ok st ->
  KPIExtractor.df st = KPIExtractor.df self /\
  KPIExtractor.years st = KPIExtractor.years self /\
  (forall n, n ∈ KPIExtractor._not_found self ->
             n ∈ KPIExtractor._not_found st) /\
  (forall n, n ∉ items.*1 ->
             KPIExtractor.kpis st !! n = KPIExtractor.kpis self !! n) /\
  (forall name cfg, (name, cfg) ∈ items ->
     match KPIExtractor._find_kpi self name cfg with
     | Ok (Some ys) => KPIExtractor.kpis st !! name = Some ys
     | Ok None =>
         if Config.required cfg
         then KPIExtractor.kpis st !! name = KPIExtractor.kpis self !! name /\
              name ∈ KPIExtractor._not_found st
         else exists ys,
             KPIExtractor.kpis st !! name = Some ys /\
             is_comprehension
               (fun _ => Number (default 0%Q (Config.default cfg)))
               (KPIExtractor.years self) ys
     | Raise _ => False
     end).
Proof.
  revert self. induction items as [|[name0 cfg0] items IH]; intros self Hnd;
    cbn [KPIExtractor.extract_loop].
  - intros [= <-]. repeat split; try done. by intros ? ? ?%elem_of_nil.
  - destruct (KPIExtractor.extract_one self (name0, cfg0)) as [self1|e] eqn:E1;
      [|done].
    cbn [mbind res_bind bind]. intros Hloop.
    apply NoDup_cons in Hnd as [Hfresh Hnd].
    destruct (extract_one_inv _ _ _ _ E1) as (Hdf1 & Hys1 & Hnf1 & Hk1 & Hone).
    destruct (IH self1 Hnd Hloop) as (Hdf & Hys & Hnf & Hk & Hrest).
    split; [congruence|]. split; [congruence|].
    split; [by intros n Hn; apply Hnf, Hnf1|].
    split.
    { intros n Hn. cbn in Hn. apply not_elem_of_cons in Hn as [Hne Hn].
      by rewrite (Hk n Hn), (Hk1 n Hne). }
    intros name cfg [[= -> ->]|Hin]%elem_of_cons.
    + rewrite (Hk name0 Hfresh).
      destruct (KPIExtractor._find_kpi self name0 cfg0) as [[ys|]|e];
        [done| |done].
      destruct (Config.required cfg0); [|done].
      destruct Hone as [Hsame Hmiss]. split; [done|]. by apply Hnf.
    + specialize (Hrest name cfg Hin).
      rewrite (find_kpi_frame self self1) in Hrest by done.
      assert (name <> name0) as Hne.
      { intros ->. apply Hfresh. apply list_elem_of_fmap. by exists (name0, cfg). }
      rewrite <- Hys1, <- (Hk1 name Hne). exact Hrest.
Qed.

Lemma extract_loop_total (items : list (string * Config.config))
    (self : KPIExtractor.t) :
  numeric_years (KPIExtractor.years self) (iterrows (KPIExtractor.df self))
  = true ->
  exists st, KPIExtractor.extract_loop items self = Ok st.
Proof.
  revert self. induction items as [|[name cfg] items IH]; intros self Hnum;
    cbn [KPIExtractor.extract_loop]; [by eexists|].
  assert (exists self1, KPIExtractor.extract_one self (name, cfg) = Ok self1)
    as [self1 E1].
  { unfold KPIExtractor.extract_one, KPIExtractor._find_kpi.
    destruct (find_in_rows_total (KPIExtractor.years self)
                (Config.patterns cfg) (Config.sign cfg) _ Hnum) as [[ys|] ->];
      cbn [mbind res_bind bind]; [by eexists|].
    destruct (Config.required cfg); [by eexists|].
    destruct (comprehension_total
                (fun _ => Ok (Number (default 0%Q (Config.default cfg))))
                (KPIExtractor.years self) ∅) as [d ->]; [by eexists|].
    by eexists. }
  rewrite E1. cbn [mbind res_bind bind]. apply IH.
  destruct (extract_one_inv _ _ _ _ E1) as (-> & -> & _). exact Hnum.
Qed.

Lemma KPI_MAPPINGS_NoDup : NoDup Config.KPI_MAPPINGS.*1.
Proof. by apply (bool_decide_unpack _); vm_compute. Qed.

(** The optional concepts of the registry default to a number that is
    not negative. *)
Lemma KPI_MAPPINGS_defaults (name : string) (cfg : Config.config) :
  (name, cfg) ∈ Config.KPI_MAPPINGS ->
  (0 <= default 0 (Config.default cfg))%Q.
Proof.
  unfold Config.KPI_MAPPINGS. rewrite !elem_of_cons, elem_of_nil.
  intros Hin.
  repeat (destruct Hin as [[= -> ->]|Hin]; [by vm_compute|]). done.
Qed.

End extractor_facts.

(** ** From the loader to the extractor *)

Section clean_facts.
Context `{Runtime}.
Import ExtractorSpec LoaderSpec.

Lemma coerced_is_number (v : cell) :
  is_number (fillna0 (to_numeric v)) = true.
Proof. destruct v as [s|q|]; cbn; [|done|done]. by destruct (parse_num s). Qed.

Lemma get_update_row (name : string) (f : cell -> cell)
    (cols : list string) (r : list cell) (y : string) :
  get (zip cols (update_row name f cols r)) y
  = if decide (y = name) then f <$> get (zip cols r) y
    else get (zip cols r) y.
Proof.
  unfold get. revert r. induction cols as [|c cols IH]; intros r.
  - cbn. by destruct (decide (y = name)), r.
  - destruct r as [|v r]; cbn [update_row zip zip_with dict_get].
    { by destruct (decide (y = name)). }
    destruct (String.eqb y c) eqn:Ey.
    + apply String.eqb_eq in Ey as ->.
      destruct (decide (c = name)) as [->|Hne].
      * by rewrite String.eqb_refl.
      * apply String.eqb_neq in Hne. by rewrite Hne.
    + apply IH.
Qed.

Lemma update_row_absent (name : string) (f : cell -> cell)
    (cols : list string) (r : list cell) :
  name ∉ cols -> update_row name f cols r = r.
Proof.
  revert r. induction cols as [|c cols IH]; intros r Hn; [by destruct r|].
  destruct r as [|v r]; [done|]. cbn [update_row].
  apply not_elem_of_cons in Hn as [Hne Hn].
  apply String.eqb_neq in Hne. rewrite String.eqb_sym, Hne.
  by rewrite IH.
Qed.

Lemma clean_data_rows (d : DataFrame string) (years : list string) :
  foldl (fun d year =>
           if bool_decide (year ∈ columns d)
           then map_column year (fun v => fillna0 (to_numeric v)) d
           else d) d years
  = mkDF (columns d) (clean_row (columns d) years <$> rows d).
Proof.
  revert d. induction years as [|y years IH]; intros [cols rs];
    cbn [foldl columns rows].
  - f_equal. unfold clean_row. cbn [foldl]. by rewrite list_fmap_id.
  - case_bool_decide as Hy.
    + rewrite IH. unfold map_column. cbn [columns rows]. f_equal.
      by rewrite <- list_fmap_compose.
    + rewrite IH. cbn [columns rows]. f_equal.
      apply list_fmap_ext. intros _ r _. unfold clean_row. cbn [foldl].
      by rewrite update_row_absent.
Qed.

Lemma clean_row_keeps_numbers (cols years : list string) (r : list cell)
    (y : string) :
  (forall v, get (zip cols r) y = Some v -> is_number v = true) ->
  forall v, get (zip cols (clean_row cols years r)) y = Some v ->
            is_number v = true.
Proof.
  revert r. induction years as [|y0 years IH]; intros r Hr; [done|].
  unfold clean_row. cbn [foldl]. apply IH.
  intros v. rewrite get_update_row.
  destruct (decide (y = y0)) as [->|Hne]; [|apply Hr].
  destruct (get (zip cols r) y0); [|done].
  intros [= <-]. apply coerced_is_number.
Qed.

Lemma clean_row_numeric (cols years : list string) (r : list cell)
    (y : string) (v : cell) :
  y ∈ years ->
  get (zip cols (clean_row cols years r)) y = Some v ->
  is_number v = true.
Proof.
  revert r. induction years as [|y0 years IH]; intros r Hy;
    [by apply elem_of_nil in Hy|].
  destruct (decide (y ∈ years)) as [Hin|Hin];
    [unfold clean_row; cbn [foldl]; by apply IH|].
  apply elem_of_cons in Hy as [->|Hy]; [|done].
  unfold clean_row. cbn [foldl].
  apply clean_row_keeps_numbers. intros v'. rewrite get_update_row.
  rewrite decide_True by done.
  destruct (get (zip cols r) y0); [|done].
  intros [= <-]. apply coerced_is_number.
Qed.

(** The frame [load] returns has numbers, and only numbers, in its year
    columns: it is a grid in the sense of the extractor's statements. *)
Lemma loaded_frame_numeric (self self' : DataLoader.t)
    (read : res (DataFrame cell)) (d : DataFrame string) :
  DataLoader.load self read = (self', Ok d) ->
  numeric_years (DataLoader.get_years self') (iterrows d) = true.
Proof.
  intros (raw & self1 & -> & _ & -> & _ & Hd)%load_ok_inv.
  unfold DataLoader.get_years. rewrite clean_data_years.
  unfold DataLoader._clean_data in Hd.
  destruct (DataLoader.df self1) as [d1|] eqn:Hd1; [|by rewrite Hd1 in Hd].
  cbn [DataLoader.df] in Hd. injection Hd as <-.
  rewrite clean_data_rows. unfold numeric_years, iterrows.
  cbn [columns rows]. rewrite forallb_forall. intros row Hrow.
  apply list_elem_of_In, list_elem_of_fmap in Hrow as (r' & -> & Hr').
  apply list_elem_of_fmap in Hr' as (r & -> & _).
  unfold numeric_row. rewrite forallb_forall. intros y Hy%list_elem_of_In.
  destruct (get _ y) as [v|] eqn:Hv; [|done].
  by eapply clean_row_numeric.
Qed.

End clean_facts.

Section extractor_claims.
Context `{Runtime}.
Import ExtractorSpec.

Lemma dict_get_elem {V} (k : string) (v : V) (d : list (string * V)) :
  dict_get k d = Some v -> (k, v) ∈ d.
Proof.
  induction d as [|[k' v'] d IH]; cbn [dict_get]; [done|].
  destruct (String.eqb k k') eqn:E.
  - apply String.eqb_eq in E as ->. intros [= ->]. apply list_elem_of_here.
  - intros Hd. right. by apply IH.
Qed.

(** [extract_all] on a fresh extractor, concept by concept. *)
Lemma extract_all_inv (df : DataFrame string) (years : list string)
    (st : KPIExtractor.t) (name : string) (cfg : Config.config) :
  KPIExtractor.extract_all (KPIExtractor.init df years) = Ok st ->
  dict_get name Config.KPI_MAPPINGS = Some cfg ->
  match KPIExtractor.find_in_rows years (Config.patterns cfg)
          (Config.sign cfg) (iterrows df) with
  | Ok (Some ys) => KPIExtractor.kpis st !! name = Some ys
  | Ok None =>
      if Config.required cfg
      then KPIExtractor.kpis st !! name = None /\
           name ∈ KPIExtractor.get_missing_kpis st
      else exists ys,
          KPIExtractor.kpis st !! name = Some ys /\
          is_comprehension
            (fun _ => Number (default 0%Q (Config.default cfg))) years ys
  | Raise _ => False
  end.
Proof.
  intros Hst Hcfg%dict_get_elem.
  destruct (extract_loop_inv _ _ _ KPI_MAPPINGS_NoDup Hst)
    as (_ & _ & _ & _ & Hitems).
  exact (Hitems name cfg Hcfg).
Qed.

Lemma extract_all_total (df : DataFrame string) (years : list string) :
  numeric_years years (iterrows df) = true ->
  exists st, KPIExtractor.extract_all (KPIExtractor.init df years) = Ok st.
Proof. intros Hnum. by apply extract_loop_total. Qed.

(** The pipeline of the application: what [load] returns can be
    extracted. *)
Lemma loaded_frame_extracts (self self' : DataLoader.t)
    (read : res (DataFrame cell)) (d : DataFrame string) :
  DataLoader.load self read = (self', Ok d) ->
  exists st,
    KPIExtractor.extract_all
      (KPIExtractor.init d (DataLoader.get_years self')) = Ok st.
Proof. intros Hload. by eapply extract_all_total, loaded_frame_numeric. Qed.

(** Whenever [extract_all] returns, also on a frame that was not
    cleaned, the values of a concept with sign [-1] are not negative. *)
Lemma flipped_sign_returned (df : DataFrame string) (years : list string)
    (st : KPIExtractor.t) (name : string) (cfg : Config.config)
    (ys : gmap string cell) (y : string) (v : cell) :
  KPIExtractor.extract_all (KPIExtractor.init df years) = Ok st ->
  dict_get name Config.KPI_MAPPINGS = Some cfg ->
  Config.sign cfg = (-1)%Z ->
  KPIExtractor.kpis st !! name = Some ys -> ys !! y = Some v ->
  nonneg v.
Proof.
  intros Hst Hcfg Hsign Hys Hv.
  pose proof (extract_all_inv _ _ _ _ _ Hst Hcfg) as Hinv.
  destruct (KPIExtractor.find_in_rows _ _ _ _) as [[ys'|]|e] eqn:Hfind;
    [| |done].
  - rewrite Hinv in Hys. injection Hys as ->.
    apply find_in_rows_some in Hfind as (pre & row & post & _ & _ & _ & Hd).
    rewrite Hsign in Hd.
    destruct (comprehension_ok _ _ _ _ Hd y) as [Hin Hout].
    destruct (decide (y ∈ years)) as [Hy|Hy].
    + destruct (Hin Hy) as (v' & Hv' & Hlook).
      rewrite Hlook in Hv. injection Hv as ->.
      by eapply year_value_flipped.
    + by rewrite (Hout Hy), lookup_empty in Hv.
  - destruct (Config.required cfg).
    + destruct Hinv as [Hnone _]. by rewrite Hnone in Hys.
    + destruct Hinv as (ys' & Hys' & Hcomp).
      rewrite Hys' in Hys. injection Hys as ->.
      rewrite (Hcomp y) in Hv. case_bool_decide; [|done].
      injection Hv as <-. cbn.
      eapply KPI_MAPPINGS_defaults. by apply dict_get_elem.
Qed.

(** C4: on every grid [extract_all] returns, and what it stores for a
    concept whose sign is [-1] is a number that is not negative, whatever
    the sign of the cell it read. *)
Theorem flipped_sign_nonneg (df : DataFrame string) (years : list string)
    (name : string) (cfg : Config.config) :
  numeric_years years (iterrows df) = true ->
  dict_get name Config.KPI_MAPPINGS = Some cfg ->
  Config.sign cfg = (-1)%Z ->
  exists st,
    KPIExtractor.extract_all (KPIExtractor.init df years) = Ok st /\
    forall ys y v,
      KPIExtractor.kpis st !! name = Some ys -> ys !! y = Some v ->
      nonneg v.
Proof.
  intros Hnum Hcfg Hsign.
  destruct (extract_all_total df years Hnum) as [st Hst].
  exists st. split; [done|]. intros ys y v.
  by apply (flipped_sign_returned df years st name cfg).
Qed.

(** C5: a concept of the registry that no row matches does not stop the
    extraction: [_find_kpi] answers [None]; a required concept is left out
    of the KPI map and listed as missing, an optional one is mapped to its
    default for every year. *)
Theorem unmatched_concept (df : DataFrame string) (years : list string)
    (name : string) (cfg : Config.config) :
  numeric_years years (iterrows df) = true ->
  dict_get name Config.KPI_MAPPINGS = Some cfg ->
  existsb (cell_matches years (Config.patterns cfg)) (iterrows df) = false ->
  exists st,
    KPIExtractor.extract_all (KPIExtractor.init df years) = Ok st /\
    KPIExtractor._find_kpi (KPIExtractor.init df years) name cfg = Ok None /\
    if Config.required cfg
    then KPIExtractor.kpis st !! name = None /\
         name ∈ KPIExtractor.get_missing_kpis st
    else exists ys,
        KPIExtractor.kpis st !! name = Some ys /\
        forall y, ys !! y =
                    if bool_decide (y ∈ years)
                    then Some (Number (default 0%Q (Config.default cfg)))
                    else None.
Proof.
  intros Hnum Hcfg Hnone.
  destruct (extract_all_total df years Hnum) as [st Hst].
  exists st. split; [done|].
  pose proof (find_in_rows_none years (Config.patterns cfg)
                (Config.sign cfg) _ Hnone) as Hfind.
  split; [exact Hfind|].
  pose proof (extract_all_inv _ _ _ _ _ Hst Hcfg) as Hinv.
  by rewrite Hfind in Hinv.
Qed.

(** C6, as the code has it: the entry of a concept is read from the
    first row, in the order of the grid, one of whose cells outside the
    year columns has a text that matches; the rows after it play no part. *)
Theorem first_matching_row (df : DataFrame string) (years : list string)
    (name : string) (cfg : Config.config)
    (pre post : list Series) (row : Series) :
  numeric_years years (iterrows df) = true ->
  dict_get name Config.KPI_MAPPINGS = Some cfg ->
  iterrows df = pre ++ row :: post ->
  existsb (cell_matches years (Config.patterns cfg)) pre = false ->
  cell_matches years (Config.patterns cfg) row = true ->
  exists st ys,
    KPIExtractor.extract_all (KPIExtractor.init df years) = Ok st /\
    KPIExtractor.kpis st !! name = Some ys /\
    forall y,
      if bool_decide (y ∈ years)
      then exists v,
          KPIExtractor.year_value (Config.sign cfg) row y = Ok v /\
          ys !! y = Some v
      else ys !! y = None.
Proof.
  intros Hnum Hcfg Hrows Hpre Hrow.
  destruct (extract_all_total df years Hnum) as [st Hst].
  pose proof (extract_all_inv _ _ _ _ _ Hst Hcfg) as Hinv.
  rewrite Hrows, (find_in_rows_first _ _ _ _ _ _ Hpre Hrow) in Hinv.
  destruct (KPIExtractor.comprehension _ _ _) as [ys|e] eqn:Hd; [|done].
  cbn [mbind res_bind bind] in Hinv.
  exists st, ys. split; [done|]. split; [done|].
  intros y. destruct (comprehension_ok _ _ _ _ Hd y) as [Hin Hout].
  case_bool_decide as Hy; [by apply Hin|]. by rewrite (Hout Hy).
Qed.

End extractor_claims.

Lemma pyg_frame_loaded :
  (DataLoader.load DataLoader.init (Ok Sheets.pyg_sheet)).2
  = Ok Sheets.pyg_frame.
Proof. vm_compute. reflexivity. Qed.

Lemma legacy_frame_loaded :
  (DataLoader.load DataLoader.init (Ok Sheets.legacy_sheet)).2
  = Ok Sheets.legacy_frame.
Proof. vm_compute. reflexivity. Qed.

(** Scenario B is the second conjunct: the row "4. Aprovisionamientos"
    holding -200000 for 2024 is stored as 200000. *)
Lemma flipped_sign_nonneg_witness :
  (exists st,
     KPIExtractor.extract_all
       (KPIExtractor.init Sheets.pyg_frame ["2024"; "2023"]) = Ok st /\
     forall ys y v,
       KPIExtractor.kpis st !! "aprovisionamientos" = Some ys ->
       ys !! y = Some v -> ExtractorSpec.nonneg v) /\
  ExtractorSpec.kpi_value
    (KPIExtractor.extract_all
       (KPIExtractor.init Sheets.pyg_frame ["2024"; "2023"]))
    "aprovisionamientos" "2024" = Some (Number 200000).
Proof.
  split.
  - eapply (flipped_sign_nonneg Sheets.pyg_frame ["2024"; "2023"]
              "aprovisionamientos"); vm_compute; reflexivity.
  - vm_compute. reflexivity.
Defined.

Lemma unmatched_concept_witness :
  (exists st,
     KPIExtractor.extract_all
       (KPIExtractor.init Sheets.pyg_frame ["2024"; "2023"]) = Ok st /\
     KPIExtractor.kpis st !! "gastos_personal" = None /\
     "gastos_personal" ∈ KPIExtractor.get_missing_kpis st) /\
  (exists st ys,
     KPIExtractor.extract_all
       (KPIExtractor.init Sheets.pyg_frame ["2024"; "2023"]) = Ok st /\
     KPIExtractor.kpis st !! "gastos_financieros" = Some ys /\
     ys !! "2024" = Some (Number 0) /\ ys !! "2023" = Some (Number 0) /\
     ys !! "2022" = None).
Proof.
  split.
  - edestruct (unmatched_concept Sheets.pyg_frame ["2024"; "2023"]
                 "gastos_personal") as (st & Hst & _ & Hreq);
      [vm_compute; reflexivity..|].
    exists st. split; [exact Hst|]. exact Hreq.
  - edestruct (unmatched_concept Sheets.pyg_frame ["2024"; "2023"]
                 "gastos_financieros") as (st & Hst & _ & Hopt);
      [vm_compute; reflexivity..|].
    cbn [Config.required Config.default default] in Hopt.
    destruct Hopt as (ys & Hys & Hall).
    exists st, ys. split; [exact Hst|]. split; [exact Hys|].
    split; [exact (Hall "2024")|]. split; [exact (Hall "2023")|].
    exact (Hall "2022").
Defined.

Lemma first_matching_row_witness :
  exists st ys,
    KPIExtractor.extract_all
      (KPIExtractor.init Sheets.legacy_frame DataLoader.default_years)
    = Ok st /\
    KPIExtractor.kpis st !! "ingresos" = Some ys /\
    ys !! "2025" = Some (Number 200).
Proof.
  edestruct (first_matching_row Sheets.legacy_frame DataLoader.default_years
               "ingresos")
    with (pre := take 1 (iterrows Sheets.legacy_frame))
         (post := @nil Series)
         (row := zip (columns Sheets.legacy_frame)
                   [Text "x"; Text "ventas netas"; Text "x"; Text "x";
                    Text "x"; Text "x";
                    Number 200; Number 0; Number 0; Number 0])
    as (st & ys & Hst & Hys & Hall); [vm_compute; reflexivity..|].
  exists st, ys. split; [exact Hst|]. split; [exact Hys|].
  destruct (Hall "2025") as (v & Hv & Hlook).
  rewrite Hlook. f_equal. vm_compute in Hv. by injection Hv.
Defined.

(** C6 as it was stated fails on the legacy layout: the first row whose
    texts, joined with or without a blank, match a pattern of [ingresos]
    is the first row of the sheet, yet the entry is read from the second
    one, the first in which a single cell matches. *)
Lemma joined_text_is_not_searched :
  let years := DataLoader.default_years in
  exists cfg row0 row1,
    dict_get "ingresos" Config.KPI_MAPPINGS = Some cfg /\
    iterrows Sheets.legacy_frame = [row0; row1] /\
    ExtractorSpec.concat_matches "" years (Config.patterns cfg) row0 = true /\
    ExtractorSpec.concat_matches " " years (Config.patterns cfg) row0 = true /\
    get row0 "2025" = Some (Number 100) /\
    get row1 "2025" = Some (Number 200) /\
    ExtractorSpec.kpi_value
      (KPIExtractor.extract_all (KPIExtractor.init Sheets.legacy_frame years))
      "ingresos" "2025" = Some (Number 200).
Proof.
  eexists _, _, _.
  split; [vm_compute; reflexivity|]. split; [vm_compute; reflexivity|].
  split; [vm_compute; reflexivity|]. split; [vm_compute; reflexivity|].
  split; [vm_compute; reflexivity|]. split; [vm_compute; reflexivity|].
  vm_compute. reflexivity.
Qed.

(** ** The detail sections *)

Section detail_facts.
Context `{Runtime}.
Import ExtractorSpec.

Lemma snoc_eq_app_cons {A} (l pre post : list A) (r x : A) :
  l ++ [r] = pre ++ x :: post ->
  (post = [] /\ pre = l /\ x = r) \/
  (exists post', post = post' ++ [r] /\ l = pre ++ x :: post').
Proof.
  destruct post as [|p post _] using rev_ind.
  - intros [-> ->]%app_inj_tail. by left.
  - rewrite app_comm_cons, app_assoc.
    intros [-> ->]%app_inj_tail. right. by exists post.
Qed.

Lemma year_dict_lookup (f : string -> cell) (years : list string)
    (acc : gmap string cell) (y : string) :
  foldl (fun d year => <[year := f year]> d) acc years !! y
  = if bool_decide (y ∈ years) then Some (f y) else acc !! y.
Proof.
  revert acc. induction years as [|y0 years IH]; intros acc; cbn [foldl].
  - by rewrite bool_decide_eq_false_2 by apply not_elem_of_nil.
  - rewrite IH. destruct (decide (y ∈ years)) as [Hy|Hy].
    + rewrite !bool_decide_eq_true_2; [done|by right|done].
    + rewrite (bool_decide_eq_false_2 (y ∈ years)) by done.
      destruct (decide (y = y0)) as [->|Hne].
      * rewrite bool_decide_eq_true_2 by apply list_elem_of_here.
        apply lookup_insert_eq.
      * rewrite bool_decide_eq_false_2
          by (intros [?|?]%elem_of_cons; done).
        by apply lookup_insert_ne.
Qed.

Lemma year_dict_comprehension (row : Series) (years : list string)
    (vals : gmap string cell) :
  vals = foldl (fun d year => <[year := KPIExtractor.get0 row year]> d)
               ∅ years
  <-> is_comprehension (KPIExtractor.get0 row) years vals.
Proof.
  split.
  - intros -> y. by rewrite year_dict_lookup, lookup_empty.
  - intros Hc. apply map_eq. intros y.
    by rewrite (Hc y), year_dict_lookup, lookup_empty.
Qed.

(** One turn of the loop of [_extract_servicios], by the kind of the
    row. *)
Lemma servicios_step_kind (years : list string) (b : bool)
    (m : gmap string (gmap string cell)) (row : Series) :
  KPIExtractor.servicios_step years (b, m) row
  = (if is_parent row then true else if is_stop row then false else b,
     if b && is_item row
     then <[KPIExtractor.item_name (Config.item_pattern Config.servicios)
              (KPIExtractor.concepto_of row)
            := foldl (fun d year => <[year := KPIExtractor.get0 row year]> d)
                     ∅ years]> m
     else m).
Proof.
  unfold KPIExtractor.servicios_step, is_parent, is_stop, is_item.
  destruct (nonempty _), (Re.search true (Config.parent_pattern _) _),
    b, (Re.search true (Config.stop_pattern _) _), (Re.match_ false _ _);
    reflexivity.
Qed.

Lemma parent_not_stop (row : Series) :
  is_parent row = true -> is_stop row = false.
Proof.
  unfold is_parent, is_stop. intros [-> ->]%andb_prop. done.
Qed.

Lemma window_open_nil : ~ window_open [].
Proof. intros (p1 & r & p2 & Heq & _). by destruct p1. Qed.

Lemma window_open_snoc (l : list Series) (r : Series) :
  window_open (l ++ [r])
  <-> is_parent r = true \/ (is_stop r = false /\ window_open l).
Proof.
  split.
  - intros (p1 & x & p2 & Heq & Hx & Hp2).
    apply snoc_eq_app_cons in Heq
        as [(-> & -> & ->)|(p2' & -> & ->)]; [by left|].
    right. rewrite forallb_app in Hp2. cbn in Hp2.
    apply andb_prop in Hp2 as [Hp2' Hr]. split.
    + rewrite andb_true_r in Hr. by apply negb_true_iff in Hr.
    + by exists p1, x, p2'.
  - intros [Hr|[Hr (p1 & x & p2 & -> & Hx & Hp2)]].
    + exists l, r, []. done.
    + exists p1, x, (p2 ++ [r]). rewrite forallb_app, Hp2. cbn.
      rewrite Hr. split; [|done]. by rewrite <- app_assoc.
Qed.

Lemma recorded_snoc (l : list Series) (r row : Series) (name : string) :
  recorded (l ++ [r]) name row
  <-> (captured l r name /\ row = r)
      \/ (recorded l name row /\ ~ captured l r name).
Proof.
  split.
  - intros (pre & post & Heq & Hcap & Hlast).
    apply snoc_eq_app_cons in Heq
        as [(-> & -> & ->)|(post' & -> & ->)]; [by left|].
    right. split.
    + exists pre, post'. split; [done|]. split; [done|].
      intros post1 r' post2 ->. apply (Hlast post1 r' (post2 ++ [r])).
      by rewrite <- app_assoc.
    + apply (Hlast post' r []). done.
  - intros [[Hcap ->]|[(pre & post & -> & Hcap & Hlast) Hno]].
    + exists l, []. split; [done|]. split; [done|].
      intros post1 r' post2 Heq. by destruct post1.
    + exists pre, (post ++ [r]). split; [by rewrite <- app_assoc|].
      split; [done|]. intros post1 r' post2 Heq.
      apply snoc_eq_app_cons in Heq
          as [(-> & -> & ->)|(post2' & -> & ->)]; [done|].
      by apply (Hlast post1 r' post2').
Qed.

(** The state of the loop of [_extract_servicios] after the rows [l]:
    the flag says whether the window is open, and the dict holds, under each
    name, the years of the last row captured under it. *)
Lemma servicios_loop_inv (years : list string) (l : list Series) :
  let st := foldl (KPIExtractor.servicios_step years) (false, ∅) l in
  (st.1 = true <-> window_open l) /\
  forall name vals,
    st.2 !! name = Some vals <->
    exists row, recorded l name row /\
                is_comprehension (KPIExtractor.get0 row) years vals.
Proof.
  induction l as [|r l IH] using rev_ind; cbn zeta.
  - cbn [foldl fst snd]. split.
    + split; [done|]. by intros ?%window_open_nil.
    + intros name vals. rewrite lookup_empty. split; [done|].
      intros (row & (pre & post & Heq & _) & _). by destruct pre.
  - rewrite foldl_snoc.
    destruct (foldl (KPIExtractor.servicios_step years) (false, ∅) l)
      as [b m]. cbn [fst snd] in IH. destruct IH as [IHb IHm].
    rewrite servicios_step_kind. cbn [fst snd]. split.
    + rewrite window_open_snoc, <- IHb.
      destruct (is_parent r) eqn:Hp; [by intuition|].
      destruct (is_stop r); [|by intuition].
      split; [done|]. by intros [|[]].
    + intros name vals. setoid_rewrite recorded_snoc.
      destruct (b && is_item r) eqn:Hcap.
      * apply andb_prop in Hcap as [-> Hitem].
        assert (window_open l) as Hopen by by apply IHb.
        set (k := KPIExtractor.item_name _ _).
        destruct (decide (name = k)) as [->|Hne].
        -- rewrite lookup_insert_eq. split.
           ++ intros [= <-]. exists r. split.
              ** left. done.
              ** by apply year_dict_comprehension.
           ++ intros (row & [[_ ->]|[_ Hno]] & Hc).
              ** f_equal. symmetry. by apply year_dict_comprehension.
              ** destruct Hno. done.
        -- rewrite lookup_insert_ne by done. rewrite IHm. split.
           ++ intros (row & Hrec & Hc). exists row. split; [|done].
              right. split; [done|]. intros (_ & _ & Hk). by destruct Hne.
           ++ intros (row & [[Hc' ->]|[Hrec _]] & Hc).
              ** destruct Hc' as (_ & _ & Hk). by destruct Hne.
              ** by exists row.
      * rewrite IHm. split.
        -- intros (row & Hrec & Hc). exists row. split; [|done].
           right. split; [done|]. intros (Hopen & Hitem & _).
           apply IHb in Hopen. by rewrite Hopen, Hitem in Hcap.
        -- intros (row & [[Hc' ->]|[Hrec _]] & Hc).
           ++ destruct Hc' as (Hopen & Hitem & _).
              apply IHb in Hopen. by rewrite Hopen, Hitem in Hcap.
           ++ by exists row.
Qed.


Lemma sub_from_anchored (ic : bool) (r : Re.regex) (c : ascii) (s : string) :
  Re.sub_from ic (Re.Bol :: r) (Some c) 0 s = s.
Proof.
  revert c. induction s as [|c' s IH]; intros c; cbn; [done|].
  by rewrite IH.
Qed.

(** On a label that starts with the item prefix, [re.sub] removes the
    prefix and nothing else. *)
Lemma item_name_prefix (rest : string) :
  KPIExtractor.item_name (Config.item_pattern Config.servicios)
    ("705.0.0." +:+ rest)
  = let nombre := strip rest in
    if has_space nombre then after_first_space nombre else nombre.
Proof.
  unfold KPIExtractor.item_name.
  replace (Re.sub_empty false (Config.item_pattern Config.servicios)
             ("705.0.0." +:+ rest)) with rest; [done|].
  unfold Re.sub_empty. cbn. symmetry. apply sub_from_anchored.
Qed.

(** [split(' ', 1)[-1]] on a text with a space: what follows the first
    one. *)
Lemma after_first_space_split (s : string) :
  has_space s = true ->
  exists a, s = (a +:+ " " +:+ after_first_space s)
            /\ has_space a = false.
Proof.
  induction s as [|c s IH]; cbn [has_space after_first_space]; [done|].
  destruct (Ascii.eqb c " ") eqn:Ec.
  - apply Ascii.eqb_eq in Ec as ->. intros _. by exists "".
  - intros Hs. rewrite Hs. destruct (IH Hs) as (a & Ha & Hna).
    exists (String c a). split.
    + change (String c s = String c (a +:+ " " +:+ after_first_space s)).
      f_equal. exact Ha.
    + cbn [has_space]. by rewrite Ec.
Qed.

End detail_facts.

Section detail_claims.
Context `{Runtime}.
Import ExtractorSpec.

Lemma abs_values_nonneg (years : list string) (row : Series) :
  numeric_row years row = true ->
  exists d,
    KPIExtractor.abs_values years row = Ok d /\
    forall y v, d !! y = Some v -> nonneg v.
Proof.
  intros Hnum. unfold numeric_row in Hnum. rewrite forallb_forall in Hnum.
  assert (forall y, y ∈ years ->
            exists q, py_abs (KPIExtractor.get0 row y) = Ok (Number q)
                      /\ (0 <= q)%Q) as Habs.
  { intros y Hy%list_elem_of_In. specialize (Hnum y Hy).
    unfold KPIExtractor.get0.
    destruct (get row y) as [[s|q|]|]; try done; cbn.
    - exists (Qabs q). split; [done|apply Qabs_nonneg].
    - by exists (Qabs 0). }
  unfold KPIExtractor.abs_values.
  destruct (comprehension_total
              (fun year => py_abs (KPIExtractor.get0 row year)) years ∅)
    as [d Hd].
  { intros y Hy. destruct (Habs y Hy) as (q & Hq & _). by eexists. }
  exists d. split; [done|]. intros y v Hv.
  destruct (comprehension_ok _ _ _ _ Hd y) as [Hin Hout].
  destruct (decide (y ∈ years)) as [Hy|Hy].
  - destruct (Hin Hy) as (v' & Hv' & Hlook).
    destruct (Habs y Hy) as (q & Hq & Hpos).
    rewrite Hlook in Hv. injection Hv as <-.
    rewrite Hq in Hv'. by injection Hv' as <-.
  - by rewrite (Hout Hy), lookup_empty in Hv.
Qed.

Lemma all_nonneg_empty : all_nonneg ∅.
Proof. intros name ys y v Hys. by rewrite lookup_empty in Hys. Qed.

Lemma all_nonneg_insert (m : gmap string (gmap string cell))
    (k : string) (d : gmap string cell) :
  all_nonneg m -> (forall y v, d !! y = Some v -> nonneg v) ->
  all_nonneg (<[k := d]> m).
Proof.
  intros Hm Hd name ys y v Hys Hv.
  destruct (decide (name = k)) as [->|Hne].
  - rewrite lookup_insert_eq in Hys. injection Hys as <-. by eapply Hd.
  - rewrite lookup_insert_ne in Hys by done. by eapply Hm.
Qed.

Lemma aprovisionamientos_loop_nonneg (years : list string)
    (rows : list Series) (acc : gmap string (gmap string cell)) :
  numeric_years years rows = true -> all_nonneg acc ->
  exists m,
    KPIExtractor.aprovisionamientos_loop years rows acc = Ok m /\
    all_nonneg m.
Proof.
  revert acc. induction rows as [|row rows IH]; intros acc;
    cbn [numeric_years forallb KPIExtractor.aprovisionamientos_loop].
  - intros _ Hacc. by exists acc.
  - intros [Hrow Hrows]%andb_prop Hacc.
    destruct (negb _); [by apply IH|].
    destruct (Re.match_ _ _ _); [|by apply IH].
    destruct (abs_values_nonneg years row Hrow) as (d & -> & Hd).
    cbn [mbind res_bind bind]. apply IH; [done|].
    by apply all_nonneg_insert.
Qed.

Lemma categories_loop_nonneg (categories : list (Re.regex * string))
    (years : list string) (rows : list Series)
    (acc : gmap string (gmap string cell)) :
  numeric_years years rows = true -> all_nonneg acc ->
  exists m,
    KPIExtractor.categories_loop categories years rows acc = Ok m /\
    all_nonneg m.
Proof.
  revert acc. induction rows as [|row rows IH]; intros acc;
    cbn [numeric_years forallb KPIExtractor.categories_loop].
  - intros _ Hacc. by exists acc.
  - intros [Hrow Hrows]%andb_prop Hacc.
    destruct (negb _); [by apply IH|].
    destruct (KPIExtractor.first_category _ _); [|by apply IH].
    destruct (abs_values_nonneg years row Hrow) as (d & -> & Hd).
    cbn [mbind res_bind bind]. apply IH; [done|].
    by apply all_nonneg_insert.
Qed.



(** C7, as the code has it: the servicios map holds, under each name,
    the years of the last row captured under it, a row being captured when
    it is an item row (neither a parent row nor a stop row) met while the
    window is open, that is after a parent row that no stop row has
    followed.  The name of an item row is its label without the prefix,
    stripped, and cut after its first space character when it has one;
    whitespace other than a space does not cut it.  Scenario E: of three
    item rows, the one after the stop row is left out. *)
Theorem servicios_window (df : DataFrame string) (years : list string)
    (name : string) (vals : gmap string cell) :
  (KPIExtractor._extract_servicios (KPIExtractor.init df years) !! name
   = Some vals
   <-> exists row,
       recorded (iterrows df) name row /\
       is_comprehension (KPIExtractor.get0 row) years vals)
  /\
  (forall rest,
     KPIExtractor.item_name (Config.item_pattern Config.servicios)
       ("705.0.0." +:+ rest)
     = let nombre := strip rest in
       if has_space nombre then after_first_space nombre else nombre)
  /\
  (forall s,
     has_space s = true ->
     exists a, s = (a +:+ " " +:+ after_first_space s)
               /\ has_space a = false)
  /\
  let servicios :=
    KPIExtractor._extract_servicios (H := Sample.runtime)
      (KPIExtractor.init Sheets.servicios_frame ["2024"]) in
  dom servicios = {[ "Consultoria"; "Abonos a clientes" ]} /\
  detail_value servicios "Consultoria" "2024" = Some (Number 1500) /\
  detail_value servicios "Abonos a clientes" "2024" = Some (Number (-300)) /\
  servicios !! "Soporte" = None.
Proof.
  split.
  { destruct (servicios_loop_inv years (iterrows df)) as [_ Hmap].
    apply Hmap. }
  split; [apply item_name_prefix|].
  split; [apply after_first_space_split|].
  cbn zeta. split; [vm_compute; reflexivity|].
  split; [vm_compute; reflexivity|].
  split; vm_compute; reflexivity.
Qed.

End detail_claims.



(** C7 as it was stated fails where whitespace other than a space
    separates the code of an item row from its name: the name is cut
    after the first space character only, so the row is filed under the
    code and the name together, not under what follows the first
    whitespace. *)
Lemma name_cut_needs_a_space :
  let label := "705.0.0.5" +:+ NameSpec.tab +:+ "Tab" in
  let servicios :=
    KPIExtractor._extract_servicios
      (KPIExtractor.init NameSpec.tab_frame ["2024"]) in
  KPIExtractor.item_name (Config.item_pattern Config.servicios) label
  = "5" +:+ NameSpec.tab +:+ "Tab" /\
  NameSpec.name_after_whitespace (Config.item_pattern Config.servicios) label
  = "Tab" /\
  ExtractorSpec.detail_value servicios ("5" +:+ NameSpec.tab +:+ "Tab") "2024"
  = Some (Number 70) /\
  servicios !! "Tab" = None.
Proof.
  split; [vm_compute; reflexivity|]. split; [vm_compute; reflexivity|].
  split; vm_compute; reflexivity.
Qed.

(** * Further properties of the code *)

(** ** The whole table of ratios *)

Section ratio_table.
Import RatiosSpec RatioTable.

(** The dict of one year in closed form: the function never raises. *)
Lemma year_ratios_closed (balance_kpis pyg_kpis : Ratios.kpi_values)
    (year : string) :
  let activo_total := Ratios.value_of balance_kpis "total_activo" year in
  let ac := Ratios.value_of balance_kpis "activo_corriente" year in
  let pc := Ratios.value_of balance_kpis "pasivo_corriente" year in
  let pnc := Ratios.value_of balance_kpis "pasivo_no_corriente" year in
  let pn := Ratios.value_of balance_kpis "patrimonio_neto" year in
  let ex := Ratios.value_of balance_kpis "existencias" year in
  let ef := Ratios.value_of balance_kpis "efectivo" year in
  let rn := Ratios.value_of pyg_kpis "resultado_neto" year in
  let ing := Ratios.value_of pyg_kpis "ingresos" year in
  Ratios.year_ratios balance_kpis pyg_kpis year =
    Ok (<["capital_circulante_ratio" := guarded activo_total (ac - pc)]>
       (<["fondo_maniobra" := (ac - pc)%Q]>
       (<["ratio_solvencia" := guarded (pc + pnc) activo_total]>
       (<["margen_neto" := guarded_pct ing rn]>
       (<["rotacion_activos" := guarded activo_total ing]>
       (<["roa" := guarded_pct activo_total rn]>
       (<["roe" := guarded_pct pn rn]>
       (<["ratio_apalancamiento" := guarded pn (pc + pnc)]>
       (<["ratio_autonomia" := guarded activo_total pn]>
       (<["ratio_endeudamiento" := guarded activo_total (pc + pnc)]>
       (<["ratio_tesoreria" := guarded pc ef]>
       (<["ratio_acid_test" := guarded pc (ac - ex)]>
       (<["ratio_liquidez" := guarded pc ac]> ∅))))))))))))).
Proof.
  intros. unfold Ratios.year_ratios, guarded, guarded_pct.
  fold activo_total ac pc pnc pn ex ef rn ing.
  destruct (gt0 pc) eqn:E1; rewrite ?(fun a => truediv_gt0 a _ E1);
    cbn [mbind res_bind bind];
  (destruct (gt0 activo_total) eqn:E2; rewrite ?(fun a => truediv_gt0 a _ E2);
    cbn [mbind res_bind bind]);
  (destruct (gt0 pn) eqn:E3; rewrite ?(fun a => truediv_gt0 a _ E3);
    cbn [mbind res_bind bind]);
  (destruct (gt0 ing) eqn:E4; rewrite ?(fun a => truediv_gt0 a _ E4);
    cbn [mbind res_bind bind]);
  (destruct (gt0 (pc + pnc)) eqn:E5; rewrite ?(fun a => truediv_gt0 a _ E5);
    cbn [mbind res_bind bind]);
  reflexivity.
Qed.


(** Reading one key of a dict written by successive assignments. *)
Ltac read_key :=
  repeat first
    [ rewrite lookup_insert_eq
    | rewrite lookup_insert_ne by discriminate
    | rewrite lookup_empty ].

Lemma ratio_value_year (balance_kpis pyg_kpis : Ratios.kpi_values)
    (years : list string) (year name : string) (r : gmap string Q) :
  year ∈ years ->
  Ratios.year_ratios balance_kpis pyg_kpis year = Ok r ->
  ratio_value
    (Ratios.calculate_financial_ratios balance_kpis pyg_kpis years)
    year name = r !! name.
Proof.
  intros Hin Hr.
  destruct (ratios_loop_lookup balance_kpis pyg_kpis years ∅)
    as (ratios & Hloop & Hlook).
  unfold Ratios.calculate_financial_ratios. rewrite Hloop.
  unfold ratio_value. rewrite Hlook, bool_decide_eq_true_2 by done.
  by rewrite Hr.
Qed.

(** X1: [calculate_financial_ratios] returns for every input; the result
    has an entry for exactly the years it was given, and every entry has
    exactly the thirteen ratio keys. *)
Theorem ratios_cover_years_and_names
    (balance_kpis pyg_kpis : Ratios.kpi_values) (years : list string) :
  exists ratios,
    Ratios.calculate_financial_ratios balance_kpis pyg_kpis years
      = Ok ratios /\
    (forall year, is_Some (ratios !! year) <-> year ∈ years) /\
    (forall year r,
       ratios !! year = Some r ->
       forall name, is_Some (r !! name) <-> name ∈ ratio_names).
Proof.
  destruct (ratios_loop_lookup balance_kpis pyg_kpis years ∅)
    as (ratios & Hloop & Hlook).
  exists ratios. split; [done|]. split.
  - intros year. rewrite Hlook. case_bool_decide as Hin.
    + rewrite year_ratios_closed. split; [done|by eexists].
    + rewrite lookup_empty. split; [by intros [? ?]|done].
  - intros year r. rewrite Hlook. case_bool_decide as Hin;
      [|by rewrite lookup_empty].
    rewrite year_ratios_closed. intros [= <-] name.
    unfold ratio_names. split.
    + intros [v Hv].
      repeat (apply lookup_insert_Some in Hv as [[<- _]|[_ Hv]];
              [by repeat constructor|]).
      by rewrite lookup_empty in Hv.
    + intros Hname.
      repeat (apply elem_of_cons in Hname as [->|Hname];
              [read_key; by eexists|]).
      by apply elem_of_nil in Hname.
Qed.

(** X2: the indebtedness and solvency ratios of a year: each is its
    quotient when the divisor is positive and 0 otherwise, where the
    total liabilities are current plus non-current liabilities. *)
Theorem debt_ratios_guarded
    (balance_kpis pyg_kpis : Ratios.kpi_values)
    (years : list string) (year : string) :
  year ∈ years ->
  let activo_total := Ratios.value_of balance_kpis "total_activo" year in
  let pn := Ratios.value_of balance_kpis "patrimonio_neto" year in
  let pasivo_total :=
    (Ratios.value_of balance_kpis "pasivo_corriente" year
     + Ratios.value_of balance_kpis "pasivo_no_corriente" year)%Q in
  let result :=
    Ratios.calculate_financial_ratios balance_kpis pyg_kpis years in
  ratio_value result year "ratio_endeudamiento"
    = Some (if gt0 activo_total then pasivo_total / activo_total else 0)%Q /\
  ratio_value result year "ratio_autonomia"
    = Some (if gt0 activo_total then pn / activo_total else 0)%Q /\
  ratio_value result year "ratio_apalancamiento"
    = Some (if gt0 pn then pasivo_total / pn else 0)%Q /\
  ratio_value result year "ratio_solvencia"
    = Some (if gt0 pasivo_total then activo_total / pasivo_total else 0)%Q.
Proof.
  intros Hin activo_total pn pasivo_total result. subst result.
  rewrite !(ratio_value_year _ _ _ _ _ _ Hin
              (year_ratios_closed balance_kpis pyg_kpis year)).
  by read_key.
Qed.

(** X3: the profitability ratios of a year: ROE, ROA and the net margin
    are percentages of the net result over equity, total assets and
    revenue, the asset turnover is revenue over total assets; each is 0
    when its divisor is not positive. *)
Theorem profitability_ratios_guarded
    (balance_kpis pyg_kpis : Ratios.kpi_values)
    (years : list string) (year : string) :
  year ∈ years ->
  let activo_total := Ratios.value_of balance_kpis "total_activo" year in
  let pn := Ratios.value_of balance_kpis "patrimonio_neto" year in
  let rn := Ratios.value_of pyg_kpis "resultado_neto" year in
  let ing := Ratios.value_of pyg_kpis "ingresos" year in
  let result :=
    Ratios.calculate_financial_ratios balance_kpis pyg_kpis years in
  ratio_value result year "roe"
    = Some (if gt0 pn then rn / pn * 100 else 0)%Q /\
  ratio_value result year "roa"
    = Some (if gt0 activo_total then rn / activo_total * 100 else 0)%Q /\
  ratio_value result year "rotacion_activos"
    = Some (if gt0 activo_total then ing / activo_total else 0)%Q /\
  ratio_value result year "margen_neto"
    = Some (if gt0 ing then rn / ing * 100 else 0)%Q.
Proof.
  intros Hin activo_total pn rn ing result. subst result.
  rewrite !(ratio_value_year _ _ _ _ _ _ Hin
              (year_ratios_closed balance_kpis pyg_kpis year)).
  by read_key.
Qed.

(** X4: the working capital of a year is current assets minus current
    liabilities whatever their signs, with no guard; its ratio to total
    assets is guarded by total assets being positive. *)
Theorem working_capital_unguarded
    (balance_kpis pyg_kpis : Ratios.kpi_values)
    (years : list string) (year : string) :
  year ∈ years ->
  let activo_total := Ratios.value_of balance_kpis "total_activo" year in
  let ac := Ratios.value_of balance_kpis "activo_corriente" year in
  let pc := Ratios.value_of balance_kpis "pasivo_corriente" year in
  let result :=
    Ratios.calculate_financial_ratios balance_kpis pyg_kpis years in
  ratio_value result year "fondo_maniobra" = Some (ac - pc)%Q /\
  ratio_value result year "capital_circulante_ratio"
    = Some (if gt0 activo_total then (ac - pc) / activo_total else 0)%Q.
Proof.
  intros Hin activo_total ac pc result. subst result.
  rewrite !(ratio_value_year _ _ _ _ _ _ Hin
              (year_ratios_closed balance_kpis pyg_kpis year)).
  by read_key.
Qed.

(** X5: with an empty balance dict (no balance row recognised), every
    ratio of every year other than the net margin is 0: the missing
    figures read as 0 and every guard is closed. *)
Theorem ratios_without_balance
    (pyg_kpis : Ratios.kpi_values) (years : list string)
    (year name : string) :
  year ∈ years ->
  name ∈ ratio_names ->
  name <> "margen_neto" ->
  ratio_value (Ratios.calculate_financial_ratios ∅ pyg_kpis years)
    year name = Some 0%Q.
Proof.
  intros Hin Hname Hne.
  rewrite (ratio_value_year _ _ _ _ _ _ Hin
             (year_ratios_closed ∅ pyg_kpis year)).
  unfold ratio_names in Hname.
  repeat (apply elem_of_cons in Hname as [->|Hname]);
    try done; try by read_key.
  by apply elem_of_nil in Hname.
Qed.

End ratio_table.

Lemma debt_ratios_guarded_witness :
  RatiosSpec.ratio_value
    (Ratios.calculate_financial_ratios
       RatioTable.full_balance RatioTable.sample_pyg ["2024"])
    "2024" "ratio_endeudamiento" = Some ((500 + 300) / 1000)%Q.
Proof.
  refine (proj1 (debt_ratios_guarded RatioTable.full_balance
                   RatioTable.sample_pyg ["2024"] "2024" _)).
  apply list_elem_of_here.
Defined.

Lemma profitability_ratios_guarded_witness :
  RatiosSpec.ratio_value
    (Ratios.calculate_financial_ratios
       RatioTable.full_balance RatioTable.sample_pyg ["2024"])
    "2024" "roe" = Some (30 / 200 * 100)%Q.
Proof.
  refine (proj1 (profitability_ratios_guarded RatioTable.full_balance
                   RatioTable.sample_pyg ["2024"] "2024" _)).
  apply list_elem_of_here.
Defined.

Lemma working_capital_unguarded_witness :
  RatiosSpec.ratio_value
    (Ratios.calculate_financial_ratios
       RatioTable.full_balance RatioTable.sample_pyg ["2024"])
    "2024" "fondo_maniobra" = Some (400 - 500)%Q.
Proof.
  refine (proj1 (working_capital_unguarded RatioTable.full_balance
                   RatioTable.sample_pyg ["2024"] "2024" _)).
  apply list_elem_of_here.
Defined.

Lemma ratios_without_balance_witness :
  RatiosSpec.ratio_value
    (Ratios.calculate_financial_ratios ∅ RatioTable.sample_pyg ["2024"])
    "2024" "roe" = Some 0%Q.
Proof.
  apply ratios_without_balance.
  - apply list_elem_of_here.
  - vm_compute. do 6 right. left.
  - discriminate.
Defined.

(** ** The balance loader and extractor *)

Section balance_facts.
Context `{Runtime}.
Import LoaderSpec BalanceSpec.

Lemma clean_balance_row (r : list cell) :
  let f := fun v => fillna0 (to_numeric v) in
  update_row "2022" f BalanceLoader.balance_columns
    (update_row "2023" f BalanceLoader.balance_columns
       (update_row "2024" f BalanceLoader.balance_columns
          (update_row "2025" f BalanceLoader.balance_columns r)))
  = clean_from 0 r.
Proof.
  intros f.
  do 10 (destruct r as [|? r]; [reflexivity|]).
  cbn. by rewrite clean_from_done by lia.
Qed.

(** X6: [BalanceLoader.load] takes every sheet of ten columns, whatever
    its header and its content, an empty sheet included: the columns are
    named by position, the years are 2025..2022, the cells at positions
    6..9 are coerced to numbers and the others kept; nothing is
    validated. *)
Theorem balance_load_by_position (self : BalanceLoader.t)
    (raw : DataFrame cell) :
  length (columns raw) = 10%nat ->
  let d := mkDF BalanceLoader.balance_columns (clean_from 0 <$> rows raw) in
  BalanceLoader.load self (Ok raw)
  = ({| BalanceLoader.df :=
          Some (mkDF (Text <$> BalanceLoader.balance_columns) (rows d));
        BalanceLoader.years := ["2025"; "2024"; "2023"; "2022"] |},
     Ok d).
Proof.
  intros Hlen d. unfold BalanceLoader.load, set_columns. rewrite Hlen.
  cbn [length BalanceLoader.balance_columns Nat.eqb foldl].
  unfold map_column. cbn [columns rows].
  rewrite <- !list_fmap_compose.
  assert (((update_row "2022" (fun v => fillna0 (to_numeric v))
              BalanceLoader.balance_columns
            ∘ update_row "2023" (fun v => fillna0 (to_numeric v))
                BalanceLoader.balance_columns
            ∘ update_row "2024" (fun v => fillna0 (to_numeric v))
                BalanceLoader.balance_columns
            ∘ update_row "2025" (fun v => fillna0 (to_numeric v))
                BalanceLoader.balance_columns) <$> rows raw)
          = clean_from 0 <$> rows raw) as ->; [|done].
  apply list_fmap_ext. intros _ r _. apply clean_balance_row.
Qed.


Lemma balance_year_dict_lookup (row : Series) (years : list string)
    (acc vals : gmap string cell) :
  BalanceKPIExtractor.year_dict row years acc = Some vals ->
  forall y, vals !! y = if bool_decide (y ∈ years) then get row y
                        else acc !! y.
Proof.
  revert acc. induction years as [|y0 years IH]; intros acc;
    cbn [BalanceKPIExtractor.year_dict].
  - intros [= <-] y. by rewrite bool_decide_eq_false_2 by apply not_elem_of_nil.
  - destruct (get row y0) as [v|] eqn:Hv; [|done]. cbn.
    intros Hd y. rewrite (IH _ Hd y).
    destruct (decide (y ∈ years)) as [Hin|Hin].
    + rewrite !bool_decide_eq_true_2; [done|by right|done].
    + rewrite (bool_decide_eq_false_2 (y ∈ years)) by done.
      destruct (decide (y = y0)) as [->|Hne].
      * rewrite bool_decide_eq_true_2 by apply list_elem_of_here.
        by rewrite lookup_insert_eq.
      * rewrite lookup_insert_ne by done.
        rewrite bool_decide_eq_false_2; [done|].
        by intros [?|?]%elem_of_cons.
Qed.

Lemma balance_year_dict_some (row : Series) (years : list string)
    (acc : gmap string cell) :
  forallb (fun y => bool_decide (is_Some (get row y))) years = true ->
  is_Some (BalanceKPIExtractor.year_dict row years acc).
Proof.
  revert acc. induction years as [|y0 years IH]; intros acc;
    cbn [BalanceKPIExtractor.year_dict forallb]; [by eexists|].
  intros [Hy Hys]%andb_true_iff.
  apply bool_decide_eq_true in Hy as [v ->]. cbn. by apply IH.
Qed.


Lemma balance_loop_app (self : BalanceKPIExtractor.t)
    (l1 l2 : list Series) (kpis : gmap string (gmap string cell)) :
  BalanceKPIExtractor.loop self (l1 ++ l2) kpis
  = BalanceKPIExtractor.loop self l1 kpis
      ≫= BalanceKPIExtractor.loop self l2.
Proof.
  revert kpis. induction l1 as [|row l1 IH]; intros kpis; [done|].
  cbn [app BalanceKPIExtractor.loop].
  destruct (BalanceKPIExtractor.step self kpis row) as [k|]; [|done].
  cbn. apply IH.
Qed.

(** The chain of markers, outcome by outcome. *)
Ltac chain :=
  unfold BalanceKPIExtractor.target;
  repeat match goal with
         | |- context [if ?b then _ else _] => destruct b
         end.

Lemma target_names (kpis : gmap string (gmap string cell))
    (concepto name : string) :
  BalanceKPIExtractor.target kpis concepto = Some name ->
  name ∈ balance_names.
Proof.
  chain; intros [= <-]; by apply (bool_decide_unpack _); vm_compute.
Qed.

Lemma target_first (kpis : gmap string (gmap string cell))
    (concepto name : string) :
  name = "capital" \/ name = "reservas" ->
  BalanceKPIExtractor.target kpis concepto = Some name ->
  kpis !! name = None.
Proof.
  intros Hname. unfold BalanceKPIExtractor.target.
  repeat match goal with
         | |- context [if ?b then _ else _] =>
             let E := fresh "E" in destruct b eqn:E
         end;
    intros [= <-]; try (by destruct Hname);
    repeat match goal with
           | E : _ && _ = true |- _ => apply andb_true_iff in E as [? E]
           | E : negb _ = true |- _ => apply negb_true_iff in E
           | E : bool_decide _ = false |- _ => apply bool_decide_eq_false in E
           end;
    by apply eq_None_not_Some.
Qed.


Lemma balance_loop_some (self : BalanceKPIExtractor.t) (rows : list Series)
    (kpis : gmap string (gmap string cell)) :
  has_years (BalanceKPIExtractor.years self) rows = true ->
  is_Some (BalanceKPIExtractor.loop self rows kpis).
Proof.
  revert kpis. induction rows as [|row rows IH]; intros kpis;
    cbn [BalanceKPIExtractor.loop has_years forallb]; [by eexists|].
  intros [Hrow Hrows]%andb_true_iff.
  unfold BalanceKPIExtractor.step.
  destruct (BalanceKPIExtractor.target _ _) as [name|]; [|by apply IH].
  destruct (balance_year_dict_some row _ ∅ Hrow) as [vals ->].
  cbn. by apply IH.
Qed.

(** X7: [extract_all] of the balance returns whenever every year it was
    given labels a cell of every row; nothing else in it can raise. *)
Theorem balance_extract_returns (self : BalanceKPIExtractor.t) :
  has_years (BalanceKPIExtractor.years self)
    (iterrows (BalanceKPIExtractor.df self)) = true ->
  is_Some (BalanceKPIExtractor.extract_all self).
Proof. apply balance_loop_some. Qed.


Lemma balance_loop_inv (self : BalanceKPIExtractor.t)
    (R : Series -> Prop) (rows : list Series)
    (kpis kpis' : gmap string (gmap string cell)) :
  let P (m : gmap string (gmap string cell)) :=
    forall name vals,
      m !! name = Some vals ->
      name ∈ balance_names /\
      exists row k,
        R row /\
        BalanceKPIExtractor.target k
          (BalanceKPIExtractor.concepto_of self row) = Some name /\
        BalanceKPIExtractor.year_dict row
          (BalanceKPIExtractor.years self) ∅ = Some vals in
  BalanceKPIExtractor.loop self rows kpis = Some kpis' ->
  (forall row, row ∈ rows -> R row) ->
  P kpis -> P kpis'.
Proof.
  intros P. revert kpis. induction rows as [|row rows IH];
    intros kpis; cbn [BalanceKPIExtractor.loop].
  - by intros [= <-].
  - destruct (BalanceKPIExtractor.step self kpis row) as [k1|] eqn:Hstep;
      [|done].
    cbn. intros Hloop HR Hk. apply (IH k1 Hloop).
    { intros ? ?. apply HR. by right. }
    unfold BalanceKPIExtractor.step in Hstep.
    destruct (BalanceKPIExtractor.target _ _) as [name|] eqn:Ht;
      [|by injection Hstep as <-].
    destruct (BalanceKPIExtractor.year_dict _ _ _) as [vals|] eqn:Hd;
      [|done].
    injection Hstep as <-. intros name' vals'.
    destruct (decide (name' = name)) as [->|Hne].
    + rewrite lookup_insert_eq. intros [= <-].
      split; [by eapply target_names|].
      exists row, kpis. split; [apply HR; apply list_elem_of_here|done].
    + rewrite lookup_insert_ne by done. apply Hk.
Qed.

(** X9: every entry of the balance dict is under one of the nineteen
    keys of the chain and holds, for exactly the years given, the cells of
    one row of the frame whose text made the chain choose that key; the
    cells are stored as they are, with their sign. *)
Theorem balance_entries_are_row_cells (self : BalanceKPIExtractor.t)
    (name : string) (vals : gmap string cell) :
  (BalanceKPIExtractor.extract_all self ≫= fun kpis => kpis !! name)
  = Some vals ->
  name ∈ balance_names /\
  exists row k,
    row ∈ iterrows (BalanceKPIExtractor.df self) /\
    BalanceKPIExtractor.target k
      (BalanceKPIExtractor.concepto_of self row) = Some name /\
    forall y,
      vals !! y = if bool_decide (y ∈ BalanceKPIExtractor.years self)
                  then get row y else None.
Proof.
  destruct (BalanceKPIExtractor.extract_all self) as [kpis|] eqn:Hall;
    [|done].
  cbn. intros Hname.
  destruct (balance_loop_inv self
              (fun row => row ∈ iterrows (BalanceKPIExtractor.df self))
              _ _ _ Hall (fun _ Hr => Hr)
              ltac:(intros ? ?; by rewrite lookup_empty) name vals Hname)
    as (Hin & row & k & Hrow & Ht & Hd).
  split; [done|]. exists row, k. split; [done|]. split; [done|].
  intros y. by rewrite (balance_year_dict_lookup _ _ _ _ Hd y).
Qed.

Lemma balance_loop_keeps_first (self : BalanceKPIExtractor.t)
    (rows : list Series) (kpis kpis' : gmap string (gmap string cell))
    (name : string) (vals : gmap string cell) :
  name = "capital" \/ name = "reservas" ->
  BalanceKPIExtractor.loop self rows kpis = Some kpis' ->
  kpis !! name = Some vals ->
  kpis' !! name = Some vals.
Proof.
  intros Hname. revert kpis. induction rows as [|row rows IH];
    intros kpis; cbn [BalanceKPIExtractor.loop].
  - by intros [= <-].
  - destruct (BalanceKPIExtractor.step self kpis row) as [k1|] eqn:Hstep;
      [|done].
    cbn. intros Hloop Hk. apply (IH k1 Hloop).
    unfold BalanceKPIExtractor.step in Hstep.
    destruct (BalanceKPIExtractor.target _ _) as [name'|] eqn:Ht;
      [|by injection Hstep as <-].
    destruct (BalanceKPIExtractor.year_dict _ _ _) as [vals'|]; [|done].
    injection Hstep as <-.
    destruct (decide (name' = name)) as [->|Hne].
    + apply (target_first _ _ _ Hname) in Ht. congruence.
    + by rewrite lookup_insert_ne.
Qed.

(** X10: the keys [capital] and [reservas] keep the values of the first
    row that wrote them: once the rows met so far have set one of them,
    no later row changes it. *)
Theorem capital_and_reservas_keep_first (self : BalanceKPIExtractor.t)
    (pre post : list Series) (name : string) (vals : gmap string cell) :
  name = "capital" \/ name = "reservas" ->
  iterrows (BalanceKPIExtractor.df self) = pre ++ post ->
  has_years (BalanceKPIExtractor.years self) (pre ++ post) = true ->
  (BalanceKPIExtractor.loop self pre ∅ ≫= fun k1 => k1 !! name)
  = Some vals ->
  exists kpis,
    BalanceKPIExtractor.extract_all self = Some kpis /\
    kpis !! name = Some vals.
Proof.
  intros Hname Hrows Hyears Hpre.
  unfold BalanceKPIExtractor.extract_all. rewrite Hrows.
  destruct (balance_loop_some self (pre ++ post) ∅ Hyears) as [kpis Hk].
  exists kpis. split; [done|].
  rewrite balance_loop_app in Hk.
  destruct (BalanceKPIExtractor.loop self pre ∅) as [k1|]; [|done].
  cbn in Hk, Hpre. by eapply balance_loop_keeps_first.
Qed.

End balance_facts.

Lemma balance_load_by_position_witness :
  BalanceLoader.load (H := Sample.runtime) BalanceLoader.init
    (Ok BalanceSheets.balance_sheet)
  = ({| BalanceLoader.df :=
          Some (mkDF (Text <$> BalanceLoader.balance_columns)
                  (rows BalanceSheets.balance_frame));
        BalanceLoader.years := ["2025"; "2024"; "2023"; "2022"] |},
     Ok BalanceSheets.balance_frame).
Proof.
  apply (balance_load_by_position (H := Sample.runtime) BalanceLoader.init
           BalanceSheets.balance_sheet).
  reflexivity.
Defined.

Lemma balance_extract_returns_witness :
  is_Some (BalanceKPIExtractor.extract_all (H := Sample.runtime)
             (BalanceKPIExtractor.mk BalanceSheets.balance_frame
                ["2025"; "2024"])).
Proof.
  apply balance_extract_returns. vm_compute; reflexivity.
Defined.


Lemma balance_entries_are_row_cells_witness :
  exists row,
    row ∈ iterrows BalanceSheets.balance_frame /\
    get row "2025" = Some (Number (-300)).
Proof.
  destruct (balance_entries_are_row_cells (H := Sample.runtime)
              (BalanceKPIExtractor.mk BalanceSheets.balance_frame ["2025"])
              "pasivo_corriente" {[ "2025" := Number (-300) ]})
    as (_ & row & _ & Hrow & _ & Hvals).
  - vm_compute; reflexivity.
  - exists row. split; [exact Hrow|].
    exact (eq_trans (eq_sym (Hvals "2025")) eq_refl).
Defined.

Lemma capital_and_reservas_keep_first_witness :
  exists kpis,
    BalanceKPIExtractor.extract_all (H := Sample.runtime)
      (BalanceKPIExtractor.mk BalanceSheets.balance_frame ["2025"])
    = Some kpis /\
    kpis !! "capital" = Some {[ "2025" := Number 60 ]}.
Proof.
  apply (capital_and_reservas_keep_first (H := Sample.runtime)
           (BalanceKPIExtractor.mk BalanceSheets.balance_frame ["2025"])
           (take 2 (iterrows BalanceSheets.balance_frame))
           (drop 2 (iterrows BalanceSheets.balance_frame))).
  - by left.
  - reflexivity.
  - vm_compute; reflexivity.
  - vm_compute; reflexivity.
Defined.

(** ** The registry loop and the detail maps *)

Section registry_facts.
Context `{Runtime}.
Import ExtractorSpec RegistrySpec.

(** The fields of a fresh extractor. *)
Ltac fresh_fields :=
  cbn [KPIExtractor.init KPIExtractor._found KPIExtractor._not_found
       KPIExtractor.years KPIExtractor.df KPIExtractor.kpis app] in *.

Lemma find_in_rows_none_inv (years : list string)
    (patterns : list Re.regex) (sign : Z) (rows : list Series) :
  KPIExtractor.find_in_rows years patterns sign rows = Ok None ->
  existsb (cell_matches years patterns) rows = false.
Proof.
  induction rows as [|row rows IH];
    cbn [existsb KPIExtractor.find_in_rows]; [done|].
  rewrite found_in_cell_matches.
  destruct (cell_matches years patterns row); [|exact IH].
  by destruct (KPIExtractor.comprehension _ _ _).
Qed.

Lemma find_in_rows_some_matched (years : list string)
    (patterns : list Re.regex) (sign : Z) (rows : list Series)
    (ys : gmap string cell) :
  KPIExtractor.find_in_rows years patterns sign rows = Ok (Some ys) ->
  existsb (cell_matches years patterns) rows = true.
Proof.
  intros (pre & row & post & -> & _ & Hrow & _)%find_in_rows_some.
  rewrite existsb_app. cbn [existsb]. rewrite Hrow.
  by rewrite orb_true_r.
Qed.

(** The two lists after the loop: what was there, and then the names of
    this run in the order of the registry. *)
Lemma extract_loop_lists (items : list (string * Config.config))
    (self st : KPIExtractor.t) :
  KPIExtractor.extract_loop items self = Ok st ->
  KPIExtractor._found st
  = KPIExtractor._found self
      ++ found_names (KPIExtractor.years self)
           (iterrows (KPIExtractor.df self)) items /\
  KPIExtractor._not_found st
  = KPIExtractor._not_found self
      ++ missing_names (KPIExtractor.years self)
           (iterrows (KPIExtractor.df self)) items.
Proof.
  revert self. induction items as [|[name cfg] items IH]; intros self;
    cbn [KPIExtractor.extract_loop].
  - intros [= <-]. unfold found_names, missing_names. cbn.
    by rewrite !app_nil_r.
  - destruct (KPIExtractor.extract_one self (name, cfg)) as [self1|e] eqn:E1;
      [|done].
    cbn [mbind res_bind bind]. intros Hloop.
    destruct (extract_one_inv _ _ _ _ E1) as (Hd1 & Hy1 & _).
    destruct (IH self1 Hloop) as [Hf Hm]. rewrite Hd1, Hy1 in Hf, Hm.
    rewrite Hf, Hm. clear Hf Hm IH Hloop Hd1 Hy1.
    unfold found_names, missing_names. cbn [List.filter snd].
    unfold KPIExtractor.extract_one, KPIExtractor._find_kpi in E1.
    destruct (KPIExtractor.find_in_rows _ _ _ _) as [[ys|]|e] eqn:Hfind;
      [| |done]; cbn [mbind res_bind bind] in E1.
    + apply find_in_rows_some_matched in Hfind.
      change (matched (KPIExtractor.years self)
                (iterrows (KPIExtractor.df self)) cfg = true) in Hfind.
      rewrite Hfind. injection E1 as <-. cbn.
      by rewrite <- app_assoc.
    + apply find_in_rows_none_inv in Hfind.
      change (matched (KPIExtractor.years self)
                (iterrows (KPIExtractor.df self)) cfg = false) in Hfind.
      rewrite Hfind. cbn [negb andb].
      destruct (Config.required cfg).
      * injection E1 as <-. cbn. by rewrite <- app_assoc.
      * destruct (KPIExtractor.comprehension _ _ _) as [d|e]; [|done].
        cbn [mbind res_bind bind] in E1. by injection E1 as <-.
Qed.

(** Whether the loop returns depends on the grid and the years only. *)
Lemma extract_loop_again (items : list (string * Config.config))
    (self st self2 : KPIExtractor.t) :
  KPIExtractor.extract_loop items self = Ok st ->
  KPIExtractor.df self2 = KPIExtractor.df self ->
  KPIExtractor.years self2 = KPIExtractor.years self ->
  exists st2, KPIExtractor.extract_loop items self2 = Ok st2.
Proof.
  revert self self2. induction items as [|[name cfg] items IH];
    intros self self2; cbn [KPIExtractor.extract_loop]; [by eexists|].
  destruct (KPIExtractor.extract_one self (name, cfg)) as [self1|e] eqn:E1;
    [|done].
  cbn [mbind res_bind bind]. intros Hloop Hdf Hys.
  assert (exists s, KPIExtractor.extract_one self2 (name, cfg) = Ok s)
    as [s Es].
  { unfold KPIExtractor.extract_one in E1 |- *.
    rewrite (find_kpi_frame self self2) by done.
    destruct (KPIExtractor._find_kpi self name cfg) as [[ys|]|e]; [| |done];
      cbn [mbind res_bind bind] in E1 |- *; [by eexists|].
    destruct (Config.required cfg); [by eexists|].
    rewrite Hys.
    destruct (KPIExtractor.comprehension _ _ _) as [d|e]; [|done].
    by eexists. }
  rewrite Es. cbn [mbind res_bind bind].
  destruct (extract_one_inv _ _ _ _ E1) as (Hd1 & Hy1 & _).
  destruct (extract_one_inv _ _ _ _ Es) as (Hd2 & Hy2 & _).
  apply (IH self1 s Hloop); congruence.
Qed.

Lemma missing_names_elem (years : list string) (rows : list Series)
    (items : list (string * Config.config)) (name : string) :
  name ∈ missing_names years rows items <->
  exists cfg, (name, cfg) ∈ items /\ matched years rows cfg = false /\
              Config.required cfg = true.
Proof.
  unfold missing_names. rewrite list_elem_of_fmap. split.
  - intros ([n cfg] & -> & Hin). apply list_elem_of_In, filter_In in Hin
      as [Hin Hc]. apply list_elem_of_In in Hin.
    apply andb_true_iff in Hc as [Hm Hr]. apply negb_true_iff in Hm.
    by exists cfg.
  - intros (cfg & Hin & Hm & Hr). exists (name, cfg). split; [done|].
    apply list_elem_of_In, filter_In. split; [by apply list_elem_of_In|].
    cbn. by rewrite Hm, Hr.
Qed.

(** X12: after [extract_all] on a fresh extractor, [get_found_kpis] is
    the list of the concepts that some row matches and
    [get_missing_kpis] the list of the required concepts that no row
    matches, both in the order of the registry; a name is a key of the KPI
    map exactly when it is a concept of the registry that is not
    missing. *)
Theorem found_and_missing_lists (df : DataFrame string)
    (years : list string) :
  numeric_years years (iterrows df) = true ->
  exists st,
    KPIExtractor.extract_all (KPIExtractor.init df years) = Ok st /\
    KPIExtractor.get_found_kpis st
    = found_names years (iterrows df) Config.KPI_MAPPINGS /\
    KPIExtractor.get_missing_kpis st
    = missing_names years (iterrows df) Config.KPI_MAPPINGS /\
    forall name,
      is_Some (KPIExtractor.kpis st !! name) <->
      name ∈ Config.KPI_MAPPINGS.*1 /\
      name ∉ KPIExtractor.get_missing_kpis st.
Proof.
  intros Hnum. destruct (extract_all_total df years Hnum) as [st Hst].
  exists st. split; [done|].
  destruct (extract_loop_lists _ _ _ Hst) as [Hf Hm].
  unfold KPIExtractor.get_found_kpis, KPIExtractor.get_missing_kpis.
  destruct (extract_loop_inv _ _ _ KPI_MAPPINGS_NoDup Hst)
    as (_ & _ & _ & Hout & Hitems).
  unfold KPIExtractor._find_kpi in Hitems. fresh_fields.
  split; [done|]. split; [done|]. rewrite Hm.
  intros name. split.
  - intros Hsome. assert (name ∈ Config.KPI_MAPPINGS.*1) as Hin.
    { destruct (decide (name ∈ Config.KPI_MAPPINGS.*1)) as [|Hn]; [done|].
      rewrite (Hout name Hn), lookup_empty in Hsome. by destruct Hsome. }
    split; [done|].
    intros (cfg & Hcfg & Hno & Hreq)%missing_names_elem.
    specialize (Hitems name cfg Hcfg).
    rewrite (find_in_rows_none _ _ _ _ Hno), Hreq in Hitems.
    destruct Hitems as [Hnone _].
    rewrite Hnone, lookup_empty in Hsome. by destruct Hsome.
  - intros [Hin Hmiss].
    apply list_elem_of_fmap in Hin as ([n cfg] & -> & Hcfg). cbn [fst].
    specialize (Hitems n cfg Hcfg).
    destruct (KPIExtractor.find_in_rows _ _ _ _) as [[ys|]|e] eqn:Hfind;
      [by eexists| |done].
    apply find_in_rows_none_inv in Hfind.
    destruct (Config.required cfg) eqn:Hreq.
    + destruct Hmiss. apply missing_names_elem. by exists cfg.
    + destruct Hitems as (ys & -> & _). by eexists.
Qed.

(** X13: [extract_all] called again on the same object returns the same
    KPI map, but the lists of found and of missing names then hold every
    name twice: the loop appends to them and nothing resets them. *)
Theorem extract_all_twice (df : DataFrame string) (years : list string) :
  numeric_years years (iterrows df) = true ->
  exists st st2,
    KPIExtractor.extract_all (KPIExtractor.init df years) = Ok st /\
    KPIExtractor.extract_all st = Ok st2 /\
    KPIExtractor.kpis st2 = KPIExtractor.kpis st /\
    KPIExtractor.get_found_kpis st2
    = KPIExtractor.get_found_kpis st ++ KPIExtractor.get_found_kpis st /\
    KPIExtractor.get_missing_kpis st2
    = KPIExtractor.get_missing_kpis st ++ KPIExtractor.get_missing_kpis st.
Proof.
  intros Hnum. destruct (extract_all_total df years Hnum) as [st Hst].
  destruct (extract_loop_inv _ _ _ KPI_MAPPINGS_NoDup Hst)
    as (Hdf & Hys & _ & Hout & Hitems).
  destruct (extract_loop_again _ _ _ st Hst) as [st2 Hst2]; [done..|].
  exists st, st2. split; [done|]. split; [done|].
  destruct (extract_loop_lists _ _ _ Hst) as [Hf Hm].
  destruct (extract_loop_lists _ _ _ Hst2) as [Hf2 Hm2].
  rewrite Hdf, Hys in Hf2, Hm2.
  unfold KPIExtractor.get_found_kpis, KPIExtractor.get_missing_kpis.
  split; [|fresh_fields; by rewrite Hf2, Hm2, Hf, Hm].
  destruct (extract_loop_inv _ _ _ KPI_MAPPINGS_NoDup Hst2)
    as (_ & _ & _ & Hout2 & Hitems2).
  apply map_eq. intros n.
  destruct (decide (n ∈ Config.KPI_MAPPINGS.*1)) as [Hin|Hn];
    [|by apply Hout2].
  apply list_elem_of_fmap in Hin as ([n' cfg] & -> & Hcfg). cbn [fst].
  specialize (Hitems n' cfg Hcfg). specialize (Hitems2 n' cfg Hcfg).
  rewrite <- (find_kpi_frame (KPIExtractor.init df years) st) in Hitems
    by done.
  destruct (KPIExtractor._find_kpi st n' cfg) as [[ys|]|e]; [congruence| |done].
  destruct (Config.required cfg); [by destruct Hitems2|].
  destruct Hitems as (ys1 & -> & Hc1). destruct Hitems2 as (ys2 & -> & Hc2).
  f_equal. apply map_eq. intros y. rewrite Hys in Hc2.
  by rewrite (Hc1 y), (Hc2 y).
Qed.

(** X14: a concept whose sign is [1] is stored with the cells of its
    first matching row as they are, a negative result staying negative;
    a year that is not a column of the grid reads 0. *)
Theorem unflipped_sign_keeps_cell (df : DataFrame string)
    (years : list string) (name : string) (cfg : Config.config)
    (pre post : list Series) (row : Series) (y : string) :
  numeric_years years (iterrows df) = true ->
  dict_get name Config.KPI_MAPPINGS = Some cfg ->
  Config.sign cfg = 1%Z ->
  iterrows df = pre ++ row :: post ->
  existsb (cell_matches years (Config.patterns cfg)) pre = false ->
  cell_matches years (Config.patterns cfg) row = true ->
  y ∈ years ->
  kpi_value (KPIExtractor.extract_all (KPIExtractor.init df years)) name y
  = Some (KPIExtractor.get0 row y).
Proof.
  intros Hnum Hcfg Hsign Hrows Hpre Hrow Hy.
  destruct (extract_all_total df years Hnum) as [st Hst].
  pose proof (extract_all_inv _ _ _ _ _ Hst Hcfg) as Hinv.
  rewrite Hrows, (find_in_rows_first _ _ _ _ _ _ Hpre Hrow) in Hinv.
  destruct (KPIExtractor.comprehension _ _ _) as [ys|e] eqn:Hd; [|done].
  cbn [mbind res_bind bind] in Hinv.
  rewrite Hst. unfold kpi_value. rewrite Hinv. cbn [mbind option_bind].
  destruct (comprehension_ok _ _ _ _ Hd y) as [Hin _].
  destruct (Hin Hy) as (v & Hv & ->). f_equal.
  unfold KPIExtractor.year_value in Hv. rewrite Hsign in Hv.
  unfold KPIExtractor.get0.
  assert (numeric_row years row = true) as Hnr.
  { unfold numeric_years in Hnum. rewrite forallb_forall in Hnum.
    apply Hnum, list_elem_of_In. rewrite Hrows.
    apply elem_of_app. right. apply list_elem_of_here. }
  unfold numeric_row in Hnr. rewrite forallb_forall in Hnr.
  specialize (Hnr y (proj1 (list_elem_of_In _ _) Hy)).
  destruct (get row y) as [[s|q|]|]; try done; cbn in Hv |- *; congruence.
Qed.

End registry_facts.

Section detail_maps.
Context `{Runtime}.
Import ExtractorSpec RegistrySpec.

Lemma last_labelled_cons (key : Series -> option string) (label : string)
    (row : Series) (rows : list Series) :
  last_labelled key label (row :: rows)
  = match last_labelled key label rows with
    | Some r => Some r
    | None => if bool_decide (key row = Some label) then Some row else None
    end.
Proof.
  unfold last_labelled. cbn [List.filter].
  destruct (bool_decide (key row = Some label)); [|by destruct (last _)].
  by rewrite last_cons.
Qed.

Lemma categories_loop_lookup (categories : list (Re.regex * string))
    (years : list string) (rows : list Series)
    (acc m : gmap string (gmap string cell)) (label : string) :
  KPIExtractor.categories_loop categories years rows acc = Ok m ->
  m !! label
  = match last_labelled (category_of categories) label rows with
    | Some row => recorded_abs years row
    | None => acc !! label
    end.
Proof.
  revert acc. induction rows as [|row rows IH]; intros acc;
    cbn [KPIExtractor.categories_loop].
  - by intros [= <-].
  - rewrite last_labelled_cons.
    assert (category_of categories row
            = if nonempty (KPIExtractor.concepto_of row)
              then KPIExtractor.first_category categories
                     (KPIExtractor.concepto_of row)
              else None) as Hkey by done.
    destruct (nonempty (KPIExtractor.concepto_of row)); cbn [negb].
    + destruct (KPIExtractor.first_category _ _) as [nombre|].
      * destruct (KPIExtractor.abs_values years row) as [values|e] eqn:Ha;
          [|done].
        cbn [mbind res_bind bind]. intros Hloop. rewrite (IH _ Hloop).
        destruct (last_labelled _ _ rows); [done|].
        case_bool_decide as Hl; rewrite Hkey in Hl.
        -- injection Hl as ->. unfold recorded_abs. rewrite Ha.
           apply lookup_insert_eq.
        -- apply lookup_insert_ne. congruence.
      * intros Hloop. rewrite (IH _ Hloop).
        destruct (last_labelled _ _ rows); [done|].
        by rewrite bool_decide_eq_false_2 by (by rewrite Hkey).
    + intros Hloop. rewrite (IH _ Hloop).
      destruct (last_labelled _ _ rows); [done|].
      by rewrite bool_decide_eq_false_2 by (by rewrite Hkey).
Qed.

Lemma aprovisionamientos_loop_lookup (years : list string)
    (rows : list Series) (acc m : gmap string (gmap string cell))
    (name : string) :
  KPIExtractor.aprovisionamientos_loop years rows acc = Ok m ->
  m !! name
  = match last_labelled item_of name rows with
    | Some row => recorded_abs years row
    | None => acc !! name
    end.
Proof.
  revert acc. induction rows as [|row rows IH]; intros acc;
    cbn [KPIExtractor.aprovisionamientos_loop].
  - by intros [= <-].
  - rewrite last_labelled_cons.
    assert (item_of row
            = if nonempty (KPIExtractor.concepto_of row)
                 && Re.match_ false Config.aprovisionamientos_detalle
                      (KPIExtractor.concepto_of row)
              then Some (KPIExtractor.item_name
                           Config.aprovisionamientos_detalle
                           (KPIExtractor.concepto_of row))
              else None) as Hkey by done.
    destruct (nonempty (KPIExtractor.concepto_of row)); cbn [negb andb] in *.
    + destruct (Re.match_ _ _ _).
      * destruct (KPIExtractor.abs_values years row) as [values|e] eqn:Ha;
          [|done].
        cbn [mbind res_bind bind]. intros Hloop. rewrite (IH _ Hloop).
        destruct (last_labelled _ _ rows); [done|].
        case_bool_decide as Hl; rewrite Hkey in Hl.
        -- injection Hl as <-. unfold recorded_abs. rewrite Ha.
           apply lookup_insert_eq.
        -- apply lookup_insert_ne. congruence.
      * intros Hloop. rewrite (IH _ Hloop).
        destruct (last_labelled _ _ rows); [done|].
        by rewrite bool_decide_eq_false_2 by (by rewrite Hkey).
    + intros Hloop. rewrite (IH _ Hloop).
      destruct (last_labelled _ _ rows); [done|].
      by rewrite bool_decide_eq_false_2 by (by rewrite Hkey).
Qed.

Lemma first_category_elem (categories : list (Re.regex * string))
    (concepto label : string) :
  KPIExtractor.first_category categories concepto = Some label ->
  label ∈ categories.*2.
Proof.
  induction categories as [|[pattern nombre] categories IH];
    cbn [KPIExtractor.first_category]; [done|].
  destruct (Re.search _ _ _).
  - intros [= ->]. apply list_elem_of_here.
  - intros Hl. right. by apply IH.
Qed.

Lemma last_labelled_key (key : Series -> option string) (label : string)
    (rows : list Series) (row : Series) :
  last_labelled key label rows = Some row ->
  row ∈ rows /\ key row = Some label.
Proof.
  unfold last_labelled. intros Hl%last_Some_elem_of.
  apply list_elem_of_In, filter_In in Hl as [Hin Hk].
  split; [by apply list_elem_of_In|]. by apply bool_decide_eq_true in Hk.
Qed.

(** X16: the personnel and other-expenses details file each row with a
    non-empty label under the first category whose pattern is found in
    it; an entry holds the absolute year values of the last row filed
    under its label, and every key is one of the labels of the list. *)
Theorem expense_categories_last_row (df : DataFrame string)
    (years : list string) :
  numeric_years years (iterrows df) = true ->
  let self := KPIExtractor.init df years in
  exists p o,
    KPIExtractor._extract_personal self = Ok p /\
    KPIExtractor._extract_otros_gastos self = Ok o /\
    forall label,
      p !! label
      = (last_labelled (category_of Config.personal_detalle) label
           (iterrows df) ≫= recorded_abs years) /\
      o !! label
      = (last_labelled (category_of Config.otros_gastos_detalle) label
           (iterrows df) ≫= recorded_abs years) /\
      (is_Some (p !! label) -> label ∈ Config.personal_detalle.*2) /\
      (is_Some (o !! label) -> label ∈ Config.otros_gastos_detalle.*2).
Proof.
  intros Hnum self.
  destruct (categories_loop_nonneg Config.personal_detalle years
              (iterrows df) ∅ Hnum all_nonneg_empty) as (p & Hp & _).
  destruct (categories_loop_nonneg Config.otros_gastos_detalle years
              (iterrows df) ∅ Hnum all_nonneg_empty) as (o & Ho & _).
  exists p, o. split; [done|]. split; [done|]. intros label.
  pose proof (categories_loop_lookup _ _ _ _ _ label Hp) as Hpl.
  pose proof (categories_loop_lookup _ _ _ _ _ label Ho) as Hol.
  rewrite Hpl, Hol.
  destruct (last_labelled (category_of Config.personal_detalle) _ _)
    as [rp|] eqn:Ep;
    destruct (last_labelled (category_of Config.otros_gastos_detalle) _ _)
      as [ro|] eqn:Eo; cbn [mbind option_bind]; rewrite ?lookup_empty;
    (split; [done|]); (split; [done|]); split; intros Hs;
    try (by destruct Hs).
  all: try (apply last_labelled_key in Ep as [_ Ep]; unfold category_of in Ep;
            destruct (nonempty _); [|done];
            by eapply first_category_elem).
  all: apply last_labelled_key in Eo as [_ Eo]; unfold category_of in Eo;
    destruct (nonempty _); [|done]; by eapply first_category_elem.
Qed.

(** X17: the purchases detail files every row whose label starts with
    the item prefix, wherever it stands in the grid: there is no parent
    row and no window as for servicios.  An entry holds the absolute year
    values of the last row of its name. *)
Theorem aprovisionamientos_every_item (df : DataFrame string)
    (years : list string) :
  numeric_years years (iterrows df) = true ->
  exists a,
    KPIExtractor._extract_aprovisionamientos (KPIExtractor.init df years)
    = Ok a /\
    forall name,
      a !! name
      = (last_labelled item_of name (iterrows df) ≫= recorded_abs years).
Proof.
  intros Hnum.
  destruct (aprovisionamientos_loop_nonneg years (iterrows df) ∅ Hnum
              all_nonneg_empty) as (a & Ha & _).
  exists a. split; [done|]. intros name.
  rewrite (aprovisionamientos_loop_lookup _ _ _ _ name Ha).
  by destruct (last_labelled _ _ _).
Qed.

(** X18: without a parent row the servicios map is empty, whatever item
    rows the grid has. *)
Theorem servicios_need_parent (df : DataFrame string)
    (years : list string) :
  existsb is_parent (iterrows df) = false ->
  KPIExtractor._extract_servicios (KPIExtractor.init df years) = ∅.
Proof.
  intros Hno. apply map_empty. intros name.
  apply eq_None_not_Some. intros [vals Hvals].
  destruct (servicios_loop_inv years (iterrows df)) as [_ Hmap].
  apply Hmap in Hvals as (row & (pre & post & Hrows & Hcap & _) & _).
  destruct Hcap as ((p1 & r & p2 & -> & Hpar & _) & _).
  rewrite Hrows in Hno. rewrite <- app_assoc in Hno.
  rewrite existsb_app in Hno. cbn [app existsb] in Hno.
  rewrite Hpar in Hno. cbn in Hno. by rewrite orb_true_r in Hno.
Qed.

End detail_maps.

Lemma found_and_missing_lists_witness :
  exists st,
    KPIExtractor.extract_all (H := Sample.runtime)
      (KPIExtractor.init DetailSheets.loss_frame ["2024"]) = Ok st /\
    KPIExtractor.get_found_kpis st = ["ingresos"; "resultado_neto"] /\
    KPIExtractor.get_missing_kpis st
    = ["aprovisionamientos"; "gastos_personal"; "otros_gastos";
       "amortizacion"; "ebitda"].
Proof.
  destruct (found_and_missing_lists (H := Sample.runtime)
              DetailSheets.loss_frame ["2024"])
    as (st & Hst & Hf & Hm & _).
  { vm_compute; reflexivity. }
  exists st. split; [exact Hst|].
  split; [exact (eq_trans Hf ltac:(vm_compute; reflexivity))
         |exact (eq_trans Hm ltac:(vm_compute; reflexivity))].
Defined.

Lemma extract_all_twice_witness :
  exists st st2,
    KPIExtractor.extract_all (H := Sample.runtime)
      (KPIExtractor.init DetailSheets.loss_frame ["2024"]) = Ok st /\
    KPIExtractor.extract_all st = Ok st2 /\
    KPIExtractor.get_found_kpis st2
    = KPIExtractor.get_found_kpis st ++ KPIExtractor.get_found_kpis st.
Proof.
  destruct (extract_all_twice (H := Sample.runtime)
              DetailSheets.loss_frame ["2024"])
    as (st & st2 & Hst & Hst2 & _ & Hf & _).
  { vm_compute; reflexivity. }
  exists st, st2. split; [exact Hst|]. split; [exact Hst2|exact Hf].
Defined.

Lemma unflipped_sign_keeps_cell_witness :
  ExtractorSpec.kpi_value
    (KPIExtractor.extract_all (H := Sample.runtime)
       (KPIExtractor.init DetailSheets.loss_frame ["2024"]))
    "resultado_neto" "2024"
  = Some (Number (-250)).
Proof.
  refine (unflipped_sign_keeps_cell (H := Sample.runtime)
            DetailSheets.loss_frame ["2024"] "resultado_neto"
            (default (Config.Build_config [] 1 true None)
               (dict_get "resultado_neto" Config.KPI_MAPPINGS))
            (take 1 (iterrows DetailSheets.loss_frame))
            (drop 2 (iterrows DetailSheets.loss_frame))
            (zip ["Concepto"; "2024"]
               [Text "D) RESULTADO DEL EJERCICIO"; Number (-250)])
            "2024" _ _ _ _ _ _ _).
  - vm_compute; reflexivity.
  - vm_compute; reflexivity.
  - vm_compute; reflexivity.
  - vm_compute; reflexivity.
  - vm_compute; reflexivity.
  - vm_compute; reflexivity.
  - apply list_elem_of_here.
Defined.

Lemma expense_categories_last_row_witness :
  exists p,
    KPIExtractor._extract_personal (H := Sample.runtime)
      (KPIExtractor.init DetailSheets.personal_frame ["2024"]) = Ok p /\
    ExtractorSpec.detail_value p "Sueldos y Salarios" "2024"
    = Some (Number 200) /\
    ExtractorSpec.detail_value p "Seguridad Social" "2024" = None.
Proof.
  destruct (expense_categories_last_row (H := Sample.runtime)
              DetailSheets.personal_frame ["2024"])
    as (p & o & Hp & _ & Hl).
  { vm_compute; reflexivity. }
  exists p. split; [exact Hp|]. unfold ExtractorSpec.detail_value.
  rewrite (proj1 (Hl "Sueldos y Salarios")), (proj1 (Hl "Seguridad Social")).
  split; vm_compute; reflexivity.
Defined.

Lemma aprovisionamientos_every_item_witness :
  exists a,
    KPIExtractor._extract_aprovisionamientos (H := Sample.runtime)
      (KPIExtractor.init DetailSheets.personal_frame ["2024"]) = Ok a /\
    ExtractorSpec.detail_value a "Compras varias" "2024"
    = Some (Number 40).
Proof.
  destruct (aprovisionamientos_every_item (H := Sample.runtime)
              DetailSheets.personal_frame ["2024"])
    as (a & Ha & Hl).
  { vm_compute; reflexivity. }
  exists a. split; [exact Ha|]. unfold ExtractorSpec.detail_value.
  rewrite (Hl "Compras varias"). vm_compute; reflexivity.
Defined.

Lemma servicios_need_parent_witness :
  KPIExtractor._extract_servicios (H := Sample.runtime)
    (KPIExtractor.init DetailSheets.personal_frame ["2024"]) = ∅.
Proof.
  apply servicios_need_parent. vm_compute; reflexivity.
Defined.

(** ** The ingestor: what a load leaves behind *)

Section loader_more.
Context `{Runtime}.
Import LoaderSpec ExtractorSpec DetectSpec.

Lemma dict_get_set {V} (k k' : string) (v : V) (d : list (string * V)) :
  dict_get k' (dict_set k v d)
  = if String.eqb k' k then Some v else dict_get k' d.
Proof.
  induction d as [|[k0 v0] d IH]; cbn [dict_set dict_get]; [done|].
  destruct (String.eqb k k0) eqn:E; cbn [dict_get].
  - apply String.eqb_eq in E as ->. by destruct (String.eqb k' k0).
  - rewrite IH. destruct (String.eqb k' k0) eqn:E'; [|done].
    apply String.eqb_eq in E' as ->.
    by rewrite String.eqb_sym, E.
Qed.

Lemma dict_set_keys {V} (k k' : string) (v : V) (d : list (string * V)) :
  k' ∈ (dict_set k v d).*1 <-> k' = k \/ k' ∈ d.*1.
Proof.
  induction d as [|[k0 v0] d IH]; cbn [dict_set fmap list_fmap fst].
  - rewrite list_elem_of_singleton. rewrite elem_of_nil. tauto.
  - destruct (String.eqb k k0) eqn:E; cbn [fmap list_fmap fst].
    + apply String.eqb_eq in E as ->. rewrite !elem_of_cons. tauto.
    + rewrite !elem_of_cons, IH. tauto.
Qed.

Lemma dict_set_NoDup {V} (k : string) (v : V) (d : list (string * V)) :
  NoDup d.*1 -> NoDup (dict_set k v d).*1.
Proof.
  induction d as [|[k0 v0] d IH]; cbn [dict_set fmap list_fmap fst].
  - intros _. apply NoDup_singleton.
  - intros [Hk0 Hd]%NoDup_cons.
    destruct (String.eqb k k0) eqn:E; cbn [fmap list_fmap fst].
    + apply String.eqb_eq in E as ->. by apply NoDup_cons.
    + apply NoDup_cons. split; [|by apply IH].
      rewrite dict_set_keys. intros [->|?]; [|done].
      by rewrite String.eqb_refl in E.
Qed.

Lemma dict_set_head {V} (k : string) (v : V) (d : list (string * V)) :
  d <> [] -> head (dict_set k v d).*1 = head d.*1.
Proof.
  destruct d as [|[k0 v0] d]; [done|]. intros _. cbn [dict_set].
  destruct (String.eqb k k0) eqn:E; [|done].
  by apply String.eqb_eq in E as ->.
Qed.

Lemma keep_fold_get (ycs : list (nat * string)) (init : list (string * nat))
    (k : string) :
  dict_get k (foldl (fun keep '(idx, year) => dict_set year idx keep)
                init ycs)
  = match last (List.filter (fun p => String.eqb p.2 k) ycs) with
    | Some p => Some p.1
    | None => dict_get k init
    end.
Proof.
  revert init. induction ycs as [|[i y] ycs IH]; intros init; [done|].
  cbn [foldl List.filter snd]. rewrite IH, dict_get_set.
  rewrite (String.eqb_sym k y).
  destruct (String.eqb y k); [|done].
  rewrite last_cons. by destruct (last _).
Qed.

Lemma keep_fold_keys (ycs : list (nat * string))
    (init : list (string * nat)) (k : string) :
  k ∈ (foldl (fun keep '(idx, year) => dict_set year idx keep)
         init ycs).*1
  <-> k ∈ init.*1 \/ k ∈ ycs.*2.
Proof.
  revert init. induction ycs as [|[i y] ycs IH]; intros init.
  - cbn. rewrite elem_of_nil. tauto.
  - cbn [foldl fmap list_fmap snd]. rewrite IH, dict_set_keys, elem_of_cons.
    tauto.
Qed.

Lemma keep_fold_NoDup (ycs : list (nat * string))
    (init : list (string * nat)) :
  NoDup init.*1 ->
  NoDup (foldl (fun keep '(idx, year) => dict_set year idx keep)
           init ycs).*1.
Proof.
  revert init. induction ycs as [|[i y] ycs IH]; intros init Hnd; [done|].
  cbn [foldl]. by apply IH, dict_set_NoDup.
Qed.

Lemma keep_fold_head (ycs : list (nat * string))
    (init : list (string * nat)) :
  init <> [] ->
  head (foldl (fun keep '(idx, year) => dict_set year idx keep)
          init ycs).*1 = head init.*1.
Proof.
  revert init. induction ycs as [|[i y] ycs IH]; intros init Hne; [done|].
  cbn [foldl]. rewrite IH, dict_set_head; [done..|].
  by destruct init as [|[? ?] ?]; cbn; [|destruct (String.eqb _ _)].
Qed.

Lemma get_kept_row (keep : list (string * nat)) (r : list cell)
    (k : string) :
  get (zip keep.*1 ((fun '(_, idx) => at_ r idx) <$> keep)) k
  = at_ r <$> dict_get k keep.
Proof.
  unfold get. induction keep as [|[k0 i] keep IH]; [done|].
  cbn [fmap list_fmap fst zip zip_with dict_get].
  destruct (String.eqb k k0); [done|]. apply IH.
Qed.

Lemma coerce_idemp (v : cell) : coerce (coerce v) = coerce v.
Proof.
  unfold coerce. destruct v as [s|q|]; cbn; [|done|done].
  by destruct (parse_num s).
Qed.

Lemma get_clean_row (cols years : list string) (r : list cell)
    (y : string) :
  get (zip cols (clean_row cols years r)) y
  = if bool_decide (y ∈ years) then coerce <$> get (zip cols r) y
    else get (zip cols r) y.
Proof.
  revert r. induction years as [|y0 years IH]; intros r.
  - by rewrite bool_decide_eq_false_2 by apply not_elem_of_nil.
  - change (clean_row cols (y0 :: years) r)
      with (clean_row cols years (update_row y0 coerce cols r)).
    rewrite IH, get_update_row.
    destruct (decide (y = y0)) as [->|Hne].
    + rewrite (bool_decide_eq_true_2 (y0 ∈ y0 :: years))
        by apply list_elem_of_here.
      case_bool_decide; [|done].
      destruct (get (zip cols r) y0) as [v|]; [|done]. cbn.
      f_equal. apply coerce_idemp.
    + destruct (decide (y ∈ years)) as [Hin|Hin].
      * rewrite !bool_decide_eq_true_2; [done|by right|done].
      * rewrite !bool_decide_eq_false_2; [done| |done].
        by intros [?|?]%elem_of_cons.
Qed.

Lemma update_row_length (name : string) (f : cell -> cell)
    (cols : list string) (r : list cell) :
  length (update_row name f cols r) = length r.
Proof.
  revert r. induction cols as [|c cols IH]; intros [|v r]; cbn; try done.
  by rewrite IH.
Qed.

Lemma clean_row_length (cols years : list string) (r : list cell) :
  length (clean_row cols years r) = length r.
Proof.
  revert r. induction years as [|y years IH]; intros r; [done|].
  change (clean_row cols (y :: years) r)
    with (clean_row cols years (update_row y coerce cols r)).
  by rewrite IH, update_row_length.
Qed.

(** What [_detect_and_rename_columns] builds when years were
    detected. *)
Lemma detect_detected (self : DataLoader.t) (raw : DataFrame cell) :
  DataLoader._raw_df self = Some raw ->
  DataLoader.detect_year_columns raw <> [] ->
  DataLoader._detect_and_rename_columns self
  = Ok {| DataLoader.df :=
            Some (mkDF (keep_of raw).*1
                    ((fun r => (fun '(_, idx) => at_ r idx) <$> keep_of raw)
                       <$> rows raw));
          DataLoader.years :=
            DataLoader.sorted_set_reverse
              (snd <$> DataLoader.detect_year_columns raw);
          DataLoader._raw_df := Some raw |}.
Proof.
  intros Hraw Hne.
  unfold DataLoader._detect_and_rename_columns, keep_of, concepto_col.
  rewrite Hraw.
  destruct (DataLoader.detect_year_columns raw) as [|p ycs]; [done|].
  cbn [mbind res_bind bind].
  pose proof (sorted_set_reverse_nonempty (snd <$> p :: ycs)) as Hys.
  destruct (DataLoader.sorted_set_reverse (snd <$> p :: ycs)) eqn:Es;
    [by destruct Hys|].
  reflexivity.
Qed.

(** What [load] returns when years were detected. *)
Lemma load_detected (self self' : DataLoader.t) (raw : DataFrame cell)
    (d : DataFrame string) :
  no_year_tokens raw = false ->
  DataLoader.load self (Ok raw) = (self', Ok d) ->
  DataLoader.get_years self' = detected_years raw /\
  d = detected_frame raw.
Proof.
  intros Hyes (raw' & self1 & [= <-] & Hdet & -> & _ & Hd)%load_ok_inv.
  assert (DataLoader.detect_year_columns raw <> []) as Hne.
  { intros Hnil%detect_year_columns_nil. congruence. }
  rewrite (detect_detected
             {| DataLoader.df := DataLoader.df self;
                DataLoader.years := DataLoader.years self;
                DataLoader._raw_df := Some raw |} raw eq_refl Hne) in Hdet.
  injection Hdet as <-.
  unfold DataLoader.get_years. rewrite clean_data_years.
  split; [done|].
  unfold DataLoader._clean_data in Hd.
  cbn [DataLoader.df DataLoader.years] in Hd.
  rewrite clean_data_rows in Hd. by injection Hd as <-.
Qed.


Lemma concepto_not_detected (raw : DataFrame cell) :
  "Concepto" ∉ (DataLoader.detect_year_columns raw).*2.
Proof.
  intros (p & Hp & Hin)%list_elem_of_fmap.
  apply detect_year_columns_elem in Hin. by rewrite <- Hp in Hin.
Qed.

Lemma keep_of_keys (raw : DataFrame cell) (c : string) :
  c ∈ (keep_of raw).*1
  <-> c = "Concepto" \/ c ∈ (DataLoader.detect_year_columns raw).*2.
Proof.
  unfold keep_of. rewrite keep_fold_keys. cbn [fmap list_fmap fst].
  by rewrite list_elem_of_singleton.
Qed.

(** X19: in the layout with detected years the frame [load] returns has
    the column [Concepto] first and then one column per year of
    [get_years], no label twice; it has one row per row of the sheet, each
    of the width of the frame. *)
Theorem detected_frame_columns (self self' : DataLoader.t)
    (raw : DataFrame cell) (d : DataFrame string) :
  no_year_tokens raw = false ->
  DataLoader.load self (Ok raw) = (self', Ok d) ->
  head (columns d) = Some "Concepto" /\
  NoDup (columns d) /\
  (forall c, c ∈ columns d <->
             c = "Concepto" \/ c ∈ DataLoader.get_years self') /\
  length (rows d) = length (rows raw) /\
  Forall (fun r => length r = length (columns d)) (rows d).
Proof.
  intros Hyes Hload.
  destruct (load_detected _ _ _ _ Hyes Hload) as [Hys ->].
  unfold detected_frame. cbn [columns rows]. split.
  { unfold keep_of. by rewrite keep_fold_head. }
  split.
  { unfold keep_of. apply keep_fold_NoDup. cbn. apply NoDup_singleton. }
  split.
  { intros c. rewrite keep_of_keys, Hys. unfold detected_years.
    by rewrite sorted_set_reverse_elem. }
  split; [by rewrite !length_fmap|].
  apply Forall_forall. intros r (r1 & -> & Hr1)%list_elem_of_fmap.
  apply list_elem_of_fmap in Hr1 as (r0 & -> & _).
  by rewrite clean_row_length, !length_fmap.
Qed.

(** Where the cells of a row of the detected layout come from. *)
Lemma detected_frame_row (raw : DataFrame cell) (k : nat) (r : list cell) :
  rows raw !! k = Some r ->
  exists row,
    iterrows (detected_frame raw) !! k = Some row /\
    get row "Concepto" = Some (at_ r (concepto_col raw)) /\
    forall y, y ∈ detected_years raw ->
      exists i, source_index raw y = Some i /\
                get row y = Some (coerce (at_ r i)).
Proof.
  intros Hr. unfold iterrows, detected_frame, detected_years.
  cbn [columns rows].
  rewrite !list_lookup_fmap, Hr. cbn [fmap option_fmap option_map].
  eexists. split; [done|].
  assert (forall y, dict_get y (keep_of raw)
                    = match source_index raw y with
                      | Some i => Some i
                      | None => if String.eqb y "Concepto"
                                then Some (concepto_col raw) else None
                      end) as Hkeep.
  { intros y. unfold keep_of, source_index. rewrite keep_fold_get.
    by destruct (last _). }
  split.
  - rewrite get_clean_row, get_kept_row, Hkeep.
    rewrite bool_decide_eq_false_2.
    2:{ rewrite sorted_set_reverse_elem. apply concepto_not_detected. }
    unfold source_index.
    destruct (last _) as [[i y]|] eqn:El; [|done].
    apply last_Some_elem_of, list_elem_of_In, filter_In in El as [Hin Hy].
    cbn in Hy. apply String.eqb_eq in Hy as ->.
    destruct (concepto_not_detected raw).
    apply list_elem_of_fmap. exists (i, "Concepto"). split; [done|].
    by apply list_elem_of_In.
  - intros y Hy.
    rewrite get_clean_row, bool_decide_eq_true_2 by done.
    rewrite get_kept_row, Hkeep.
    rewrite sorted_set_reverse_elem in Hy.
    apply list_elem_of_fmap in Hy as ([i0 y0] & -> & Hin). cbn [snd].
    unfold source_index.
    destruct (last _) as [[i y]|] eqn:El.
    + exists i. by split.
    + apply last_None in El.
      assert (In (i0, y0)
                (List.filter (fun p => String.eqb p.2 y0)
                   (DataLoader.detect_year_columns raw))) as Hf.
      { apply filter_In. split; [by apply list_elem_of_In|].
        apply String.eqb_refl. }
      by rewrite El in Hf.
Qed.

(** X20: in the layout with detected years, row [k] of the frame holds
    under [Concepto] the cell of the raw row in the concept column, and
    under each year of [get_years] the cell of the raw row in the column
    where the year was detected, the last detection counting, coerced to
    a number with 0 for what is not one. *)
Theorem detected_cells_source (self self' : DataLoader.t)
    (raw : DataFrame cell) (d : DataFrame string)
    (k : nat) (r : list cell) :
  no_year_tokens raw = false ->
  DataLoader.load self (Ok raw) = (self', Ok d) ->
  rows raw !! k = Some r ->
  exists row,
    iterrows d !! k = Some row /\
    get row "Concepto" = Some (at_ r (concepto_col raw)) /\
    forall y, y ∈ DataLoader.get_years self' ->
      exists i, source_index raw y = Some i /\
                get row y = Some (coerce (at_ r i)).
Proof.
  intros Hyes Hload Hr.
  destruct (load_detected _ _ _ _ Hyes Hload) as [-> ->].
  by apply detected_frame_row.
Qed.

Lemma count_total_pos (d : DataFrame string) (ys : list string) (n : nat) :
  foldl (fun total year => (total + DataLoader.count_nonzero d year)%nat)
        n ys <> 0%nat ->
  n <> 0%nat \/ exists y, y ∈ ys /\ DataLoader.count_nonzero d y <> 0%nat.
Proof.
  revert n. induction ys as [|y ys IH]; intros n; cbn [foldl]; [by left|].
  intros [Hn|(y' & Hy' & Hc)]%IH.
  - destruct (decide (n = 0%nat)) as [->|Hn0]; [|by left].
    right. exists y. split; [apply list_elem_of_here|lia].
  - right. exists y'. split; [by right|done].
Qed.

(** X22: a frame that [load] returns has a row; its cells under the
    years of [get_years] are numbers; and at least one of them is not
    zero. *)
Theorem returned_frame_has_figures (self self' : DataLoader.t)
    (read : res (DataFrame cell)) (d : DataFrame string) :
  DataLoader.load self read = (self', Ok d) ->
  rows d <> [] /\
  (forall row y v,
     row ∈ iterrows d -> y ∈ DataLoader.get_years self' ->
     get row y = Some v -> exists q, v = Number q) /\
  exists row y q,
    row ∈ iterrows d /\ y ∈ DataLoader.get_years self' /\
    get row y = Some (Number q) /\ ~ (q == 0)%Q.
Proof.
  intros Hload.
  pose proof (loaded_frame_numeric _ _ _ _ Hload) as Hnum.
  assert (forall row y v,
            row ∈ iterrows d -> y ∈ DataLoader.get_years self' ->
            get row y = Some v -> exists q, v = Number q) as Hcells.
  { intros row y v Hrow Hy Hv. unfold numeric_years in Hnum.
    rewrite forallb_forall in Hnum.
    specialize (Hnum row (proj1 (list_elem_of_In _ _) Hrow)).
    unfold numeric_row in Hnum. rewrite forallb_forall in Hnum.
    specialize (Hnum y (proj1 (list_elem_of_In _ _) Hy)).
    rewrite Hv in Hnum. destruct v as [s|q|]; try done. by exists q. }
  apply load_ok_inv in Hload as (raw & self1 & _ & _ & _ & Hval & Hd).
  unfold DataLoader._validate_structure in Hval. rewrite Hd in Hval.
  destruct (Nat.eqb (length (rows d)) 0) eqn:Hlen; [done|].
  split. { intros Hnil. by rewrite Hnil in Hlen. }
  split; [exact Hcells|].
  destruct (List.filter _ (DataLoader.years self')) as [|y0 ys] eqn:Hf;
    [done|].
  destruct (Nat.eqb _ 0) eqn:Htot in Hval; [done|].
  apply Nat.eqb_neq, count_total_pos in Htot as [?|(y & Hy & Hc)]; [done|].
  rewrite <- Hf in Hy. apply list_elem_of_In, filter_In in Hy as [Hy _].
  apply list_elem_of_In in Hy.
  unfold DataLoader.count_nonzero in Hc.
  destruct (List.filter _ (iterrows d)) as [|row rest] eqn:Hrows; [done|].
  assert (In row (List.filter
                    (fun row => match get row y with
                                | Some v => ne0 v
                                | None => false
                                end) (iterrows d))) as Hin
    by (rewrite Hrows; by left).
  apply filter_In in Hin as [Hrow Hne]. apply list_elem_of_In in Hrow.
  destruct (get row y) as [v|] eqn:Hv; [|done].
  destruct (Hcells row y v Hrow Hy Hv) as [q ->].
  exists row, y, q. split; [done|]. split; [done|]. split; [done|].
  cbn in Hne. apply negb_true_iff in Hne.
  intros Hq%Qeq_bool_iff. congruence.
Qed.


(** X24: [get_dataframe] after a [load] that returned answers the
    frame that was returned; [load] raises [DataLoadError] exactly when
    the file could not be read, and then the loader is as it was. *)
Theorem load_outcomes (self self' : DataLoader.t)
    (read : res (DataFrame cell)) (out : res (DataFrame string)) :
  DataLoader.load self read = (self', out) ->
  (forall d, out = Ok d -> DataLoader.get_dataframe self' = Ok d) /\
  (out = Raise DataLoadError <-> exists e, read = Raise e) /\
  ((exists e, read = Raise e) -> self' = self).
Proof.
  intros Hload. split.
  { intros d ->.
    apply load_ok_inv in Hload as (_ & _ & _ & _ & _ & _ & Hd).
    unfold DataLoader.get_dataframe. by rewrite Hd. }
  unfold DataLoader.load in Hload.
  destruct read as [raw|e0].
  - split; [|by intros [? ?]]. split; [|by intros [? ?]].
    intros ->. exfalso.
    destruct (DataLoader._detect_and_rename_columns _) as [self1|e1] eqn:Hdet.
    + destruct (validate_structure_outcome (DataLoader._clean_data self1))
        as [Hv|Hv]; rewrite Hv in Hload; [|done].
      by destruct (DataLoader.df (DataLoader._clean_data self1)).
    + injection Hload as _ ->.
      unfold DataLoader._detect_and_rename_columns in Hdet.
      cbn [DataLoader._raw_df] in Hdet.
      destruct (DataLoader.detect_year_columns raw).
      * destruct (Nat.leb _ _); [|done]. unfold set_columns in Hdet.
        by destruct (Nat.eqb _ _).
      * cbn [mbind res_bind bind] in Hdet.
        by destruct (DataLoader.sorted_set_reverse _).
  - injection Hload as <- <-. split; [|done]. split; [by eexists|done].
Qed.

(** [load] on a sheet with detected years, up to the final check. *)
Lemma load_detected_outcome (self : DataLoader.t) (raw : DataFrame cell) :
  no_year_tokens raw = false ->
  let self1 := {| DataLoader.df := Some (detected_frame raw);
                  DataLoader.years := detected_years raw;
                  DataLoader._raw_df := Some raw |} in
  DataLoader.load self (Ok raw)
  = (self1, match DataLoader._validate_structure self1 with
            | Ok _ => Ok (detected_frame raw)
            | Raise e => Raise e
            end).
Proof.
  intros Hyes self1. unfold DataLoader.load.
  assert (DataLoader.detect_year_columns raw <> []) as Hne.
  { intros Hnil%detect_year_columns_nil. congruence. }
  rewrite (detect_detected
             {| DataLoader.df := DataLoader.df self;
                DataLoader.years := DataLoader.years self;
                DataLoader._raw_df := Some raw |} raw eq_refl Hne).
  unfold DataLoader._clean_data.
  cbn [DataLoader.df DataLoader.years DataLoader._raw_df].
  rewrite clean_data_rows. cbn [columns rows].
  change (DataLoader.mk _ _ _) with self1.
  by destruct (DataLoader._validate_structure self1) as [[]|e].
Qed.

Lemma count_total_le (d : DataFrame string) (ys : list string) (n : nat) :
  (n <= foldl (fun total year =>
                 (total + DataLoader.count_nonzero d year)%nat) n ys)%nat.
Proof.
  revert n. induction ys as [|y ys IH]; intros n; cbn [foldl]; [done|].
  etrans; [|apply IH]. lia.
Qed.

Lemma count_total_ge (d : DataFrame string) (ys : list string) (y : string)
    (n : nat) :
  y ∈ ys ->
  (DataLoader.count_nonzero d y
   <= foldl (fun total year =>
               (total + DataLoader.count_nonzero d year)%nat) n ys)%nat.
Proof.
  revert n. induction ys as [|y0 ys IH]; intros n Hy;
    [by apply elem_of_nil in Hy|].
  cbn [foldl]. apply elem_of_cons in Hy as [->|Hy]; [|by apply IH].
  etrans; [|apply count_total_le]. lia.
Qed.

Lemma source_index_detected (raw : DataFrame cell) (y : string) (i : nat) :
  source_index raw y = Some i ->
  y ∈ (DataLoader.detect_year_columns raw).*2.
Proof.
  unfold source_index.
  destruct (last _) as [[i' y']|] eqn:El; [|done]. intros _.
  apply last_Some_elem_of, list_elem_of_In, filter_In in El as [Hin Hy].
  cbn in Hy. apply String.eqb_eq in Hy as ->.
  apply list_elem_of_fmap. exists (i', y). split; [done|].
  by apply list_elem_of_In.
Qed.

(** X21: a sheet with detected years is accepted as soon as one of its
    rows has, in the column a year is read from, a cell that is a number
    other than zero once coerced; [load] then returns the frame of the
    kept columns. *)
Theorem detected_sheet_accepted (self : DataLoader.t)
    (raw : DataFrame cell) (k : nat) (r : list cell) (y : string)
    (i : nat) :
  no_year_tokens raw = false ->
  rows raw !! k = Some r ->
  source_index raw y = Some i ->
  ne0 (coerce (at_ r i)) = true ->
  (DataLoader.load self (Ok raw)).2 = Ok (detected_frame raw).
Proof.
  intros Hyes Hr Hi Hne0.
  rewrite (load_detected_outcome self raw Hyes). cbn [snd].
  pose proof (source_index_detected _ _ _ Hi) as Hy.
  assert (y ∈ detected_years raw) as Hyear.
  { unfold detected_years. by rewrite sorted_set_reverse_elem. }
  destruct (detected_frame_row raw k r Hr) as (row & Hrow & _ & Hcells).
  destruct (Hcells y Hyear) as (i' & Hi' & Hv).
  assert (i' = i) as -> by congruence.
  unfold DataLoader._validate_structure.
  cbn [DataLoader.df DataLoader.years].
  assert (length (rows (detected_frame raw)) <> 0%nat) as Hlen.
  { unfold detected_frame. cbn [rows]. rewrite !length_fmap.
    apply lookup_lt_Some in Hr. lia. }
  apply Nat.eqb_neq in Hlen. rewrite Hlen.
  assert (In y (List.filter
                  (fun y => bool_decide (y ∈ columns (detected_frame raw)))
                  (detected_years raw))) as Hcol.
  { apply filter_In. split; [by apply list_elem_of_In|].
    apply bool_decide_eq_true. unfold detected_frame. cbn [columns].
    apply keep_of_keys. by right. }
  destruct (List.filter _ (detected_years raw)) as [|y0 ys] eqn:Hf;
    [done|].
  assert (DataLoader.count_nonzero (detected_frame raw) y <> 0%nat) as Hc.
  { unfold DataLoader.count_nonzero.
    assert (In row (List.filter
                      (fun row => match get row y with
                                  | Some v => ne0 v
                                  | None => false
                                  end) (iterrows (detected_frame raw))))
      as Hin.
    { apply filter_In. split.
      - apply list_elem_of_In. by eapply list_elem_of_lookup_2.
      - by rewrite Hv. }
    by destruct (List.filter _ (iterrows _)). }
  pose proof (count_total_ge (detected_frame raw) _ y 0
                (proj2 (list_elem_of_In _ _) Hcol)) as Hge.
  destruct (Nat.eqb (foldl _ _ _) 0) eqn:Htot; [|done].
  apply Nat.eqb_eq in Htot. lia.
Qed.

End loader_more.

Lemma detected_sheet_accepted_witness :
  (DataLoader.load DataLoader.init (Ok LoaderSheets.inline_sheet)).2
  = Ok (DetectSpec.detected_frame LoaderSheets.inline_sheet).
Proof.
  apply (detected_sheet_accepted (H := Sample.runtime) DataLoader.init
           LoaderSheets.inline_sheet 1
           [Text "Ventas netas del ejercicio"; Number 10; Number 20;
            Number 30] "2023" 2).
  - vm_compute; reflexivity.
  - reflexivity.
  - vm_compute; reflexivity.
  - vm_compute; reflexivity.
Defined.

Lemma detected_frame_columns_witness :
  (DataLoader.load DataLoader.init (Ok LoaderSheets.inline_sheet)).2
  = Ok LoaderSheets.inline_frame /\
  head (columns LoaderSheets.inline_frame) = Some "Concepto" /\
  length (rows LoaderSheets.inline_frame) = 2%nat.
Proof.
  split; [vm_compute; reflexivity|].
  destruct (detected_frame_columns (H := Sample.runtime) DataLoader.init
              (DataLoader.load DataLoader.init
                 (Ok LoaderSheets.inline_sheet)).1
              LoaderSheets.inline_sheet LoaderSheets.inline_frame)
    as (Hhead & _ & _ & Hlen & _).
  - vm_compute; reflexivity.
  - vm_compute; reflexivity.
  - split; [exact Hhead|exact Hlen].
Defined.

Lemma detected_cells_source_witness :
  exists row,
    iterrows LoaderSheets.inline_frame !! 1%nat = Some row /\
    get row "Concepto" = Some (Text "Ventas netas del ejercicio") /\
    DetectSpec.source_index LoaderSheets.inline_sheet "2024" = Some 3%nat /\
    get row "2024" = Some (Number 30).
Proof.
  destruct (detected_cells_source (H := Sample.runtime) DataLoader.init
              (DataLoader.load DataLoader.init
                 (Ok LoaderSheets.inline_sheet)).1
              LoaderSheets.inline_sheet LoaderSheets.inline_frame 1
              [Text "Ventas netas del ejercicio"; Number 10; Number 20;
               Number 30])
    as (row & Hrow & Hc & Hy).
  - vm_compute; reflexivity.
  - vm_compute; reflexivity.
  - reflexivity.
  - exists row. split; [exact Hrow|]. split; [exact Hc|].
    destruct (Hy "2024") as (i & Hi & Hv).
    + vm_compute. left.
    + split; [vm_compute; reflexivity|].
      assert (i = 3%nat) as ->.
      { apply (inj Some). rewrite <- Hi. vm_compute; reflexivity. }
      rewrite Hv. vm_compute; reflexivity.
Defined.

Lemma returned_frame_has_figures_witness :
  rows Sheets.pyg_frame <> [].
Proof.
  refine (proj1 (returned_frame_has_figures (H := Sample.runtime)
                   DataLoader.init
                   (DataLoader.load DataLoader.init (Ok Sheets.pyg_sheet)).1
                   (Ok Sheets.pyg_sheet) Sheets.pyg_frame _)).
  vm_compute; reflexivity.
Defined.


Lemma load_outcomes_witness :
  DataLoader.get_dataframe
    (DataLoader.load (H := Sample.runtime) DataLoader.init
       (Ok Sheets.pyg_sheet)).1
  = Ok Sheets.pyg_frame.
Proof.
  refine (proj1 (load_outcomes (H := Sample.runtime) DataLoader.init
                   (DataLoader.load DataLoader.init (Ok Sheets.pyg_sheet)).1
                   (Ok Sheets.pyg_sheet) (Ok Sheets.pyg_frame) _)
            Sheets.pyg_frame eq_refl).
  vm_compute; reflexivity.
Defined.

(** ** Pattern matching on labels, and the variation of two figures *)

Section text_facts.

Lemma isspace_lower_char (c : ascii) : isspace (lower_char c) = isspace c.
Proof. by destruct c as [[] [] [] [] [] [] [] []]. Qed.

Lemma lower_char_idemp (c : ascii) :
  lower_char (lower_char c) = lower_char c.
Proof. by destruct c as [[] [] [] [] [] [] [] []]. Qed.

Lemma lower_idemp (s : string) : lower (lower s) = lower s.
Proof.
  induction s as [|c s IH]; [done|]. cbn [lower].
  by rewrite lower_char_idemp, IH.
Qed.

Lemma lower_lstrip (s : string) : lower (lstrip s) = lstrip (lower s).
Proof.
  induction s as [|c s IH]; [done|]. cbn [lower lstrip].
  rewrite isspace_lower_char. by destruct (isspace c).
Qed.

Lemma lower_rstrip (s : string) : lower (rstrip s) = rstrip (lower s).
Proof.
  induction s as [|c s IH]; [done|]. cbn [lower rstrip].
  rewrite <- IH, isspace_lower_char.
  destruct (rstrip s) as [|b t]; [by destruct (isspace c)|done].
Qed.

Lemma lower_strip (s : string) : lower (strip s) = strip (lower s).
Proof. unfold strip. by rewrite lower_lstrip, lower_rstrip. Qed.

Lemma lstrip_idemp (s : string) : lstrip (lstrip s) = lstrip s.
Proof.
  induction s as [|c s IH]; [done|]. cbn [lstrip].
  destruct (isspace c) eqn:E; [done|]. cbn [lstrip]. by rewrite E.
Qed.

Lemma rstrip_fixed (t : string) :
  (forall c, LoaderSpec.last_char t = Some c -> isspace c = false) ->
  rstrip t = t.
Proof.
  induction t as [|a t IH]; [done|]. intros Hlast. cbn [rstrip].
  destruct t as [|b t'].
  - cbn. by rewrite (Hlast a eq_refl).
  - rewrite IH; [done|]. intros c Hc. by apply Hlast.
Qed.

Lemma strip_idemp (s : string) : strip (strip s) = strip s.
Proof.
  unfold strip at 1. rewrite (rstrip_fixed (strip s)).
  - unfold strip. apply lstrip_idemp.
  - apply strip_last.
Qed.

(** X25: [match_pattern] does not depend on the case of the text nor
    on the blanks around it: the text in lower case, the stripped text
    and the text itself match the same patterns. *)
Theorem match_pattern_ignores_case_and_margins (text : string)
    (patterns : list Re.regex) :
  Config.match_pattern (lower text) patterns
  = Config.match_pattern text patterns /\
  Config.match_pattern (strip text) patterns
  = Config.match_pattern text patterns.
Proof.
  unfold Config.match_pattern. split.
  - by rewrite lower_idemp.
  - by rewrite <- (lower_strip (strip text)), strip_idemp, lower_strip.
Qed.

End text_facts.

Section variation_facts.

Lemma Qeq_bool_false (x y : Q) : Qeq_bool x y = false -> ~ (x == y)%Q.
Proof. intros E Hq%Qeq_bool_iff. congruence. Qed.

Lemma Qabs_pos_of_nonzero (x : Q) : ~ (x == 0)%Q -> (0 < Qabs x)%Q.
Proof.
  intros Hx. destruct (Qlt_le_dec x 0) as [Hneg|Hpos].
  - rewrite (Qabs_neg x) by lra. lra.
  - rewrite (Qabs_pos x) by lra.
    destruct (Qlt_le_dec 0 x) as [|Hle]; [done|].
    destruct Hx. lra.
Qed.

(** X26: [calculate_variation] returns for all numbers, also for a
    previous value of zero, and the sign of what it returns is the sign of
    the change: positive exactly when the current value is above the
    previous one, whatever the sign of the previous value, negative when
    it is below, zero when they are equal. *)
Theorem variation_sign (current previous : Q) :
  exists v,
    Formatters.calculate_variation current previous = Ok v /\
    ((0 < v)%Q <-> (previous < current)%Q) /\
    ((v < 0)%Q <-> (current < previous)%Q) /\
    ((v == 0)%Q <-> (current == previous)%Q).
Proof.
  unfold Formatters.calculate_variation.
  destruct (Qeq_bool previous 0) eqn:Ep.
  - apply Qeq_bool_iff in Ep.
    destruct (Qeq_bool current 0) eqn:Ec.
    + apply Qeq_bool_iff in Ec. exists 0%Q. split; [done|].
      repeat split; intros; lra.
    + apply Qeq_bool_false in Ec.
      destruct (gt0 current) eqn:Eg.
      * apply gt0_true in Eg. exists 100%Q. split; [done|].
        repeat split; intros; lra.
      * apply gt0_false in Eg. exists (-100)%Q. split; [done|].
        repeat split; intros; lra.
  - apply Qeq_bool_false, Qabs_pos_of_nonzero in Ep.
    unfold truediv.
    destruct (Qeq_bool (Qabs previous) 0) eqn:Ea.
    { apply Qeq_bool_iff in Ea. lra. }
    cbn [mbind res_bind bind]. eexists. split; [done|].
    assert (0 < / Qabs previous)%Q as Hinv by (by apply Qinv_lt_0_compat).
    unfold Qdiv. set (b := (/ Qabs previous)%Q) in *.
    repeat split; intros; nra.
Qed.

End variation_facts.

(** ** The detail of the fixed assets, and texts in year columns *)

Section more_facts.
Context `{Runtime}.
Import ExtractorSpec RegistrySpec BalanceSpec.

Lemma activo_loop_lookup (years : list string) (rows : list Series)
    (acc m : gmap string (gmap string cell)) (label : string) :
  BalanceKPIExtractor.activo_loop years rows acc = Some m ->
  m !! label
  = match last_labelled activo_label label rows with
    | Some row => BalanceKPIExtractor.year_dict row years ∅
    | None => acc !! label
    end.
Proof.
  revert acc. induction rows as [|row rows IH]; intros acc;
    cbn [BalanceKPIExtractor.activo_loop].
  - by intros [= <-].
  - rewrite last_labelled_cons.
    fold (activo_label row).
    destruct (activo_label row) as [nombre|] eqn:Hkey.
    + destruct (BalanceKPIExtractor.year_dict row years ∅) as [values|]
        eqn:Hd; [|done].
      cbn [mbind option_bind]. intros Hloop. rewrite (IH _ Hloop).
      destruct (last_labelled _ _ rows); [done|].
      case_bool_decide as Hl.
      * injection Hl as ->. rewrite Hd. apply lookup_insert_eq.
      * apply lookup_insert_ne. congruence.
    + intros Hloop. rewrite (IH _ Hloop).
      destruct (last_labelled _ _ rows); [done|].
      by rewrite bool_decide_eq_false_2.
Qed.

Lemma activo_loop_some (years : list string) (rows : list Series)
    (acc : gmap string (gmap string cell)) :
  has_years years rows = true ->
  is_Some (BalanceKPIExtractor.activo_loop years rows acc).
Proof.
  revert acc. induction rows as [|row rows IH]; intros acc;
    cbn [BalanceKPIExtractor.activo_loop has_years forallb]; [by eexists|].
  intros [Hrow Hrows]%andb_true_iff.
  destruct (BalanceKPIExtractor.first_codigo _ _); [|by apply IH].
  destruct (balance_year_dict_some row years ∅ Hrow) as [vals ->].
  cbn. by apply IH.
Qed.

(** X11: the detail of the fixed assets files each row under the label
    of the first code of the list that its [Concepto] contains, letter
    case included; an entry holds the year cells of the last row filed
    under its label, as they are. *)
Theorem activo_detail_last_row (self : BalanceKPIExtractor.t) :
  has_years (BalanceKPIExtractor.years self)
    (iterrows (BalanceKPIExtractor.df self)) = true ->
  exists activo,
    BalanceKPIExtractor.extract_detailed_activo self = Some activo /\
    forall label,
      activo !! label
      = (last_labelled activo_label label
           (iterrows (BalanceKPIExtractor.df self))
         ≫= fun row =>
             BalanceKPIExtractor.year_dict row
               (BalanceKPIExtractor.years self) ∅).
Proof.
  intros Hyears. unfold BalanceKPIExtractor.extract_detailed_activo.
  destruct (activo_loop_some _ _ ∅ Hyears) as [activo Ha].
  exists activo. split; [done|]. intros label.
  rewrite (activo_loop_lookup _ _ _ _ label Ha).
  by destruct (last_labelled _ _ _).
Qed.

Lemma comprehension_raise_at (f : string -> res cell) (years : list string)
    (acc : gmap string cell) (y : string) (e : exn) :
  y ∈ years -> f y = Raise e ->
  exists e', KPIExtractor.comprehension f years acc = Raise e'.
Proof.
  revert acc. induction years as [|y0 years IH]; intros acc Hy Hf;
    [by apply elem_of_nil in Hy|].
  cbn [KPIExtractor.comprehension].
  destruct (f y0) as [v|e0] eqn:E0; [|by eexists].
  cbn [mbind res_bind bind].
  apply elem_of_cons in Hy as [->|Hy]; [congruence|]. by apply IH.
Qed.

Lemma comprehension_raises (f : string -> res cell) (years : list string)
    (acc : gmap string cell) (e : exn) :
  KPIExtractor.comprehension f years acc = Raise e ->
  exists y, y ∈ years /\ f y = Raise e.
Proof.
  revert acc. induction years as [|y0 years IH]; intros acc;
    cbn [KPIExtractor.comprehension]; [done|].
  destruct (f y0) as [v|e0] eqn:E0.
  - cbn [mbind res_bind bind]. intros (y & Hy & Hf)%IH.
    exists y. split; [by right|done].
  - cbn [mbind res_bind bind]. intros [= ->].
    exists y0. split; [apply list_elem_of_here|done].
Qed.

Lemma find_in_rows_raises (years : list string) (patterns : list Re.regex)
    (sign : Z) (rows : list Series) (e : exn) :
  KPIExtractor.find_in_rows years patterns sign rows = Raise e ->
  e = TypeError.
Proof.
  induction rows as [|row rows IH]; cbn [KPIExtractor.find_in_rows];
    [done|].
  destruct (KPIExtractor.found_in years patterns row); [|exact IH].
  destruct (KPIExtractor.comprehension _ _ _) as [d|e0] eqn:Hd; [done|].
  cbn [mbind res_bind bind]. intros [= <-].
  apply comprehension_raises in Hd as (y & _ & Hv).
  unfold KPIExtractor.year_value in Hv.
  destruct (get row y) as [[s|q|]|]; cbn in Hv; try done;
    destruct (Z.eqb sign (-1)); cbn in Hv; congruence.
Qed.

Lemma extract_loop_raises (items : list (string * Config.config))
    (self : KPIExtractor.t) (e : exn) :
  KPIExtractor.extract_loop items self = Raise e -> e = TypeError.
Proof.
  revert self. induction items as [|[name cfg] items IH]; intros self;
    cbn [KPIExtractor.extract_loop]; [done|].
  destruct (KPIExtractor.extract_one self (name, cfg)) as [self1|e1] eqn:E1.
  - cbn [mbind res_bind bind]. apply IH.
  - cbn [mbind res_bind bind]. intros [= <-].
    unfold KPIExtractor.extract_one, KPIExtractor._find_kpi in E1.
    destruct (KPIExtractor.find_in_rows _ _ _ _) as [[ys|]|e0] eqn:Hfind;
      cbn [mbind res_bind bind] in E1; [done| |].
    + destruct (Config.required cfg); [done|].
      destruct (KPIExtractor.comprehension _ _ _) as [d|e0] eqn:Hd; [done|].
      by apply comprehension_raises in Hd as (y & _ & Hv).
    + injection E1 as <-. by eapply find_in_rows_raises.
Qed.

(** X15: on a grid that was not cleaned, a text in a year column of the
    first row matching a concept whose sign is [-1] ends [extract_all]
    with the [TypeError] of [abs]. *)
Theorem text_in_year_column_raises (df : DataFrame string)
    (years : list string) (name : string) (cfg : Config.config)
    (pre post : list Series) (row : Series) (y s : string) :
  dict_get name Config.KPI_MAPPINGS = Some cfg ->
  Config.sign cfg = (-1)%Z ->
  iterrows df = pre ++ row :: post ->
  existsb (cell_matches years (Config.patterns cfg)) pre = false ->
  cell_matches years (Config.patterns cfg) row = true ->
  y ∈ years ->
  get row y = Some (Text s) ->
  KPIExtractor.extract_all (KPIExtractor.init df years) = Raise TypeError.
Proof.
  intros Hcfg Hsign Hrows Hpre Hrow Hy Hcell.
  destruct (KPIExtractor.extract_all _) as [st|e] eqn:Hall.
  - pose proof (extract_all_inv _ _ _ _ _ Hall Hcfg) as Hinv.
    rewrite Hrows, (find_in_rows_first _ _ _ _ _ _ Hpre Hrow) in Hinv.
    destruct (comprehension_raise_at
                (KPIExtractor.year_value (Config.sign cfg) row) years ∅
                y TypeError Hy) as [e' He'].
    { unfold KPIExtractor.year_value. by rewrite Hcell, Hsign. }
    by rewrite He' in Hinv.
  - f_equal. by eapply extract_loop_raises.
Qed.

End more_facts.

Lemma activo_detail_last_row_witness :
  exists activo,
    BalanceKPIExtractor.extract_detailed_activo (H := Sample.runtime)
      (BalanceKPIExtractor.mk BalanceSheets.activo_frame ["2025"])
    = Some activo /\
    ExtractorSpec.detail_value activo "Maquinaria" "2025"
    = Some (Number 120).
Proof.
  destruct (activo_detail_last_row (H := Sample.runtime)
              (BalanceKPIExtractor.mk BalanceSheets.activo_frame ["2025"]))
    as (activo & Ha & Hl).
  { vm_compute; reflexivity. }
  exists activo. split; [exact Ha|]. unfold ExtractorSpec.detail_value.
  rewrite (Hl "Maquinaria"). vm_compute; reflexivity.
Defined.

Lemma text_in_year_column_raises_witness :
  KPIExtractor.extract_all (H := Sample.runtime)
    (KPIExtractor.init
       (mkDF ["Concepto"; "2024"]
          [[Text "4. Aprovisionamientos"; Text "n/a"]]) ["2024"])
  = Raise TypeError.
Proof.
  refine (text_in_year_column_raises (H := Sample.runtime)
            (mkDF ["Concepto"; "2024"]
               [[Text "4. Aprovisionamientos"; Text "n/a"]]) ["2024"]
            "aprovisionamientos"
            (default (Config.Build_config [] 1 true None)
               (dict_get "aprovisionamientos" Config.KPI_MAPPINGS))
            [] []
            (zip ["Concepto"; "2024"]
               [Text "4. Aprovisionamientos"; Text "n/a"])
            "2024" "n/a" _ _ _ _ _ _ _).
  - vm_compute; reflexivity.
  - vm_compute; reflexivity.
  - reflexivity.
  - reflexivity.
  - vm_compute; reflexivity.
  - apply list_elem_of_here.
  - vm_compute; reflexivity.
Defined.
